(** * ZapFlow integration: the conversation engine, its session store and
      the webhook guards, embedded from the TypeScript sources.

    Sources embedded here:
    - [src/services/conversation.service.ts] (class [ConversationService]),
    - [src/services/redis.service.ts] (class [RedisService]),
    - the webhook controller (class [WebhookController]),
    - the parts of the payment and Z-API services the engine calls.

    Conventions of the embedding:
    - text is a [string] of UTF-8 bytes; [Js.length] counts UTF-16 code
      units as [String.prototype.length] does;
    - a JS number that holds an integer (a counter, an identifier, a
      length) is a [Z]; the result of [parseInt] is a [Js.Number], an
      integer as binary64 holds it, an infinity or [NaN]; an amount of
      money is a binary64 [float];
    - [async] code is a state-and-exception monad over [World], the
      state of the stores and of the outside services;
    - what is stored as JSON text (the [context] column, the sessions in
      Redis) is kept as the value the text was made from, and every
      read goes through [Json.roundTrip], which is [JSON.parse] after
      [JSON.stringify];
    - an outage is a state of the world that lasts for the whole call:
      [redis_up] says that the Redis client is connected and the server
      answers, [db_up] that the database answers. The moments in
      between, when the flag [isConnected] has not yet caught up with
      the server, are not part of the model;
    - timestamps of sessions ([createdAt], [updatedAt]) and the expiry of
      cache entries are left out: a turn is far shorter than any TTL. *)

From Stdlib Require Import ZArith Floats Ascii List Lia.
From Stdlib Require String.
From stdpp Require Import base option list gmap strings pretty.

#[local] Set Warnings "-register-all".
#[local] Open Scope Z_scope.

(** ** JavaScript strings *)

Module Js.

Definition code (c : ascii) : N := N_of_ascii c.

Definition bytes (l : list N) : string :=
  fold_right (fun n s => String (ascii_of_N n) s) "" l.

(** [\d]: the ten ASCII digits. *)
Definition isDigit (c : ascii) : bool :=
  ((48 <=? code c) && (code c <=? 57))%N.

Definition digitValue (c : ascii) : Z := Z.of_N (code c) - 48.

Definition isHexDigit (c : ascii) : bool :=
  isDigit c
  || ((65 <=? code c) && (code c <=? 70))%N
  || ((97 <=? code c) && (code c <=? 102))%N.

Definition hexValue (c : ascii) : Z :=
  if isDigit c then digitValue c
  else if (code c <=? 70)%N then Z.of_N (code c) - 55
  else Z.of_N (code c) - 87.

(** [WhiteSpace] and [LineTerminator] of ECMAScript, as UTF-8: what
    [trim], [\s] and [parseInt] skip. *)
Definition whiteSpace : list string :=
  map bytes
    ([[9]; [10]; [11]; [12]; [13]; [32]; [194; 160]; [225; 154; 128]]
     ++ map (fun n => [226; 128; n]) [128; 129; 130; 131; 132; 133; 134; 135; 136; 137; 138]
     ++ [[226; 128; 168]; [226; 128; 169]; [226; 128; 175];
         [226; 129; 159]; [227; 128; 128]; [239; 187; 191]])%N.

Fixpoint stripPrefix (p s : string) : option string :=
  match p, s with
  | EmptyString, _ => Some s
  | String a p', String b s' =>
      if Ascii.eqb a b then stripPrefix p' s' else None
  | String _ _, EmptyString => None
  end.

Fixpoint stripAny (ps : list string) (s : string) : option string :=
  match ps with
  | [] => None
  | p :: ps' =>
      match stripPrefix p s with
      | Some r => Some r
      | None => stripAny ps' s
      end
  end.

Fixpoint stripAll (fuel : nat) (ps : list string) (s : string) : string :=
  match fuel with
  | O => s
  | S fuel' =>
      match stripAny ps s with
      | Some r => stripAll fuel' ps r
      | None => s
      end
  end.

Definition trimStart (s : string) : string :=
  stripAll (String.length s) whiteSpace s.

Definition trimEnd (s : string) : string :=
  String.rev
    (stripAll (String.length s) (map String.rev whiteSpace) (String.rev s)).

Definition trim (s : string) : string := trimEnd (trimStart s).

(** [s.replace(/\s/g, '')]. *)
Fixpoint removeSpaces (fuel : nat) (s : string) : string :=
  match fuel with
  | O => s
  | S fuel' =>
      match stripAny whiteSpace s with
      | Some r => removeSpaces fuel' r
      | None =>
          match s with
          | EmptyString => EmptyString
          | String c r => String c (removeSpaces fuel' r)
          end
      end
  end.

Definition replaceSpaces (s : string) : string :=
  removeSpaces (String.length s) s.

(** [s.replace(/\D/g, '')]. *)
Fixpoint replaceNonDigits (s : string) : string :=
  match s with
  | EmptyString => EmptyString
  | String c r =>
      if isDigit c then String c (replaceNonDigits r) else replaceNonDigits r
  end.

(** [s.includes(sub)]. *)
Fixpoint includes (sub s : string) : bool :=
  match stripPrefix sub s with
  | Some _ => true
  | None =>
      match s with
      | EmptyString => false
      | String _ r => includes sub r
      end
  end.

(** [s.split(sep)] for a one-character separator. *)
Fixpoint split (sep : ascii) (s : string) : list string :=
  match s with
  | EmptyString => [EmptyString]
  | String c r =>
      if Ascii.eqb c sep then EmptyString :: split sep r
      else match split sep r with
           | h :: t => String c h :: t
           | [] => [String c EmptyString]
           end
  end.

(** [l.join(sep)]. *)
Fixpoint join (sep : string) (l : list string) : string :=
  match l with
  | [] => ""
  | [x] => x
  | x :: rest => x +:+ sep +:+ join sep rest
  end.

(** [s.charAt(i)]: a one-character string, or the empty string. *)
Definition charAt (s : string) (i : nat) : string :=
  match String.get i s with
  | Some c => String c EmptyString
  | None => EmptyString
  end.

(** [s.length]: UTF-16 code units of the text the bytes encode. *)
Fixpoint length (s : string) : nat :=
  match s with
  | EmptyString => O
  | String c r =>
      ((if (code c <? 128)%N then 1
        else if (code c <? 192)%N then 0
        else if (code c <? 240)%N then 1
        else 2) + length r)%nat
  end.

Definition lowerChar (c : ascii) : ascii :=
  if ((65 <=? code c) && (code c <=? 90))%N then ascii_of_N (code c + 32) else c.

Definition upperChar (c : ascii) : ascii :=
  if ((97 <=? code c) && (code c <=? 122))%N then ascii_of_N (code c - 32) else c.

Fixpoint mapChars (f : ascii -> ascii) (s : string) : string :=
  match s with
  | EmptyString => EmptyString
  | String c r => String (f c) (mapChars f r)
  end.

(** [toLowerCase] and [toUpperCase] fold the letters A-Z and a-z; the
    bytes of other characters are kept, so both agree with JavaScript
    on every text whose cased letters are ASCII. *)
Definition toLowerCase (s : string) : string := mapChars lowerChar s.
Definition toUpperCase (s : string) : string := mapChars upperChar s.

(** [normalize('NFC')]: the text handled is taken to be composed
    already, where normalisation changes nothing. *)
Definition normalize (s : string) : string := s.

(** The longest prefix of digits of the given radix, as a value. *)
Fixpoint digitsValue (radix : Z) (acc : option Z) (s : string) : option Z :=
  match s with
  | EmptyString => acc
  | String c r =>
      let ok := if radix =? 16 then isHexDigit c else isDigit c in
      if ok then
        digitsValue radix (Some (default 0 acc * radix + hexValue c)) r
      else acc
  end.

(** *** Numbers

    The numbers of the engine that are not amounts of money hold an
    integer, an infinity or [NaN]: counters, identifiers, positions,
    the results of [parseInt]. Every binary64 number from 2^53 on is an
    integer, so [Int] holds any such number exactly. Negative zero is
    [Int 0]: it prints, compares and is stored as zero. *)
Inductive Number :=
| NaN
| Int (z : Z)
| Infinity (negative : bool).

(** The Number value of a mathematical integer: binary64, rounded to
    the nearest with ties to the even significand; from 2^1024 on, an
    infinity. *)
Definition toNumber (z : Z) : Number :=
  let a := Z.abs z in
  if a <? 2 ^ 53 then Int z
  else
    let shift := Z.log2 a - 52 in
    let q := Z.shiftr a shift in
    let r := a - Z.shiftl q shift in
    let half := Z.shiftl 1 (shift - 1) in
    let q' := if (half <? r) || ((half =? r) && Z.odd q) then q + 1 else q in
    let m := Z.shiftl q' shift in
    if 2 ^ 1024 <=? m then Infinity (z <? 0) else Int (Z.sgn z * m).

Definition isNaN (n : Number) : bool :=
  match n with NaN => true | _ => false end.

(** [a < b]. *)
Definition ltb (a b : Number) : bool :=
  match a, b with
  | Int x, Int y => x <? y
  | Int _, Infinity negative => negb negative
  | Infinity negative, Int _ => negative
  | Infinity x, Infinity y => x && negb y
  | NaN, _ | _, NaN => false
  end.

(** [a === b]: [NaN] equals nothing. *)
Definition strictEq (a b : Number) : bool :=
  match a, b with
  | Int x, Int y => x =? y
  | Infinity x, Infinity y => Bool.eqb x y
  | _, _ => false
  end.

(** [a + b]. *)
Definition add (a b : Number) : Number :=
  match a, b with
  | Int x, Int y => toNumber (x + y)
  | Int _, Infinity s | Infinity s, Int _ => Infinity s
  | Infinity x, Infinity y => if Bool.eqb x y then Infinity x else NaN
  | NaN, _ | _, NaN => NaN
  end.

(** [a * b]. *)
Definition mul (a b : Number) : Number :=
  match a, b with
  | Int x, Int y => toNumber (x * y)
  | Int x, Infinity s | Infinity s, Int x =>
      if x =? 0 then NaN else Infinity (xorb s (x <? 0))
  | Infinity x, Infinity y => Infinity (xorb x y)
  | NaN, _ | _, NaN => NaN
  end.

(** [a - b]. *)
Definition sub (a b : Number) : Number :=
  match a, b with
  | Int x, Int y => toNumber (x - y)
  | Int _, Infinity s => Infinity (negb s)
  | Infinity s, Int _ => Infinity s
  | Infinity x, Infinity y => if Bool.eqb x y then NaN else Infinity x
  | NaN, _ | _, NaN => NaN
  end.

(** [a % b] for a finite, non-zero [b]: the sign of the dividend. *)
Definition rem (a : Number) (b : Z) : Number :=
  match a with
  | Int x => Int (Z.rem x b)
  | _ => NaN
  end.

(** [parseInt(s)] with no radix: leading white space, a sign, an
    optional [0x] prefix, then digits; the integer the digits denote is
    rounded to a Number ([toNumber]; the standard lets an implementation
    drop decimal digits after the twentieth, V8 rounds all of them). *)
Definition parseInt (s : string) : Number :=
  let s1 := trimStart s in
  let '(sign, s2) :=
    match s1 with
    | String "-" r => (-1, r)
    | String "+" r => (1, r)
    | _ => (1, s1)
    end in
  let '(radix, s3) :=
    match s2 with
    | String "0" (String "x" r) => (16, r)
    | String "0" (String "X" r) => (16, r)
    | _ => (10, s2)
    end in
  match digitsValue radix None s3 with
  | Some v => toNumber (sign * v)
  | None => NaN
  end.

(** *** Printing a number ([Number::toString], radix 10) *)

Definition decimalDigits (a : Z) : Z := Z.of_nat (String.length (pretty a)).

(** The two numbers have the same Number value. *)
Definition sameNumber (a b : Z) : bool :=
  match toNumber a, toNumber b with
  | Int x, Int y => x =? y
  | Infinity x, Infinity y => Bool.eqb x y
  | _, _ => false
  end.

(** The decimal of [k] significant digits that has the Number value of
    [v], if there is one: the multiple of 10^(digits - k) below [v] or
    the one above, the nearer of the two, the even one on a tie. *)
Definition candidate (v k : Z) : option Z :=
  let p := 10 ^ (decimalDigits v - k) in
  let lo := v / p * p in
  let hi := lo + p in
  match sameNumber lo v, sameNumber hi v with
  | true, true =>
      if v - lo <? hi - v then Some lo
      else if hi - v <? v - lo then Some hi
      else if Z.even (v / p) then Some lo else Some hi
  | true, false => Some lo
  | false, true => Some hi
  | false, false => None
  end.

(** The decimal with the fewest significant digits that has the Number
    value of [v]. *)
Fixpoint shortest (fuel : nat) (k v : Z) : Z :=
  match fuel with
  | O => v
  | S fuel' =>
      match candidate v k with
      | Some c => c
      | None => shortest fuel' (k + 1) v
      end
  end.

Fixpoint dropZeros (fuel : nat) (c : Z) : Z :=
  match fuel with
  | O => c
  | S fuel' => if (c mod 10 =? 0) && negb (c =? 0) then dropZeros fuel' (c / 10) else c
  end.

(** [d.ddd] for the digits [ddd...]. *)
Definition mantissa (digits : string) : string :=
  match digits with
  | String d EmptyString => digits
  | String d rest => String d (String "." rest)
  | EmptyString => EmptyString
  end.

(** A positive integer from 2^53 on: the shortest decimal, written out
    up to 21 digits and with an exponent beyond. *)
Definition largeToString (v : Z) : string :=
  let c := shortest (Z.to_nat (decimalDigits v)) 1 v in
  let n := decimalDigits c in
  if n <=? 21 then pretty c
  else mantissa (pretty (dropZeros (Z.to_nat n) c)) +:+ "e+" +:+ pretty (n - 1).

(** [String(n)] for an integer: its decimal below 2^53, and beyond the
    shortest decimal with its Number value. *)
Definition numberToString (n : Z) : string :=
  if Z.abs n <? 2 ^ 53 then pretty n
  else if n <? 0 then "-" +:+ largeToString (- n)
  else largeToString n.

Definition toString (n : Number) : string :=
  match n with
  | NaN => "NaN"
  | Int z => numberToString z
  | Infinity negative => if negative then "-Infinity" else "Infinity"
  end.

End Js.

(** ** CPF validation ([isValidCPF]) *)

(** [/^(\d)\1{10}$/.test(cpf)]: eleven times the same digit. *)
Definition allSameDigit (cpf : string) : bool :=
  match cpf with
  | String c rest =>
      Js.isDigit c
      && (String.length rest =? 10)%nat
      && forallb (Ascii.eqb c) (String.list_ascii_of_string rest)
  | EmptyString => false
  end.

(** [parseInt(cpf.charAt(i))]. *)
Definition digitAt (cpf : string) (i : nat) : Js.Number :=
  Js.parseInt (Js.charAt cpf i).

(** The loop [for (i = 0; i < n; i++) sum += parseInt(cpf.charAt(i)) * (n + 1 - i)]
    from [sum = 0]; [n] is 9 for the first check digit, 10 for the second. *)
Definition weightedSum (cpf : string) (n : nat) : Js.Number :=
  fold_left
    (fun sum i =>
       Js.add sum (Js.mul (digitAt cpf i) (Js.Int (Z.of_nat n + 1 - Z.of_nat i))))
    (seq 0 n) (Js.Int 0).

(** [remainder = sum % 11; remainder < 2 ? 0 : 11 - remainder]. *)
Definition checkDigit (sum : Js.Number) : Js.Number :=
  let remainder := Js.rem sum 11 in
  if Js.ltb remainder (Js.Int 2) then Js.Int 0 else Js.sub (Js.Int 11) remainder.

Definition isValidCPF (cpf : string) : bool :=
  if allSameDigit cpf then false
  else
    let digit1 := checkDigit (weightedSum cpf 9) in
    let digit2 := checkDigit (weightedSum cpf 10) in
    Js.strictEq digit1 (digitAt cpf 9) && Js.strictEq digit2 (digitAt cpf 10).

(** Replace the character at index [i] (the string is unchanged when it
    is shorter). *)
Fixpoint setChar (i : nat) (c : ascii) (s : string) : string :=
  match s, i with
  | EmptyString, _ => EmptyString
  | String _ r, O => String c r
  | String a r, S j => String a (setChar j c r)
  end.


(** ** Session data

    [SessionContext.data] is a [Record<string, any>]: a JSON object. It
    goes through [JSON.stringify] on its way to the stores and through
    [JSON.parse] on its way back ([Json.roundTrip] below). *)

Inductive JValue :=
| JNull
| JBool (b : bool)
| JNum (n : Z)
| JReal (x : float)
| JStr (s : string)
| JArr (l : list JValue)
| JObj (o : gmap string JValue).

(** ** JSON text

    [JSON.parse(JSON.stringify(v))]: what is read back of a value that
    was stored as JSON text. A number that is not finite is written as
    [null] and negative zero as [0]; every other value is read back as
    it was written. *)

Module Json.

Fixpoint roundTrip (v : JValue) : JValue :=
  match v with
  | JReal x =>
      if PrimFloat.is_nan x || PrimFloat.is_infinity x then JNull
      else if PrimFloat.is_zero x then JReal 0
      else JReal x
  | JArr l => JArr (map roundTrip l)
  | JObj o => JObj (roundTrip <$> o)
  | _ => v
  end.

(** The same for [data], an object or [undefined]. *)
Definition object (d : option (gmap string JValue)) : option (gmap string JValue) :=
  (fun o : gmap string JValue => roundTrip <$> o) <$> d.

(** The number of arrays and objects in a value. *)
Fixpoint size (v : JValue) : nat :=
  match v with
  | JArr l => S (foldr (fun x acc => size x + acc)%nat O l)
  | JObj o => S (map_fold (fun _ x acc => size x + acc)%nat O o)
  | _ => O
  end.

End Json.

(** [undefined] is [None]. *)
Definition truthy (v : option JValue) : bool :=
  match v with
  | None | Some JNull => false
  | Some (JBool b) => b
  | Some (JNum n) => negb (n =? 0)
  | Some (JReal x) => negb (PrimFloat.is_nan x || PrimFloat.is_zero x)
  | Some (JStr s) => negb (String.eqb s "")
  | Some (JArr _) | Some (JObj _) => true
  end.

(** [v?.k], and [v.k] once [v] is known to be truthy. *)
Definition prop (v : option JValue) (k : string) : option JValue :=
  match v with
  | Some (JObj o) => o !! k
  | _ => None
  end.

(** [a || b]. *)
Definition orElse (a b : option JValue) : option JValue :=
  if truthy a then a else b.

(** Template-literal conversion of a value to text, for the values that
    reach a message or a request. *)
Definition toText (v : option JValue) : string :=
  match v with
  | None => "undefined"
  | Some JNull => "null"
  | Some (JBool b) => if b then "true" else "false"
  | Some (JNum n) => Js.numberToString n
  | Some (JStr s) => s
  | Some (JReal _) | Some (JArr _) => ""
  | Some (JObj _) => "[object Object]"
  end.

Record SessionContext := {
  phone : string;
  currentStep : string;
  lastMessage : option string;
  data : option (gmap string JValue);
}.

(** [JSON.parse(JSON.stringify(session))]: the fields that are
    [undefined] are left out of the text and are [undefined] again. *)
Definition jsonSession (s : SessionContext) : SessionContext :=
  {| phone := phone s;
     currentStep := currentStep s;
     lastMessage := lastMessage s;
     data := Json.object (data s) |}.

(** [session.data?.k]. *)
Definition dataProp (s : SessionContext) (k : string) : option JValue :=
  match data s with
  | Some d => d !! k
  | None => None
  end.

(** ** Replies of the engine *)

Record MenuOption := {
  opt_id : string;
  opt_title : string;
  opt_description : string;
}.

Record OptionList := {
  ol_title : string;
  buttonLabel : string;
  options : list MenuOption;
}.

Record Button := { button_id : string; button_title : string }.

Record ListRow := {
  row_id : string; row_title : string; row_description : option string }.
Record ListSection := { section_title : string; rows : list ListRow }.
Record ListMessage := {
  list_title : string;
  list_description : string;
  buttonText : string;
  sections : list ListSection;
}.

Record ConversationStep := {
  step : string;
  message : string;
  buttons : option (list Button);
  listMessage : option ListMessage;
  optionList : option OptionList;
}.

Definition text (next msg : string) : ConversationStep :=
  {| step := next; message := msg; buttons := None; listMessage := None;
     optionList := None |}.

Definition withOptions (next msg : string) (ol : OptionList) : ConversationStep :=
  {| step := next; message := msg; buttons := None; listMessage := None;
     optionList := Some ol |}.

Definition opt (id title description : string) : MenuOption :=
  {| opt_id := id; opt_title := title; opt_description := description |}.

(** ** Outside services *)

Record Aluno := {
  aluno_id : Z;
  aluno_nomeCompleto : string;
  aluno_turmaId : string;
}.

Record Turma := {
  turma_id : string;
  universidade : string;
  curso : string;
  nomeTurma : string;
}.

Record ConfiguracaoTurma := {
  config_id : string;
  valorAlbum25x30 : float;
  valorAlbum30x30 : float;
  valorAlbum30x40 : float;
  valorFoto60 : float;
  valorFoto80 : float;
  valorFoto100 : float;
  valorExtraCapaAcrilico : float;
  valorExtraMadeira : float;
  valorExtraCouro : float;
  valorExtraMarcadores : float;
  valorExtraBox : float;
  carneMaxParcelas : Z;
}.

Record ItemCustomizado := {
  item_id : string;
  nome : string;
  valor : float;
  configuracaoTurmaId : string;
}.

Record AlunoData := {
  ad_cpf : string;
  ad_telefone : string;
  ad_cep : option JValue;
  ad_rua : string;
  ad_numero : string;
  ad_bairro : option JValue;
  ad_cidade : option JValue;
  ad_uf : string;
  ad_email : option JValue;
  ad_nomeCompleto : option JValue;
  ad_turmaId : option JValue;
}.

Record BoletoRequest := {
  br_alunoId : option JValue;
  br_valor : float;
  br_descricao : string;
}.

Record BoletoData := {
  bd_link : string;
  bd_barcode : string;
  pixQrcode : option string;
}.

Record CarneRequest := {
  cr_alunoId : option JValue;
  cr_valor : float;
  cr_descricao : string;
  cr_parcelas : Js.Number;
  vencimentoPrimeiraParcela : string;
}.

Record Parcela := {
  p_link : string;
  p_barcode : string;
  p_valor : float;
  p_vencimento : string;
}.

(** A payment response: [success], [message], [data]. *)
Record PaymentResponse (D : Type) := {
  success : bool;
  pr_message : string;
  pr_data : D;
}.
Arguments success {D}.
Arguments pr_message {D}.
Arguments pr_data {D}.

Inductive ZApiRequest :=
| SendText (to msg : string)
| SendButtons (to msg : string) (bs : list Button)
| SendList (to msg : string) (l : ListMessage)
| SendOptionList (to msg : string) (ol : OptionList).

(** The answers of the partner backend, of the payment backend and of
    the messaging gateway, and the number formatting of the platform,
    taken as given. A payment call that fails (the service rethrows) is
    [None]. *)
Record Services := {
  api_checkCpfExists : string -> option Aluno;
  api_checkTurmaExists : string -> option Turma;
  api_getConfiguracaoTurma : string -> option ConfiguracaoTurma;
  api_getItensCustomizados : string -> list ItemCustomizado;
  api_createAluno : AlunoData -> option Aluno;
  db_getConfiguracaoTurma : string -> option ConfiguracaoTurma;
  db_getItensCustomizados : string -> list ItemCustomizado;
  gerarBoleto : BoletoRequest -> option (PaymentResponse BoletoData);
  gerarCarne : CarneRequest -> option (PaymentResponse (list Parcela));
  zapi_sendMessage : ZApiRequest -> bool;
  (** [x.toFixed(2)] *)
  toFixed2 : float -> string;
  (** [new Date(s).toLocaleDateString('pt-BR')] *)
  toLocaleDateString : string -> string;
  (** [Buffer.from(s).toString('base64')] *)
  base64 : string -> string;
}.

(** ** Webhook events of the messaging gateway *)

(** [payload.message] is whatever JSON value the gateway posted under
    that name. The code tests whether it is truthy, whether it is a text
    or an object, reads the member [conversation] of an object and
    prints it in a template; so a message is
    - a text;
    - an object: its member [conversation] (a text, when there is one)
      and whether it has a member [toString] of its own. A member parsed
      from JSON is never a function, so the conversion of such an object
      to a text throws a [TypeError]; every other object prints as
      [[object Object]];
    - another truthy value (an array, a number that is not zero,
      [true]): it has no [conversation], and [text] is what it prints
      as, [None] for an array with an element that cannot be converted.
    A [message] that is [null], [false] or [0] is falsy, and reads as no
    message at all. *)
Inductive PayloadMessage :=
| MsgText (s : string)
| MsgObject (conversation : option string) (ownToString : bool)
| MsgOther (text : option string).

Record ListResponse := {
  lr_message : string;
  lr_title : string;
  selectedRowId : string;
}.

Record ButtonResponse := {
  buttonId : string;
  br_message : string;
}.

(** A missing [phone] or [type] is the empty string: both are falsy. *)
Record ZApiWebhookPayload := {
  p_type : string;
  p_phone : string;
  p_message : option PayloadMessage;
  (** [payload.text.message], when there is a [text] *)
  p_text : option string;
  listResponseMessage : option ListResponse;
  buttonResponseMessage : option ButtonResponse;
  fromMe : bool;
  messageId : option string;
  p_id : option string;
}.

(** ** The world: stores, logs and what was sent *)

Inductive Direction := incoming | outgoing.

Record MessageLog := {
  log_phone : string;
  log_message : string;
  direction : Direction;
  messageType : string;
}.

(** A row of [zapflow_sessions]. The [context] column holds JSON text,
    or [NULL]: [context] is the value that text was made from, and
    reading the column parses the text ([sessionOfRow]). *)
Record Row := {
  current_step : string;
  last_message : string;
  context : option (gmap string JValue);
}.

Inductive Event :=
| EvLogMessage (l : MessageLog)
| EvUpdateSession (ph next : string)
| EvSend (req : ZApiRequest) (ok : bool)
| EvLookup (method arg : string)
| EvCreateAluno (a : AlunoData)
| EvGerarBoleto (req : BoletoRequest)
| EvGerarCarne (req : CarneRequest)
| EvEngine (ph : string).

Record World := {
  (** [this.prisma] is not [null] *)
  prisma : bool;
  (** the database answers; when it does not, every query throws *)
  db_up : bool;
  sessions : gmap string Row;
  message_logs : list MessageLog;
  (** a [RedisService] was given to the constructor *)
  redisService : bool;
  (** the Redis client is connected and the server answers
      ([RedisService.isAvailable()]); when it is not, a reconnection
      fails too *)
  redis_up : bool;
  (** the keys [session:<phone>]: each holds the JSON text of a
      session, and [cache] maps the phone to the session that text was
      made from; reading the key parses the text ([Redis.getSession]) *)
  cache : gmap string SessionContext;
  (** the other keys, set by [setIfNotExists] *)
  keys : gset string;
  (** [new Date()]: milliseconds since the epoch *)
  now : Z;
  (** the time zone of the process: [LocalTZA(t, isUTC)], local time
      minus UTC in milliseconds ([Date.Zone]) *)
  localTZA : Z -> bool -> Z;
  (** what happened, oldest first *)
  trace : list Event;
}.

Definition setSessions (f : gmap string Row -> gmap string Row) (w : World) : World :=
  {| prisma := prisma w; db_up := db_up w; sessions := f (sessions w);
     message_logs := message_logs w; redisService := redisService w;
     redis_up := redis_up w; cache := cache w; keys := keys w; now := now w;
     localTZA := localTZA w; trace := trace w |}.

Definition setLogs (f : list MessageLog -> list MessageLog) (w : World) : World :=
  {| prisma := prisma w; db_up := db_up w; sessions := sessions w;
     message_logs := f (message_logs w); redisService := redisService w;
     redis_up := redis_up w; cache := cache w; keys := keys w; now := now w;
     localTZA := localTZA w; trace := trace w |}.

Definition setCache (f : gmap string SessionContext -> gmap string SessionContext)
    (w : World) : World :=
  {| prisma := prisma w; db_up := db_up w; sessions := sessions w;
     message_logs := message_logs w; redisService := redisService w;
     redis_up := redis_up w; cache := f (cache w); keys := keys w; now := now w;
     localTZA := localTZA w; trace := trace w |}.

Definition setKeys (f : gset string -> gset string) (w : World) : World :=
  {| prisma := prisma w; db_up := db_up w; sessions := sessions w;
     message_logs := message_logs w; redisService := redisService w;
     redis_up := redis_up w; cache := cache w; keys := f (keys w); now := now w;
     localTZA := localTZA w; trace := trace w |}.

Definition record (e : Event) (w : World) : World :=
  {| prisma := prisma w; db_up := db_up w; sessions := sessions w;
     message_logs := message_logs w; redisService := redisService w;
     redis_up := redis_up w; cache := cache w; keys := keys w; now := now w;
     localTZA := localTZA w; trace := trace w ++ [e] |}.

(** ** Asynchronous code: state and exceptions *)

Inductive Result (A : Type) :=
| Ok (a : A)
| Throw (error : string).
Arguments Ok {A}.
Arguments Throw {A}.

Definition M (A : Type) : Type := World -> Result A * World.

Definition ret {A} (a : A) : M A := fun w => (Ok a, w).

Definition bind {A B} (c : M A) (k : A -> M B) : M B :=
  fun w => match c w with
           | (Ok a, w') => k a w'
           | (Throw e, w') => (Throw e, w')
           end.

Definition throw {A} (e : string) : M A := fun w => (Throw e, w).

(** [try { c } catch (error) { h error.message }]. *)
Definition tryCatch {A} (c : M A) (h : string -> M A) : M A :=
  fun w => match c w with
           | (Ok a, w') => (Ok a, w')
           | (Throw e, w') => h e w'
           end.

Definition ask {A} (f : World -> A) : M A := fun w => (Ok (f w), w).
Definition modify (f : World -> World) : M unit := fun w => (Ok tt, f w).
Definition emit (e : Event) : M unit := modify (record e).

Notation "'await' x <- c ; k" := (bind c (fun x => k))
  (at level 10, x name, c at level 100, k at level 200, only parsing).
Notation "'call' c ; k" := (bind c (fun _ => k))
  (at level 10, c at level 100, k at level 200, only parsing).

(** The world after a computation, and its value. *)
Definition exec {A} (c : M A) (w : World) : World := snd (c w).
Definition eval {A} (c : M A) (w : World) : Result A := fst (c w).

(** ** [RedisService]: every method catches its own errors *)

Module Redis.

Definition isAvailable : M bool := ask redis_up.

(** [SETEX session:<phone> ttl JSON.stringify(session)]: the key keeps
    the session its text was made from, and [getSession] parses it.
    When the service is unavailable [setSession] tries to reconnect
    once; during an outage that fails too. *)
Definition setSession (ph : string) (s : SessionContext) : M bool :=
  await up <- isAvailable ;
  if up then call modify (setCache (insert ph s)) ; ret true
  else ret false.

(** [JSON.parse] of the text under the key, [null] when there is none. *)
Definition getSession (ph : string) : M (option SessionContext) :=
  await up <- isAvailable ;
  if up then ask (fun w => jsonSession <$> cache w !! ph) else ret None.

Definition deleteSession (ph : string) : M bool :=
  await up <- isAvailable ;
  if up then call modify (setCache (delete ph)) ; ret true
  else ret false.

(** [SET key value NX EX ttl]: [true] when the key was set now. *)
Definition setIfNotExists (key : string) : M bool :=
  await up <- isAvailable ;
  if up then
    await present <- ask (fun w => bool_decide (key ∈ keys w)) ;
    if present then ret false
    else call modify (setKeys (fun ks => {[key]} ∪ ks)) ; ret true
  else ret false.

Definition delete (key : string) : M bool :=
  await up <- isAvailable ;
  if up then call modify (setKeys (fun ks => ks ∖ {[key]})) ; ret true
  else ret false.

End Redis.

(** ** The session store of [ConversationService] *)

(** A query of [this.prisma]: it throws when the database is down. *)
Definition query {A} (c : M A) : M A :=
  await up <- ask db_up ;
  if up then c else throw "database unreachable".

Definition selectSession (ph : string) : M (option Row) :=
  query (ask (fun w => sessions w !! ph)).

(** [INSERT INTO zapflow_sessions (phone, current_step, last_message, ...)
    VALUES (phone, 'welcome', '', ...)]; [phone] is unique. *)
Definition insertSession (ph : string) : M unit :=
  query (
    await existing <- ask (fun w => sessions w !! ph) ;
    match existing with
    | Some _ => throw "duplicate key value violates unique constraint"
    | None =>
        modify (setSessions (insert ph
          {| current_step := "welcome"; last_message := ""; context := None |}))
    end).

(** [INSERT ... ON CONFLICT (phone) DO UPDATE SET current_step, last_message, context],
    with [JSON.stringify(data)] for the context, [NULL] when there is no
    data: the column keeps the data its text was made from, and
    [sessionOfRow] parses it. *)
Definition upsertSession (ph next msg : string) (ctx : option (gmap string JValue)) : M unit :=
  query (modify (setSessions (insert ph
    {| current_step := next; last_message := msg; context := ctx |}))).

Definition welcomeSession (ph : string) : SessionContext :=
  {| phone := ph; currentStep := "welcome"; lastMessage := None; data := None |}.

(** The session as read from its row: [last_message || undefined],
    [context ? JSON.parse(context) : undefined]. *)
Definition sessionOfRow (ph : string) (r : Row) : SessionContext :=
  {| phone := ph;
     currentStep := current_step r;
     lastMessage := if String.eqb (last_message r) "" then None
                    else Some (last_message r);
     data := Json.object (context r) |}.

Definition getOrCreateSession (ph : string) : M SessionContext :=
  tryCatch (
    await hasRedis <- ask redisService ;
    await cachedSession <- (if hasRedis then Redis.getSession ph else ret None) ;
    match cachedSession with
    | Some s => ret s
    | None =>
        await hasPrisma <- ask prisma ;
        await fromDb <-
          (if hasPrisma then
             tryCatch (
               await found <- selectSession ph ;
               await session <-
                 match found with
                 | Some r => ret (Some r)
                 | None => call insertSession ph ; selectSession ph
                 end ;
               match session with
               | None => throw "Cannot read properties of undefined"
               | Some r =>
                   let sessionContext := sessionOfRow ph r in
                   call (if hasRedis then
                           call Redis.setSession ph sessionContext ; ret tt
                         else ret tt) ;
                   ret (Some sessionContext)
               end)
               (fun _ => ret None)
           else ret None) ;
        match fromDb with
        | Some s => ret s
        | None =>
            let fallbackSession := welcomeSession ph in
            call (if hasRedis then
                    call Redis.setSession ph fallbackSession ; ret tt
                  else ret tt) ;
            ret fallbackSession
        end
    end)
    (fun _ => ret (welcomeSession ph)).

(** [{ ...a, ...b }]: the keys of [b] win. *)
Definition spread (a b : option (gmap string JValue)) : gmap string JValue :=
  default ∅ b ∪ default ∅ a.

Definition updateSession (ph next msg : string) (d : option (gmap string JValue)) : M unit :=
  call emit (EvUpdateSession ph next) ;
  tryCatch (
    await hasPrisma <- ask prisma ;
    call (if hasPrisma then
            tryCatch (upsertSession ph next msg d) (fun _ => ret tt)
          else ret tt) ;
    await hasRedis <- ask redisService ;
    if hasRedis then
      call Redis.deleteSession ph ;
      await existingSession <- getOrCreateSession ph ;
      let sessionContext :=
        {| phone := ph;
           currentStep := next;
           lastMessage := Some msg;
           data := match d with
                   | Some _ => Some (spread (data existingSession) d)
                   | None => data existingSession
                   end |} in
      call Redis.setSession ph sessionContext ; ret tt
    else ret tt)
    (fun _ => ret tt).

(** [target[key] = value] in strict mode, and what [JSON.stringify]
    keeps of it: a property of an object is set; a property given to an
    array is not serialised; a primitive refuses it with a [TypeError]. *)
Definition setProp (target : option JValue) (key : string) (value : JValue) : M JValue :=
  match target with
  | Some (JObj o) => ret (JObj (<[key := value]> o))
  | Some (JArr l) => ret (JArr l)
  | _ => throw "Cannot create property"
  end.

Definition emptyObject : option JValue := Some (JObj ∅).

Definition updateClienteData (ph key : string) (value : JValue) : M unit :=
  tryCatch (
    await session <- getOrCreateSession ph ;
    await clienteData <-
      setProp (orElse (dataProp session "clienteData") emptyObject) key value ;
    updateSession ph (currentStep session) (default "" (lastMessage session))
      (Some (<["clienteData" := clienteData]> (default ∅ (data session)))))
    (fun _ => ret tt).

Definition updatePackageData (ph key : string) (value : JValue) : M unit :=
  await session <- getOrCreateSession ph ;
  await pacoteData <-
    setProp (orElse (dataProp session "pacoteData") emptyObject) key value ;
  updateSession ph (currentStep session) (default "" (lastMessage session))
    (Some (<["pacoteData" := pacoteData]> (default ∅ (data session)))).

(** ** Closed forms of the store operations, used to state what they leave
    behind *)

(** The database is there and answers. *)
Definition durable (w : World) : bool := prisma w && db_up w.

(** Redis is there and answers. *)
Definition cached (w : World) : bool := redisService w && redis_up w.

Definition rowOf (next msg : string) (d : option (gmap string JValue)) : Row :=
  {| current_step := next; last_message := msg; context := d |}.

Definition ctxOf (ph next msg : string) (d : option (gmap string JValue)) : SessionContext :=
  {| phone := ph; currentStep := next; lastMessage := Some msg; data := d |}.

(** Copy a session into the cache when Redis answers. *)
Definition mirror (ph : string) (s : SessionContext) (w : World) : World :=
  if cached w then setCache (insert ph s) w else w.

(** What [getOrCreateSession] returns and the world it leaves. *)
Definition lookupSession (ph : string) (w : World) : SessionContext * World :=
  match (if cached w then jsonSession <$> cache w !! ph else None) with
  | Some s => (s, w)
  | None =>
      if durable w then
        match sessions w !! ph with
        | Some r => (sessionOfRow ph r, mirror ph (sessionOfRow ph r) w)
        | None =>
            (welcomeSession ph,
             mirror ph (welcomeSession ph)
               (setSessions (insert ph (rowOf "welcome" "" None)) w))
        end
      else (welcomeSession ph, mirror ph (welcomeSession ph) w)
  end.

(** The world [updateSession] leaves. *)
Definition storeSession (ph next msg : string) (d : option (gmap string JValue))
    (w : World) : World :=
  let w1 := record (EvUpdateSession ph next) w in
  let w2 := if durable w then setSessions (insert ph (rowOf next msg d)) w1 else w1 in
  if cached w then setCache (insert ph (ctxOf ph next msg d)) w2 else w2.

(** The object held under a key of [data], empty when there is none. *)
Definition objOf (v : option JValue) : gmap string JValue :=
  match v with
  | Some (JObj o) => o
  | _ => ∅
  end.

(** A sub-record of [data] that [updateClienteData] and
    [updatePackageData] can extend: an object, or nothing truthy. *)
Definition extensible (v : option JValue) : Prop :=
  match v with
  | Some (JObj _) => True
  | _ => truthy v = false
  end.

(** One field written by a step handler. *)
Inductive Write :=
| WCliente (key : string) (value : JValue)
| WPacote (key : string) (value : JValue).

Definition subRecord (wr : Write) : string :=
  match wr with WCliente _ _ => "clienteData" | WPacote _ _ => "pacoteData" end.

Definition writeKey (wr : Write) : string :=
  match wr with WCliente k _ | WPacote k _ => k end.

Definition writeValue (wr : Write) : JValue :=
  match wr with WCliente _ v | WPacote _ v => v end.

(** The write with its value as JSON text gives it back. *)
Definition jsonWrite (wr : Write) : Write :=
  match wr with
  | WCliente k v => WCliente k (Json.roundTrip v)
  | WPacote k v => WPacote k (Json.roundTrip v)
  end.

Definition performWrite (ph : string) (wr : Write) : M unit :=
  match wr with
  | WCliente k v => updateClienteData ph k v
  | WPacote k v => updatePackageData ph k v
  end.

Fixpoint performWrites (ph : string) (ws : list Write) : M unit :=
  match ws with
  | [] => ret tt
  | wr :: rest => call performWrite ph wr ; performWrites ph rest
  end.

(** The effect of one write on [data]: the key is set inside its
    sub-record, everything else is kept. *)
Definition applyWrite (d : gmap string JValue) (wr : Write) : gmap string JValue :=
  <[subRecord wr := JObj (<[writeKey wr := writeValue wr]> (objOf (d !! subRecord wr)))]> d.

Definition applyWrites (d : gmap string JValue) (ws : list Write) : gmap string JValue :=
  fold_left applyWrite ws d.

(** A sequence of [updateSession] calls with partial data. *)
Fixpoint updateAll (ph next msg : string) (ds : list (gmap string JValue)) : M unit :=
  match ds with
  | [] => ret tt
  | d :: rest => call updateSession ph next msg (Some d) ; updateAll ph next msg rest
  end.

(** The session in the durable record, as [getOrCreateSession] reads
    it, and the one in the cache. *)
Definition readRow (ph : string) (w : World) : option SessionContext :=
  sessionOfRow ph <$> sessions w !! ph.

Definition readCache (ph : string) (w : World) : option SessionContext :=
  jsonSession <$> cache w !! ph.

(** Both stores, as far as they answer, were given the data [D] for [ph]. *)
Definition holds (ph : string) (D : gmap string JValue) (w : World) : Prop :=
  (cached w = true -> exists s, cache w !! ph = Some s /\ data s = Some D)
  /\ (durable w = true -> exists r, sessions w !! ph = Some r /\ context r = Some D).

Definition extensibleData (D : gmap string JValue) : Prop :=
  extensible (D !! "clienteData") /\ extensible (D !! "pacoteData").

(** The world [logMessage] leaves. *)
Definition logged (l : MessageLog) (w : World) : World :=
  let w1 := record (EvLogMessage l) w in
  if durable w then setLogs (fun ls => ls ++ [l]) w1 else w1.

(** The free-text fallback of option 7 in the main menu. *)
Definition attendantFallback (message : string) : bool :=
  Js.includes "atendente" message || Js.includes "suporte" message
  || Js.includes "7" message || String.eqb message "support".

(** ** Dates: the abstract operations of ECMAScript behind [Date] *)

Module Date.

Definition msPerDay : Z := 86400000.

Definition Day (t : Z) : Z := t / msPerDay.
Definition TimeWithinDay (t : Z) : Z := t mod msPerDay.

Definition DaysInYear (y : Z) : Z :=
  if (y mod 4 =? 0) && (negb (y mod 100 =? 0) || (y mod 400 =? 0)) then 366 else 365.

Definition DayFromYear (y : Z) : Z :=
  365 * (y - 1970) + (y - 1969) / 4 - (y - 1901) / 100 + (y - 1601) / 400.

(** The year a day falls in: the largest year that starts on or before
    the day. The estimate from the mean length of a year is off by one
    at most. *)
Definition YearFromDay (day : Z) : Z :=
  let y := 1970 + 400 * day / 146097 in
  if day <? DayFromYear y then y - 1
  else if DayFromYear (y + 1) <=? day then y + 1
  else y.

Definition InLeapYear (y : Z) : Z := if DaysInYear y =? 366 then 1 else 0.

Definition DayWithinYear (day : Z) : Z := day - DayFromYear (YearFromDay day).

(** The day of the year on which month [m] (0 to 11) starts. *)
Definition monthStart (leap m : Z) : Z :=
  match m with
  | 0 => 0
  | 1 => 31
  | 2 => 59 + leap
  | 3 => 90 + leap
  | 4 => 120 + leap
  | 5 => 151 + leap
  | 6 => 181 + leap
  | 7 => 212 + leap
  | 8 => 243 + leap
  | 9 => 273 + leap
  | 10 => 304 + leap
  | _ => 334 + leap
  end.

Definition MonthFromDay (day : Z) : Z :=
  let d := DayWithinYear day in
  let leap := InLeapYear (YearFromDay day) in
  if d <? 31 then 0
  else if d <? 59 + leap then 1
  else if d <? 90 + leap then 2
  else if d <? 120 + leap then 3
  else if d <? 151 + leap then 4
  else if d <? 181 + leap then 5
  else if d <? 212 + leap then 6
  else if d <? 243 + leap then 7
  else if d <? 273 + leap then 8
  else if d <? 304 + leap then 9
  else if d <? 334 + leap then 10
  else 11.

Definition DateFromDay (day : Z) : Z :=
  DayWithinYear day
  - monthStart (InLeapYear (YearFromDay day)) (MonthFromDay day) + 1.

Definition YearFromTime (t : Z) : Z := YearFromDay (Day t).
Definition MonthFromTime (t : Z) : Z := MonthFromDay (Day t).
Definition DateFromTime (t : Z) : Z := DateFromDay (Day t).

(** [MakeDay(year, month, date)]: the day number of the first of the
    month, plus [date - 1]. *)
Definition MakeDay (year month date : Z) : Z :=
  let ym := year + month / 12 in
  let mn := month mod 12 in
  DayFromYear ym + monthStart (InLeapYear ym) mn + date - 1.

Definition MakeDate (day time : Z) : Z := day * msPerDay + time.

(** A time zone is its [LocalTZA(t, isUTC)]: the offset of local time
    from UTC in milliseconds, at the UTC time [t] or, when [isUTC] is
    [false], at the local time [t]. *)
Definition Zone : Type := Z -> bool -> Z.

Definition LocalTime (tza : Zone) (t : Z) : Z := t + tza t true.
Definition UTC (tza : Zone) (t : Z) : Z := t - tza t false.

(** [TimeClip]: [None] is an invalid date. *)
Definition TimeClip (t : Z) : option Z :=
  if Z.abs t <=? 8640000000000000 then Some t else None.

(** [d.getDate()]. *)
Definition getDate (tza : Zone) (t : Z) : Z := DateFromTime (LocalTime tza t).

(** [d.setDate(date)]: the new time value. *)
Definition setDate (tza : Zone) (t date : Z) : option Z :=
  let local := LocalTime tza t in
  let newDate :=
    MakeDate (MakeDay (YearFromTime local) (MonthFromTime local) date)
             (TimeWithinDay local) in
  TimeClip (UTC tza newDate).

Definition digit (n : Z) : ascii := ascii_of_N (48 + Z.to_N (n mod 10)).

Definition pad2 (n : Z) : string :=
  String (digit (n / 10)) (String (digit n) EmptyString).

Definition pad3 (n : Z) : string := String (digit (n / 100)) (pad2 n).

Definition pad4 (n : Z) : string := String (digit (n / 1000)) (pad3 n).

Definition pad6 (n : Z) : string :=
  String (digit (n / 100000)) (String (digit (n / 10000)) (pad4 n)).

(** Years 0 to 9999 take four digits, the others a sign and six. *)
Definition isoYear (y : Z) : string :=
  if (0 <=? y) && (y <=? 9999) then pad4 y
  else if y <? 0 then String "-" (pad6 (- y))
  else String "+" (pad6 y).

(** The date part, [YYYY-MM-DD], of a day number. *)
Definition isoDate (day : Z) : string :=
  isoYear (YearFromDay day) +:+ "-" +:+ pad2 (MonthFromDay day + 1)
  +:+ "-" +:+ pad2 (DateFromDay day).

(** [d.toISOString()] of a valid time value: [YYYY-MM-DDTHH:mm:ss.sssZ]. *)
Definition toISOString (t : Z) : string :=
  let ms := TimeWithinDay t in
  isoDate (Day t) +:+ "T" +:+ pad2 (ms / 3600000) +:+ ":"
  +:+ pad2 (ms / 60000 mod 60) +:+ ":" +:+ pad2 (ms / 1000 mod 60)
  +:+ "." +:+ pad3 (ms mod 1000) +:+ "Z".

End Date.

(** ** The conversation engine *)

Definition nl : string := String (ascii_of_N 10) EmptyString.

(** [session.data?.clienteData?.k] and the like. *)
Definition clienteProp (s : SessionContext) (k : string) : option JValue :=
prop (dataProp s "clienteData") k.

Definition pacoteProp (s : SessionContext) (k : string) : option JValue :=
prop (dataProp s "pacoteData") k.

(** A stored number read as an integer; the fields read this way are
  written by the engine itself, always as numbers, and any other value
  is outside the embedding and read as 0. *)
Definition integerOf (v : option JValue) : Z :=
match v with
| Some (JNum n) => n
| _ => 0
end.

(** An integer as a binary64 number: exact for every integer that
  binary64 holds. *)
Definition floatOfZ (n : Z) : float :=
let a := Z.abs n in
let shift := Z.max 0 (Z.log2 a - 62) in
let x := FloatOps.Z.ldexp (PrimFloat.of_uint63 (Uint63.of_Z (Z.shiftr a shift))) shift in
if n <? 0 then PrimFloat.opp x else x.

Definition floatOfNumber (n : Js.Number) : float :=
match n with
| Js.NaN => PrimFloat.nan
| Js.Int z => floatOfZ z
| Js.Infinity negative => if negative then PrimFloat.neg_infinity else PrimFloat.infinity
end.

(** A number as a value of session data. *)
Definition numberToJson (n : Js.Number) : JValue :=
match n with
| Js.Int z => JNum z
| _ => JReal (floatOfNumber n)
end.

(** A stored amount read as a number: [v || 0]. *)
Definition amountOf (v : option JValue) : float :=
match orElse v (Some (JReal 0)) with
| Some (JReal x) => x
| Some (JNum n) => floatOfZ n
| _ => 0%float
end.

(** [x || 0] on a number. *)
Definition numberOrZero (x : float) : float :=
if PrimFloat.is_nan x || PrimFloat.is_zero x then 0%float else x.

Definition itemToJson (i : ItemCustomizado) : JValue :=
JObj (<["id" := JStr (item_id i)]>
     (<["nome" := JStr (nome i)]>
     (<["valor" := JReal (valor i)]>
     (<["configuracaoTurmaId" := JStr (configuracaoTurmaId i)]> ∅)))).

Section Engine.

Context (sv : Services).

(** *** Calls to the partner backend ([MettaApiService],
    [MettaDatabaseService]): each catches its own errors and answers
    [null] or an empty list instead. *)

Definition checkCpfExists (cpf : string) : M (option Aluno) :=
  call emit (EvLookup "checkCpfExists" cpf) ;
  ret (api_checkCpfExists sv (Js.replaceNonDigits cpf)).

Definition checkTurmaExists (turmaId : string) : M (option Turma) :=
  call emit (EvLookup "checkTurmaExists" turmaId) ;
  ret (api_checkTurmaExists sv turmaId).

Definition apiGetConfiguracaoTurma (turmaId : option JValue) : M (option ConfiguracaoTurma) :=
  call emit (EvLookup "api.getConfiguracaoTurma" (toText turmaId)) ;
  ret (api_getConfiguracaoTurma sv (toText turmaId)).

Definition apiGetItensCustomizados (turmaId : option JValue) : M (list ItemCustomizado) :=
  call emit (EvLookup "api.getItensCustomizados" (toText turmaId)) ;
  ret (api_getItensCustomizados sv (toText turmaId)).

Definition dbGetConfiguracaoTurma (turmaId : option JValue) : M (option ConfiguracaoTurma) :=
  call emit (EvLookup "db.getConfiguracaoTurma" (toText turmaId)) ;
  ret (db_getConfiguracaoTurma sv (toText turmaId)).

Definition dbGetItensCustomizados (configuracaoTurmaId : string) : M (list ItemCustomizado) :=
  call emit (EvLookup "db.getItensCustomizados" configuracaoTurmaId) ;
  ret (db_getItensCustomizados sv configuracaoTurmaId).

(** [alunoData.cpf.replace(...)] sits inside the [try] of
    [createAluno]: a CPF that is not a string makes it answer [null]. *)
Definition createAluno (cpf : option JValue) (rest : string -> AlunoData) : M (option Aluno) :=
  match cpf with
  | Some (JStr c) =>
      let request := rest (Js.replaceNonDigits c) in
      call emit (EvCreateAluno request) ;
      ret (api_createAluno sv request)
  | _ => ret None
  end.

(** *** Menus *)

Definition getMainMenuOptions : OptionList :=
  {| ol_title := "Opções disponíveis";
     buttonLabel := "Abrir lista de opções";
     options :=
       [ opt "1" "Assinar meu contrato" "Assine aqui seu contrato";
         opt "2" "Pagamentos" "Verificar pagamentos";
         opt "3" "Edição de Fotos ou Álbum" "Solicitar revisões, prazos ou acompanhar andamento.";
         opt "4" "Administrativo" "Questões internas ou documentos administrativos.";
         opt "5" "Solicitar um Orçamento" "Monte seu pacote personalizado com nossa equipe.";
         opt "6" "Faço parte da comissão (Agendar reunião)" "Agendar uma reunião com a equipe responsável.";
         opt "7" "Falar com um atendente" "Conversar diretamente com nossa equipe de suporte." ] |}.

(** The option list written out in [handleExistingClient] and in the
    editing, admin, quote and meeting steps. *)
Definition clientMenuOptions : OptionList :=
  {| ol_title := "Opções disponíveis";
     buttonLabel := "Abrir lista de opções";
     options :=
       [ opt "1" "Assinar meu contrato" "Assinatura digital ou pendências de contrato.";
         opt "2" "Cobrança ou Pagamentos" "Dúvidas sobre boletos, PIX ou faturas.";
         opt "3" "Edição de Fotos ou Álbum" "Solicitar revisões, prazos ou acompanhar andamento.";
         opt "4" "Administrativo" "Questões internas ou documentos administrativos.";
         opt "5" "Solicitar um Orçamento" "Monte seu pacote personalizado com nossa equipe.";
         opt "6" "Faço parte da comissão (Agendar reunião)" "Agendar uma reunião com a equipe responsável.";
         opt "7" "Falar com um atendente" "Conversar diretamente com nossa equipe de suporte." ] |}.

Definition getWelcomeStep : ConversationStep :=
  withOptions "main_menu"
    ("Bem-vindo(a) ao Metta Studio!" +:+ nl +:+ "Aqui, cada clique é pensado para eternizar emoções e transformar momentos em arte. 💫")
    getMainMenuOptions.

Definition getSupportStep : ConversationStep :=
  withOptions "main_menu"
    "Um atendente irá entrar em contato em breve para dar continuidade ao seu atendimento. Obrigado pelo contato!"
    getMainMenuOptions.

Definition getBillingStep : ConversationStep :=
  text "billing_cpf"
    "Para consultar suas cobranças e pagamentos, por favor informe seu CPF (apenas números).".

Definition getEditingStep : ConversationStep :=
  withOptions "main_menu"
    "Você foi direcionado para nossa equipe de pós-produção. Eles entrarão em contato para resolver suas solicitações sobre edição, revisões e prazos."
    clientMenuOptions.

Definition getAdminStep : ConversationStep :=
  withOptions "main_menu"
    "Você foi direcionado para nossa equipe administrativa. Eles entrarão em contato para resolver suas questões administrativas e documentos."
    clientMenuOptions.

Definition getQuoteStep : ConversationStep :=
  withOptions "main_menu"
    "Você foi direcionado para nossa equipe comercial. Eles entrarão em contato para criar um orçamento personalizado para você."
    clientMenuOptions.

Definition getMeetingStep : ConversationStep :=
  withOptions "main_menu"
    "Você foi direcionado para nosso sistema de agendamento. Nossa equipe entrará em contato para agendar uma reunião com você."
    clientMenuOptions.

(** *** [handleMainMenu] *)

Definition handleMainMenu (message : string) : option ConversationStep :=
  let m := Js.trim message in
  if String.eqb m "1" || String.eqb m "contract" then
    Some (text "contract_cpf"
      ("Para darmos continuidade, por favor informe o seu CPF. Digite apenas números, sem pontos nem traços." +:+ nl +:+ "👉 Exemplo: 00516400320"))
  else if String.eqb m "2" || String.eqb m "billing" then
    Some (text "billing_cpf"
      "Para consultar suas cobranças e pagamentos, por favor informe seu CPF (apenas números).")
  else if String.eqb m "3" || String.eqb m "editing" then Some getSupportStep
  else if String.eqb m "4" || String.eqb m "admin" then Some getSupportStep
  else if String.eqb m "5" || String.eqb m "quote" then Some getSupportStep
  else if String.eqb m "6" || String.eqb m "meeting" then Some getSupportStep
  else if Js.includes "atendente" message || Js.includes "suporte" message
          || Js.includes "7" message || String.eqb message "support" then
    Some (text "support"
      "Você será direcionado para nossa equipe de atendimento. Aguarde um momento...")
  else None.

(** *** [handleContractCpf] *)

Definition existingClientOptions : OptionList :=
  {| ol_title := "Opções disponíveis";
     buttonLabel := "Abrir opções";
     options :=
       [ opt "2" "Cobrança ou Pagamentos" "Consultar boletos/PIX ou carnês.";
         opt "7" "Falar com um atendente" "Nossa equipe entrará em contato.";
         opt "menu" "Voltar ao menu inicial" "Retornar ao início." ] |}.

Definition handleContractCpf (message ph : string) : M (option ConversationStep) :=
  let cpfNumbers := Js.replaceNonDigits message in
  if (Js.length cpfNumbers =? 11)%nat then
    if isValidCPF cpfNumbers then
      call updateClienteData ph "cpf" (JStr cpfNumbers) ;
      await alunoExistente <- checkCpfExists cpfNumbers ;
      match alunoExistente with
      | Some aluno =>
          ret (Some (withOptions "existing_client_menu"
            (("CPF válido e já cadastrado." +:+ nl +:+ nl +:+ "Nome: ") +:+ aluno_nomeCompleto aluno
             +:+ (nl +:+ "Código da Turma: ") +:+ aluno_turmaId aluno
             +:+ (nl +:+ nl +:+ "Como podemos ajudar agora?"))
            existingClientOptions))
      | None =>
          ret (Some (text "contract_class_code"
            ("✅ CPF válido!" +:+ nl +:+ nl +:+ "Digite o código da sua turma:")))
      end
    else
      ret (Some (text "contract_cpf"
        ("❌ CPF inválido. Por favor, verifique os números digitados e tente novamente." +:+ nl +:+ nl +:+ "👉 Exemplo: 00516400320")))
  else if (0 <? Js.length cpfNumbers)%nat then
    ret (Some (text "contract_cpf"
      ("❌ CPF deve ter exatamente 11 dígitos. Você digitou "
       +:+ Js.numberToString (Z.of_nat (Js.length cpfNumbers))
       +:+ (" números." +:+ nl +:+ nl +:+ "Por favor, digite apenas números, sem pontos nem traços." +:+ nl +:+ "👉 Exemplo: 00516400320"))))
  else
    ret (Some (text "contract_cpf"
      ("Por favor, digite seu CPF com apenas números." +:+ nl +:+ nl +:+ "👉 Exemplo: 00516400320"))).

(** *** [handleExistingClient] and [handleExistingClientMenu] *)

Definition handleExistingClient (message : string) : option ConversationStep :=
  if String.eqb message "1" then
    Some (text "contract_class_code"
      ("Perfeito! Vamos cadastrar você em uma nova turma." +:+ nl +:+ nl +:+ "Digite o código da turma que deseja aderir:"))
  else if String.eqb message "2" then
    Some (withOptions "main_menu"
      "Bem-vindo ao seu menu de cliente! Aqui você pode acessar todas as suas informações e serviços."
      clientMenuOptions)
  else
    Some (withOptions "contract_existing_client"
      "Por favor, escolha uma das opções disponíveis."
      {| ol_title := "Opções disponíveis";
         buttonLabel := "Abrir lista de opções";
         options :=
           [ opt "1" "Aderir a uma nova turma" "Cadastrar-se em uma nova turma.";
             opt "2" "Acessar o menu do cliente" "Acessar suas informações e serviços." ] |}).

Definition handleExistingClientMenu (message : string) : option ConversationStep :=
  let m := Js.trim message in
  if String.eqb m "2" || String.eqb m "billing" then
    Some (text "billing_cpf"
      "Para consultar suas cobranças e pagamentos, por favor informe seu CPF (apenas números).")
  else if String.eqb m "7" then Some getSupportStep
  else if String.eqb m "menu" then Some getWelcomeStep
  else None.

(** *** [handleClassCode] *)

Definition handleClassCode (message ph : string) : M (option ConversationStep) :=
  let turmaId := Js.trim message in
  if String.eqb turmaId "" then
    ret (Some (text "contract_class_code" "Por favor, digite o código da sua turma."))
  else
    await turma <- checkTurmaExists turmaId ;
    match turma with
    | Some t =>
        call updateClienteData ph "turmaId" (JStr (turma_id t)) ;
        ret (Some (text "contract_name"
          (("✅ Turma encontrada!" +:+ nl +:+ nl +:+ "Turma: ") +:+ nomeTurma t
           +:+ (nl +:+ "Universidade: ") +:+ universidade t
           +:+ (nl +:+ "Curso: ") +:+ curso t
           +:+ (nl +:+ nl +:+ "Agora vamos coletar seus dados pessoais." +:+ nl +:+ nl +:+ "Digite seu nome completo:"))))
    | None =>
        await session <- getOrCreateSession ph ;
        let tentativas := integerOf (dataProp session "tentativasTurma") + 1 in
        call updateSession ph "contract_class_code" message
               (Some (<["tentativasTurma" := JNum tentativas]> (default ∅ (data session)))) ;
        if 3 <=? tentativas then ret (Some getSupportStep)
        else
          ret (Some (text "contract_class_code"
            ("❌ Código da turma não encontrado. Verifique o código e tente novamente." +:+ nl +:+ nl +:+ "Digite o código da sua turma:")))
    end.

(** *** Contact and address fields *)

Definition handleName (message ph : string) : M (option ConversationStep) :=
  let nome := Js.trim message in
  if String.eqb nome "" || (Js.length nome <? 2)%nat then
    ret (Some (text "contract_name"
      "Por favor, digite seu nome completo (mínimo 2 caracteres)."))
  else
    let nomeNormalizado := Js.normalize nome in
    call updateClienteData ph "nomeCompleto" (JStr nomeNormalizado) ;
    ret (Some (text "contract_email"
      ("✅ Nome registrado: " +:+ nomeNormalizado +:+ (nl +:+ nl +:+ "Agora digite seu e-mail:")))).

(** [/^[^\s@]+@[^\s@]+\.[^\s@]+$/.test(email)]: no white space, one
    [@] with text before it, and after it a dot that is neither its
    first nor its last character. *)
Definition emailRegexTest (email : string) : bool :=
  String.eqb (Js.replaceSpaces email) email
  && match Js.split "@" email with
     | [localPart; domain] =>
         negb (String.eqb localPart "")
         && Js.includes "."
              (String.substring 1 (String.length domain - 2) domain)
     | _ => false
     end.

Definition handleEmail (message ph : string) : M (option ConversationStep) :=
  let email := Js.toLowerCase (Js.trim message) in
  if String.eqb email "" || negb (emailRegexTest email) then
    ret (Some (text "contract_email"
      ("Por favor, digite um e-mail válido." +:+ nl +:+ nl +:+ "Exemplo: usuario@email.com")))
  else
    call updateClienteData ph "email" (JStr email) ;
    ret (Some (text "contract_cep"
      ("✅ E-mail registrado: " +:+ email
       +:+ (nl +:+ nl +:+ "Agora digite seu CEP (apenas números):" +:+ nl +:+ nl +:+ "👉 Exemplo: 65000000")))).

(** The first [n] characters when they are all digits. *)
Fixpoint takeDigits (n : nat) (s : string) : option (string * string) :=
  match n with
  | O => Some (EmptyString, s)
  | S n' =>
      match s with
      | String c r =>
          if Js.isDigit c then
            match takeDigits n' r with
            | Some (d, rest) => Some (String c d, rest)
            | None => None
            end
          else None
      | EmptyString => None
      end
  end.

(** [cep.replace(/(\d{5})(\d{3})/, '$1-$2')]: the first run of eight
    digits gets a dash after its fifth. *)
Fixpoint formatCEP (cep : string) : string :=
  match takeDigits 8 cep with
  | Some (d, rest) =>
      String.substring 0 5 d +:+ "-" +:+ String.substring 5 3 d +:+ rest
  | None =>
      match cep with
      | EmptyString => EmptyString
      | String c r => String c (formatCEP r)
      end
  end.

Definition handleCep (message ph : string) : M (option ConversationStep) :=
  let cepNumbers := Js.replaceNonDigits message in
  if negb (Js.length cepNumbers =? 8)%nat then
    ret (Some (text "contract_cep"
      ("❌ CEP deve ter exatamente 8 dígitos. Você digitou "
       +:+ Js.numberToString (Z.of_nat (Js.length cepNumbers))
       +:+ (" números." +:+ nl +:+ nl +:+ "Digite apenas números do CEP." +:+ nl +:+ "👉 Exemplo: 65000000"))))
  else
    let cepFormatado := formatCEP cepNumbers in
    call updateClienteData ph "cep" (JStr cepFormatado) ;
    ret (Some (text "contract_address"
      ("✅ CEP registrado: " +:+ cepFormatado
       +:+ (nl +:+ nl +:+ "Agora digite sua rua e número da casa (separados por vírgula):" +:+ nl +:+ nl +:+ "👉 Exemplo: Rua das Flores, 123")))).

(** [const [rua, numero] = s.split(',').map(part => part.trim())];
    a missing part is the empty string here, which the callers treat
    as they treat [undefined]. *)
Definition ruaNumero (s : string) : string * string :=
  match map Js.trim (Js.split "," s) with
  | rua :: numero :: _ => (rua, numero)
  | [rua] => (rua, EmptyString)
  | [] => (EmptyString, EmptyString)
  end.

Definition handleAddress (message ph : string) : M (option ConversationStep) :=
  let endereco := Js.trim message in
  let retry :=
    text "contract_address"
      ("Por favor, digite sua rua e número separados por vírgula." +:+ nl +:+ nl +:+ "👉 Exemplo: Rua das Flores, 123") in
  if String.eqb endereco "" || negb (Js.includes "," endereco) then
    ret (Some retry)
  else
    let '(rua, numero) := ruaNumero endereco in
    if String.eqb rua "" || String.eqb numero "" then ret (Some retry)
    else
      let enderecoNormalizado := Js.normalize endereco in
      call updateClienteData ph "endereco" (JStr enderecoNormalizado) ;
      ret (Some (text "contract_neighborhood"
        ("✅ Endereço registrado: " +:+ enderecoNormalizado
         +:+ (nl +:+ nl +:+ "Agora digite seu bairro:")))).

Definition handleNeighborhood (message ph : string) : M (option ConversationStep) :=
  let bairro := Js.trim message in
  if String.eqb bairro "" || (Js.length bairro <? 2)%nat then
    ret (Some (text "contract_neighborhood"
      "Por favor, digite seu bairro (mínimo 2 caracteres)."))
  else
    let bairroNormalizado := Js.normalize bairro in
    call updateClienteData ph "bairro" (JStr bairroNormalizado) ;
    ret (Some (text "contract_city"
      ("✅ Bairro registrado: " +:+ bairroNormalizado +:+ (nl +:+ nl +:+ "Agora digite sua cidade:")))).

Definition estadoOptions : OptionList :=
  {| ol_title := "Estados brasileiros";
     buttonLabel := "Selecionar estado";
     options :=
       [ opt "AC" "Acre" "AC"; opt "AL" "Alagoas" "AL"; opt "AP" "Amapá" "AP";
         opt "AM" "Amazonas" "AM"; opt "BA" "Bahia" "BA"; opt "CE" "Ceará" "CE";
         opt "DF" "Distrito Federal" "DF"; opt "ES" "Espírito Santo" "ES";
         opt "GO" "Goiás" "GO"; opt "MA" "Maranhão" "MA"; opt "MT" "Mato Grosso" "MT";
         opt "MS" "Mato Grosso do Sul" "MS"; opt "MG" "Minas Gerais" "MG";
         opt "PA" "Pará" "PA"; opt "PB" "Paraíba" "PB"; opt "PR" "Paraná" "PR";
         opt "PE" "Pernambuco" "PE"; opt "PI" "Piauí" "PI"; opt "RJ" "Rio de Janeiro" "RJ";
         opt "RN" "Rio Grande do Norte" "RN"; opt "RS" "Rio Grande do Sul" "RS";
         opt "RO" "Rondônia" "RO"; opt "RR" "Roraima" "RR"; opt "SC" "Santa Catarina" "SC";
         opt "SP" "São Paulo" "SP"; opt "SE" "Sergipe" "SE"; opt "TO" "Tocantins" "TO" ] |}.

Definition handleCity (message ph : string) : M (option ConversationStep) :=
  let cidade := Js.trim message in
  if String.eqb cidade "" || (Js.length cidade <? 2)%nat then
    ret (Some (text "contract_city"
      "Por favor, digite sua cidade (mínimo 2 caracteres)."))
  else
    let cidadeNormalizada := Js.normalize cidade in
    call updateClienteData ph "cidade" (JStr cidadeNormalizada) ;
    ret (Some (withOptions "contract_state"
      ("✅ Cidade registrada: " +:+ cidadeNormalizada +:+ (nl +:+ nl +:+ "Agora selecione seu estado:"))
      estadoOptions)).

Definition estados : list string :=
  ["AC"; "AL"; "AP"; "AM"; "BA"; "CE"; "DF"; "ES"; "GO"; "MA"; "MT"; "MS"; "MG";
   "PA"; "PB"; "PR"; "PE"; "PI"; "RJ"; "RN"; "RS"; "RO"; "RR"; "SC"; "SP"; "SE"; "TO"].

(** [l.includes(s)] on a list of strings. *)
Definition listIncludes (l : list string) (s : string) : bool :=
  existsb (String.eqb s) l.

(** *** [getContractConfirmedStep] *)

Definition backToMenu (msg : string) : ConversationStep :=
  withOptions "main_menu" msg getMainMenuOptions.

(** [items.forEach((item, index) => mensagem += line(item, index))]. *)
Fixpoint forEachLine {A} (line : A -> nat -> string) (items : list A) (index : nat) : string :=
  match items with
  | [] => ""
  | item :: rest => line item index +:+ forEachLine line rest (S index)
  end.

(** [itens] when it has elements, else the fallback source. *)
Definition orFallback (itens : list ItemCustomizado) (fallback : M (list ItemCustomizado))
    : M (list ItemCustomizado) :=
  match itens with
  | [] => fallback
  | _ :: _ => ret itens
  end.

Definition getContractConfirmedStep (ph : string) : M ConversationStep :=
  await session <- getOrCreateSession ph ;
  let turmaId := clienteProp session "turmaId" in
  if negb (truthy turmaId) then
    ret (backToMenu "❌ Erro: Turma não encontrada. Retornando ao menu principal.")
  else
    await configuracao <- apiGetConfiguracaoTurma turmaId ;
    match configuracao with
    | None =>
        ret (backToMenu "❌ Erro: Configuração da turma não encontrada. Retornando ao menu principal.")
    | Some cfg =>
        await fromDb <- dbGetItensCustomizados (config_id cfg) ;
        await itensCustomizados <- orFallback fromDb (apiGetItensCustomizados turmaId) ;
        match itensCustomizados with
        | [] =>
            ret (backToMenu "❌ Erro: Nenhum item disponível para esta turma. Retornando ao menu principal.")
        | _ :: _ =>
            call updatePackageData ph "configuracaoTurmaId" (JStr (config_id cfg)) ;
            let mensagem :=
              ("🎉 Cliente cadastrado com sucesso!" +:+ nl +:+ nl +:+ "Agora vamos escolher seu pacote personalizado." +:+ nl +:+ nl)
              +:+ ("📦 **Itens Disponíveis:**" +:+ nl +:+ nl)
              +:+ forEachLine
                    (fun item index =>
                       Js.numberToString (Z.of_nat index + 1) +:+ ". " +:+ nome item
                       +:+ " - " +:+ ("R$ " +:+ toFixed2 sv (valor item)) +:+ (nl +:+ nl))
                    itensCustomizados 0
              +:+ ("💡 **Como selecionar:**" +:+ nl)
              +:+ ("Digite os números dos itens que deseja, separados por vírgula." +:+ nl)
              +:+ ("📝 Exemplo: 1, 3, 5" +:+ nl +:+ nl)
              +:+ "Você pode escolher quantos itens quiser!" in
            ret (text "package_selection" mensagem)
        end
    end.

(** *** [handleState] *)

Definition handleState (message ph : string) : M (option ConversationStep) :=
  if negb (listIncludes estados (Js.toUpperCase message)) then
    ret (Some (withOptions "contract_state"
      "Por favor, selecione um estado válido da lista." estadoOptions))
  else
    await session <- getOrCreateSession ph ;
    let clienteData := dataProp session "clienteData" in
    if negb (truthy clienteData) then
      ret (Some (backToMenu "❌ Erro: Dados do cliente não encontrados. Retornando ao menu principal."))
    else
      await endereco <-
        match orElse (prop clienteData "endereco") (Some (JStr "")) with
        | Some (JStr e) => ret e
        | _ => throw "endereco.split is not a function"
        end ;
      let '(rua, numero) := ruaNumero endereco in
      await novoCliente <-
        createAluno (prop clienteData "cpf")
          (fun cpf =>
             {| ad_cpf := cpf;
                ad_telefone := phone session;
                ad_cep := prop clienteData "cep";
                ad_rua := rua;
                ad_numero := numero;
                ad_bairro := prop clienteData "bairro";
                ad_cidade := prop clienteData "cidade";
                ad_uf := Js.toUpperCase message;
                ad_email := prop clienteData "email";
                ad_nomeCompleto := prop clienteData "nomeCompleto";
                ad_turmaId := prop clienteData "turmaId" |}) ;
      match novoCliente with
      | None =>
          ret (Some (backToMenu "❌ Erro ao criar cliente no banco de dados. Retornando ao menu principal."))
      | Some aluno =>
          call updateClienteData ph "id" (JNum (aluno_id aluno)) ;
          await confirmed <- getContractConfirmedStep (phone session) ;
          ret (Some confirmed)
      end.

(** *** [handlePackageSelection] *)

Definition confirmOptions : OptionList :=
  {| ol_title := "Confirmar Pacote";
     buttonLabel := "Confirmar";
     options :=
       [ opt "sim" "Sim, confirmar" "Prosseguir com este pacote";
         opt "nao" "Não, alterar" "Refazer as escolhas" ] |}.

(** [message.replace(/\s/g, '').split(',').map(n => parseInt(n.trim()))
    .filter(n => !isNaN(n))]. *)
Definition parseSelection (message : string) : list Js.Number :=
  omap (fun n => let v := Js.parseInt (Js.trim n) in if Js.isNaN v then None else Some v)
       (Js.split "," (Js.replaceSpaces message)).

(** [n < 1 || n > length]. *)
Definition outside (length : nat) (n : Js.Number) : bool :=
  Js.ltb n (Js.Int 1) || Js.ltb (Js.Int (Z.of_nat length)) n.

(** [numeros.filter(n => n < 1 || n > length)]. *)
Definition numerosInvalidos (numeros : list Js.Number) (length : nat) : list Js.Number :=
  filter (fun n => outside length n = true) numeros.

(** [itens[n - 1]] for a position from 1 on. *)
Definition itemAt (itens : list ItemCustomizado) (n : Js.Number) : option ItemCustomizado :=
  match n with
  | Js.Int z => itens !! Z.to_nat (z - 1)
  | _ => None
  end.

(** [numeros.map(n => itens[n - 1])], for positions already checked. *)
Definition selectItems (itens : list ItemCustomizado) (numeros : list Js.Number)
    : list ItemCustomizado :=
  omap (itemAt itens) numeros.

(** [itens.reduce((total, item) => total + (item.valor || 0), 0)]. *)
Definition sumValues (itens : list ItemCustomizado) : float :=
  fold_left (fun total item => (total + numberOrZero (valor item))%float) itens 0%float.

Definition handlePackageSelection (message ph : string) : M (option ConversationStep) :=
  await session <- getOrCreateSession ph ;
  let clienteData := dataProp session "clienteData" in
  let pacoteData := dataProp session "pacoteData" in
  if negb (truthy clienteData) || negb (truthy (prop pacoteData "configuracaoTurmaId")) then
    ret (Some (backToMenu "❌ Erro: Dados não encontrados. Retornando ao menu principal."))
  else
    let turmaId := prop clienteData "turmaId" in
    await fromApi <- apiGetItensCustomizados turmaId ;
    await itensCustomizados <-
      orFallback fromApi
        (dbGetItensCustomizados (toText (prop pacoteData "configuracaoTurmaId"))) ;
    match itensCustomizados with
    | [] =>
        ret (Some (backToMenu "❌ Erro: Nenhum item disponível. Retornando ao menu principal."))
    | _ :: _ =>
        let numeros := parseSelection message in
        match numeros with
        | [] =>
            ret (Some (text "package_selection"
              ("❌ Por favor, digite os números dos itens separados por vírgula." +:+ nl +:+ nl +:+ "📝 Exemplo: 1, 2, 3")))
        | _ :: _ =>
            let invalidos := numerosInvalidos numeros (length itensCustomizados) in
            match invalidos with
            | _ :: _ =>
                ret (Some (text "package_selection"
                  ("❌ Número(s) inválido(s): "
                   +:+ Js.join ", " (map Js.toString invalidos)
                   +:+ (nl +:+ nl +:+ "Por favor, escolha números entre 1 e ")
                   +:+ Js.numberToString (Z.of_nat (length itensCustomizados)) +:+ ".")))
            | [] =>
                let itensSelecionados := selectItems itensCustomizados numeros in
                let valorTotal := sumValues itensSelecionados in
                call updatePackageData ph "itensSelecionados"
                       (JArr (map itemToJson itensSelecionados)) ;
                call updatePackageData ph "valorTotal" (JReal valorTotal) ;
                let mensagem :=
                  ("📋 **RESUMO DO SEU PACOTE:**" +:+ nl +:+ nl)
                  +:+ ("📦 **Itens selecionados:**" +:+ nl +:+ nl)
                  +:+ forEachLine
                        (fun item index =>
                           Js.numberToString (Z.of_nat index + 1) +:+ ". " +:+ nome item
                           +:+ " - "
                           +:+ (if PrimFloat.is_nan (valor item) || PrimFloat.is_zero (valor item)
                                then "Consultar"
                                else "R$ " +:+ toFixed2 sv (valor item))
                           +:+ (nl +:+ nl))
                        itensSelecionados 0
                  +:+ "💰 **VALOR TOTAL: R$ " +:+ toFixed2 sv valorTotal +:+ ("**" +:+ nl +:+ nl)
                  +:+ "✅ Confirma este pacote?" in
                ret (Some (withOptions "package_confirmation" mensagem confirmOptions))
            end
        end
    end.

(** *** The payment-method prompt ([handlePaymentMethod]) *)

(** [n || fallback] on a count. *)
Definition countOr (n fallback : Z) : Z := if n =? 0 then fallback else n.

Definition paymentMethodOptions (maxParcelas : Z) : OptionList :=
  {| ol_title := "Métodos de Pagamento";
     buttonLabel := "Escolher método";
     options :=
       [ opt "boleto_pix" "Boleto/PIX" "Pagamento à vista";
         opt "carne"
           ("Carnê (em até " +:+ Js.numberToString maxParcelas +:+ "x)")
           ("Parcelamento em até " +:+ Js.numberToString maxParcelas +:+ "x") ] |}.

Definition handlePaymentMethod (message ph : string) : M (option ConversationStep) :=
  await session <- getOrCreateSession ph ;
  let clienteData := dataProp session "clienteData" in
  if negb (truthy clienteData) then
    ret (Some (backToMenu "❌ Erro: Dados do cliente não encontrados. Retornando ao menu principal."))
  else
    await configuracao <- dbGetConfiguracaoTurma (prop clienteData "turmaId") ;
    match configuracao with
    | None =>
        ret (Some (backToMenu "❌ Erro: Configuração da turma não encontrada. Retornando ao menu principal."))
    | Some cfg =>
        let maxParcelas := countOr (carneMaxParcelas cfg) 1 in
        ret (Some (withOptions "payment_method"
          "💳 **Escolha o método de pagamento:**"
          (paymentMethodOptions maxParcelas)))
    end.

(** *** [handlePackageConfirmation] *)

(** [s.replace('_', ' ')]: the first underscore only. *)
Fixpoint replaceUnderscore (s : string) : string :=
  match s with
  | EmptyString => EmptyString
  | String c r => if Ascii.eqb c "_" then String " " r else String c (replaceUnderscore r)
  end.

(** The elements of a stored array field. A field that holds a
    non-empty string has a [length] but no [forEach], and the handler
    throws; any other value has no positive [length] and is skipped. *)
Definition elementsOf (v : option JValue) : M (list JValue) :=
  match v with
  | Some (JArr l) => ret l
  | Some (JStr s) =>
      if String.eqb s "" then ret [] else throw "forEach is not a function"
  | _ => ret []
  end.

Definition valorExtraOf (cfg : ConfiguracaoTurma) (extra : string) : float :=
  if String.eqb extra "capa_acrilico" then valorExtraCapaAcrilico cfg
  else if String.eqb extra "madeira" then valorExtraMadeira cfg
  else if String.eqb extra "couro" then valorExtraCouro cfg
  else if String.eqb extra "marcadores" then valorExtraMarcadores cfg
  else valorExtraBox cfg.

(** The loop over [pacoteData.extras]: summary lines and running total. *)
Fixpoint extrasSummary (configuracao : option ConfiguracaoTurma) (extras : list JValue)
    (acc : string * float) : M (string * float) :=
  match extras with
  | [] => ret acc
  | element :: rest =>
      match element with
      | JStr extra =>
          let valorExtra :=
            match configuracao with
            | Some cfg => valorExtraOf cfg extra
            | None => 0%float
            end in
          extrasSummary configuracao rest
            (fst acc +:+ "   • " +:+ replaceUnderscore extra +:+ ": R$ "
               +:+ toFixed2 sv valorExtra +:+ nl,
             (snd acc + valorExtra)%float)
      | _ => throw "extra.replace is not a function"
      end
  end.

(** The loop over [pacoteData.customItems]. *)
Fixpoint customItemsSummary (itens : list ItemCustomizado) (ids : list JValue)
    (acc : string * float) : string * float :=
  match ids with
  | [] => acc
  | itemId :: rest =>
      let found :=
        match itemId with
        | JStr id => find (fun i => String.eqb (item_id i) id) itens
        | _ => None
        end in
      customItemsSummary itens rest
        match found with
        | Some item =>
            (fst acc +:+ "   • " +:+ nome item +:+ ": R$ " +:+ toFixed2 sv (valor item) +:+ nl,
             (snd acc + valor item)%float)
        | None => acc
        end
  end.

Definition handlePackageConfirmation (message ph : string) : M (option ConversationStep) :=
  let messageLower := Js.toLowerCase message in
  if String.eqb messageLower "confirmo" || String.eqb messageLower "sim"
     || String.eqb messageLower "confirmar" then
    handlePaymentMethod "" ph
  else if String.eqb messageLower "editar" || String.eqb messageLower "nao"
          || String.eqb messageLower "alterar" then
    await confirmed <- getContractConfirmedStep ph ;
    ret (Some confirmed)
  else
    await session <- getOrCreateSession ph ;
    let pacoteData := dataProp session "pacoteData" in
    let clienteData := dataProp session "clienteData" in
    if negb (truthy pacoteData) || negb (truthy clienteData) then
      ret (Some (backToMenu "❌ Erro: Dados do pacote não encontrados. Retornando ao menu principal."))
    else
      await configuracao <- dbGetConfiguracaoTurma (prop clienteData "turmaId") ;
      await itensCustomizados <-
        match configuracao with
        | Some cfg => dbGetItensCustomizados (config_id cfg)
        | None => ret []
        end ;
      let start := (("📋 **RESUMO DO SEU PACOTE:**" +:+ nl +:+ nl), 0%float) in
      let albumSize := prop pacoteData "albumSize" in
      let withAlbum :=
        if truthy albumSize then
          let valorAlbum :=
            match configuracao with
            | Some cfg =>
                match albumSize with
                | Some (JStr "25x30") => valorAlbum25x30 cfg
                | Some (JStr "30x30") => valorAlbum30x30 cfg
                | _ => valorAlbum30x40 cfg
                end
            | None => 0%float
            end in
          (fst start +:+ "📸 Álbum " +:+ toText albumSize +:+ ": R$ "
             +:+ toFixed2 sv valorAlbum +:+ nl,
           (snd start + valorAlbum)%float)
        else start in
      let photoQuantity := prop pacoteData "photoQuantity" in
      let withPhotos :=
        if truthy photoQuantity then
          let valorFotos :=
            match configuracao with
            | Some cfg =>
                match photoQuantity with
                | Some (JStr "60") => valorFoto60 cfg
                | Some (JStr "80") => valorFoto80 cfg
                | _ => valorFoto100 cfg
                end
            | None => 0%float
            end in
          (fst withAlbum +:+ "📷 " +:+ toText photoQuantity +:+ " fotos: R$ "
             +:+ toFixed2 sv valorFotos +:+ nl,
           (snd withAlbum + valorFotos)%float)
        else withAlbum in
      await extras <- elementsOf (prop pacoteData "extras") ;
      await withExtras <-
        match extras with
        | [] => ret withPhotos
        | _ :: _ =>
            extrasSummary configuracao extras
              (fst withPhotos +:+ "✨ Extras:" +:+ nl, snd withPhotos)
        end ;
      await customItems <- elementsOf (prop pacoteData "customItems") ;
      let withCustom :=
        match customItems with
        | [] => withExtras
        | _ :: _ =>
            customItemsSummary itensCustomizados customItems
              (fst withExtras +:+ "🎁 Itens personalizados:" +:+ nl, snd withExtras)
        end in
      let resumo :=
        fst withCustom +:+ nl +:+ "💰 **VALOR TOTAL: R$ " +:+ toFixed2 sv (snd withCustom)
        +:+ ("**" +:+ nl +:+ nl) +:+ "✅ Confirma este pacote?" in
      ret (Some (withOptions "package_confirmation" resumo confirmOptions)).

(** *** The older package flow: album, photos, extras, custom items *)

(** [R$ ${configuracao?.field.toFixed(2) || '0.00'}]. *)
Definition priceOf (configuracao : option ConfiguracaoTurma)
    (field : ConfiguracaoTurma -> float) : string :=
  "R$ " +:+ match configuracao with
            | Some cfg => toFixed2 sv (field cfg)
            | None => "0.00"
            end.

Definition handlePackageAlbumSize (message ph : string) : M (option ConversationStep) :=
  let albumSize := Js.toLowerCase message in
  if negb (listIncludes ["25x30"; "30x30"; "30x40"] albumSize) then
    ret (Some (withOptions "package_album_size"
      "❌ Opção inválida. Por favor, escolha um dos tamanhos disponíveis."
      {| ol_title := "Tamanhos de Álbum Disponíveis";
         buttonLabel := "Escolher tamanho";
         options :=
           [ opt "25x30" "Álbum 25x30" "Tamanho padrão";
             opt "30x30" "Álbum 30x30" "Tamanho quadrado";
             opt "30x40" "Álbum 30x40" "Tamanho retangular" ] |}))
  else
    await session <- getOrCreateSession ph ;
    call updatePackageData ph "albumSize" (JStr albumSize) ;
    let turmaId := clienteProp session "turmaId" in
    await configuracao <- dbGetConfiguracaoTurma turmaId ;
    ret (Some (withOptions "package_photo_quantity"
      ("✅ Álbum " +:+ albumSize +:+ (" selecionado!" +:+ nl +:+ nl +:+ "📷 **Agora escolha a quantidade de fotos:**"))
      {| ol_title := "Quantidade de Fotos";
         buttonLabel := "Escolher quantidade";
         options :=
           [ opt "60" "60 fotos" (priceOf configuracao valorFoto60);
             opt "80" "80 fotos" (priceOf configuracao valorFoto80);
             opt "100" "100 fotos" (priceOf configuracao valorFoto100) ] |})).

Definition handlePackagePhotoQuantity (message ph : string) : M (option ConversationStep) :=
  let photoQuantity := Js.toLowerCase message in
  if negb (listIncludes ["60"; "80"; "100"] photoQuantity) then
    ret (Some (withOptions "package_photo_quantity"
      "❌ Opção inválida. Por favor, escolha uma das quantidades disponíveis."
      {| ol_title := "Quantidade de Fotos";
         buttonLabel := "Escolher quantidade";
         options :=
           [ opt "60" "60 fotos" "Pacote básico";
             opt "80" "80 fotos" "Pacote intermediário";
             opt "100" "100 fotos" "Pacote completo" ] |}))
  else
    await session <- getOrCreateSession ph ;
    call updatePackageData ph "photoQuantity" (JStr photoQuantity) ;
    let turmaId := clienteProp session "turmaId" in
    await configuracao <- dbGetConfiguracaoTurma turmaId ;
    ret (Some (withOptions "package_extras"
      ("✅ " +:+ photoQuantity
       +:+ (" fotos selecionadas!" +:+ nl +:+ nl +:+ "✨ **Agora escolha os extras (pode escolher múltiplos):**"))
      {| ol_title := "Extras Disponíveis";
         buttonLabel := "Escolher extras";
         options :=
           [ opt "capa_acrilico" "Capa Acrílico" (priceOf configuracao valorExtraCapaAcrilico);
             opt "madeira" "Capa Madeira" (priceOf configuracao valorExtraMadeira);
             opt "couro" "Capa Couro" (priceOf configuracao valorExtraCouro);
             opt "marcadores" "Marcadores" (priceOf configuracao valorExtraMarcadores);
             opt "box" "Box" (priceOf configuracao valorExtraBox);
             opt "nenhum" "Nenhum extra" "Continuar sem extras" ] |})).

Definition extraOptions (label : string) (last : MenuOption) : OptionList :=
  {| ol_title := "Extras Disponíveis";
     buttonLabel := label;
     options :=
       [ opt "capa_acrilico" "Capa Acrílico" "Capa transparente";
         opt "madeira" "Capa Madeira" "Capa de madeira";
         opt "couro" "Capa Couro" "Capa de couro";
         opt "marcadores" "Marcadores" "Marcadores de página";
         opt "box" "Box" "Caixa para o álbum";
         last ] |}.

Definition customItemOptions (itens : list ItemCustomizado) : list MenuOption :=
  map (fun item => opt (item_id item) (nome item) ("R$ " +:+ toFixed2 sv (valor item))) itens.

(** [[...(v || []), x]]: the stored array with one more element. The
    fields spread this way are only ever written as arrays; what is
    not iterable throws. *)
Definition append (v : option JValue) (x : JValue) : M (list JValue) :=
  match v with
  | Some (JArr l) => ret (l ++ [x])
  | _ => if truthy v then throw "is not iterable" else ret [x]
  end.

Definition handlePackageExtras (message ph : string) : M (option ConversationStep) :=
  let extra := Js.toLowerCase message in
  if String.eqb extra "nenhum" then
    call updatePackageData ph "extras" (JArr []) ;
    await session <- getOrCreateSession ph ;
    let turmaId := clienteProp session "turmaId" in
    await configuracao <- dbGetConfiguracaoTurma turmaId ;
    await itensCustomizados <-
      match configuracao with
      | Some cfg => dbGetItensCustomizados (config_id cfg)
      | None => ret []
      end ;
    match itensCustomizados with
    | _ :: _ =>
        ret (Some (withOptions "package_custom_items"
          ("✅ Nenhum extra selecionado!" +:+ nl +:+ nl +:+ "🎁 **Itens personalizados disponíveis para sua turma:**")
          {| ol_title := "Itens Personalizados";
             buttonLabel := "Escolher itens";
             options :=
               customItemOptions itensCustomizados
               ++ [ opt "nenhum" "Nenhum item personalizado" "Continuar sem itens personalizados" ] |}))
    | [] => handlePackageConfirmation "" ph
    end
  else if negb (listIncludes ["capa_acrilico"; "madeira"; "couro"; "marcadores"; "box"] extra) then
    ret (Some (withOptions "package_extras"
      "❌ Opção inválida. Por favor, escolha um dos extras disponíveis."
      (extraOptions "Escolher extras" (opt "nenhum" "Nenhum extra" "Continuar sem extras"))))
  else
    await session <- getOrCreateSession ph ;
    await newExtras <- append (pacoteProp session "extras") (JStr extra) ;
    call updatePackageData ph "extras" (JArr newExtras) ;
    ret (Some (withOptions "package_extras"
      ("✅ " +:+ replaceUnderscore extra +:+ (" adicionado!" +:+ nl +:+ nl +:+ "✨ **Escolha mais extras ou continue:**"))
      (extraOptions "Escolher mais extras"
         (opt "continuar" "Continuar" "Finalizar seleção de extras")))).

Definition handlePackageCustomItems (message ph : string) : M (option ConversationStep) :=
  if String.eqb (Js.toLowerCase message) "nenhum" then
    call updatePackageData ph "customItems" (JArr []) ;
    handlePackageConfirmation "" ph
  else
    await session <- getOrCreateSession ph ;
    let turmaId := clienteProp session "turmaId" in
    await configuracao <- dbGetConfiguracaoTurma turmaId ;
    let invalid :=
      withOptions "package_custom_items"
        "❌ Opção inválida. Por favor, escolha um dos itens disponíveis."
        {| ol_title := "Itens Personalizados";
           buttonLabel := "Escolher itens";
           options :=
             [ opt "nenhum" "Nenhum item personalizado" "Continuar sem itens personalizados" ] |} in
    match configuracao with
    | None => ret (Some invalid)
    | Some cfg =>
        await itensCustomizados <- dbGetItensCustomizados (config_id cfg) ;
        match find (fun item => String.eqb (item_id item) message) itensCustomizados with
        | None => ret (Some invalid)
        | Some itemSelecionado =>
            await newCustomItems <- append (pacoteProp session "customItems") (JStr message) ;
            call updatePackageData ph "customItems" (JArr newCustomItems) ;
            ret (Some (withOptions "package_custom_items"
              ("✅ " +:+ nome itemSelecionado
               +:+ (" adicionado!" +:+ nl +:+ nl +:+ "🎁 **Escolha mais itens personalizados ou continue:**"))
              {| ol_title := "Itens Personalizados";
                 buttonLabel := "Escolher mais itens";
                 options :=
                   customItemOptions itensCustomizados
                   ++ [ opt "continuar" "Continuar" "Finalizar seleção de itens personalizados" ] |}))
        end
    end.

(** *** [handleBillingCpf] *)

Definition handleBillingCpf (message ph : string) : M (option ConversationStep) :=
  await s <- getOrCreateSession ph ;
  if negb (String.eqb (currentStep s) "billing_cpf") then ret None
  else
    let raw := message in
    let typed := Js.replaceNonDigits raw in
    await cpfNumbers <-
      (if negb (Js.length typed =? 11)%nat then
         await session <- getOrCreateSession ph ;
         let cpfCtx := clienteProp session "cpf" in
         if truthy cpfCtx then
           match cpfCtx with
           | Some (JStr c) =>
               if (Js.length (Js.replaceNonDigits c) =? 11)%nat
               then ret (Js.replaceNonDigits c) else ret typed
           | _ => throw "cpfCtx.replace is not a function"
           end
         else ret typed
       else ret typed) ;
    if negb (Js.length cpfNumbers =? 11)%nat then
      ret (Some (text "billing_cpf"
        "Por favor, informe um CPF válido com 11 dígitos (apenas números)."))
    else
      await aluno <- checkCpfExists cpfNumbers ;
      match aluno with
      | None =>
          ret (Some (backToMenu "CPF não encontrado. Retornando ao menu principal."))
      | Some a =>
          let resumo := ("Resumo financeiro:" +:+ nl +:+ "- Boletos/PIX pendentes: 0" +:+ nl +:+ "- Carnês pendentes: 0") in
          ret (Some (backToMenu
            ("Aluno: " +:+ aluno_nomeCompleto a +:+ " (Turma " +:+ aluno_turmaId a
             +:+ (")" +:+ nl +:+ nl) +:+ resumo)))
      end.

(** *** Installment options *)

(** [for (let i = 1; i <= max; i++) options.push({ id: i.toString(), ... })]. *)
Definition parcelasOptions (max : Z) : list MenuOption :=
  map (fun i =>
         opt (Js.numberToString i) (Js.numberToString i +:+ "x")
           (if i =? 1 then "À vista"
            else "Parcelamento em " +:+ Js.numberToString i +:+ " vezes"))
      (seqZ 1 max).

Definition parcelasOptionList (max : Z) : OptionList :=
  {| ol_title := "Quantidade de Parcelas";
     buttonLabel := "Escolher parcelas";
     options := parcelasOptions max |}.

Definition showCarneParcelasOptions (ph : string) (configuracao : ConfiguracaoTurma)
    : M ConversationStep :=
  let maxParcelas := countOr (carneMaxParcelas configuracao) 1 in
  ret (withOptions "carne_parcelas"
    (("💳 **Escolha a quantidade de parcelas:**" +:+ nl +:+ nl +:+ "Você pode parcelar em até ")
     +:+ Js.numberToString maxParcelas +:+ "x.")
    (parcelasOptionList maxParcelas)).

(** *** Payments *)

Definition paymentError (e : string) : ConversationStep :=
  backToMenu
    (("❌ **Erro ao gerar pagamento**" +:+ nl +:+ nl) +:+ e
     +:+ (nl +:+ nl +:+ "Por favor, entre em contato com o suporte." +:+ nl +:+ nl +:+ "Retornando ao menu principal.")).

(** [(pacoteData.itensSelecionados || []).map(item => ({ nome: item.nome, ... }))]:
    the names of the stored items. *)
Definition itemNames (v : option JValue) : M (list (option JValue)) :=
  if truthy v then
    match v with
    | Some (JArr l) =>
        fold_right
          (fun item rest =>
             match item with
             | JNull => throw "Cannot read properties of null (reading 'nome')"
             | _ => await names <- rest ; ret (prop (Some item) "nome" :: names)
             end)
          (ret []) l
    | _ => throw "itensSelecionados.map is not a function"
    end
  else ret [].

(** [PaymentIntegrationService.formatarDescricaoPacote]. *)
Definition formatarDescricaoPacote (nomes : list (option JValue)) : string :=
  match nomes with
  | [a] => toText a
  | [a; b] => toText a +:+ " + " +:+ toText b
  | _ => Js.numberToString (Z.of_nat (length nomes)) +:+ " itens personalizados"
  end.

Definition calcularVencimentoPadrao : M string :=
  await t <- ask now ;
  await tza <- ask localTZA ;
  match Date.setDate tza t (Date.getDate tza t + 7) with
  | Some dataVencimento =>
      ret (hd "" (Js.split "T" (Date.toISOString dataVencimento)))
  | None => throw "Invalid time value"
  end.

Definition processPaymentBoletoPix (ph : string) (configuracao : ConfiguracaoTurma)
    : M ConversationStep :=
  tryCatch (
    await session <- getOrCreateSession ph ;
    let clienteData := dataProp session "clienteData" in
    let pacoteData := dataProp session "pacoteData" in
    if negb (truthy clienteData) || negb (truthy pacoteData) then
      throw "Dados do cliente ou pacote não encontrados"
    else
      let valorTotal := amountOf (prop pacoteData "valorTotal") in
      await nomes <- itemNames (prop pacoteData "itensSelecionados") ;
      let descricao := formatarDescricaoPacote nomes in
      let request :=
        {| br_alunoId := prop clienteData "id";
           br_valor := valorTotal;
           br_descricao := descricao +:+ " - " +:+ toText (prop clienteData "nomeCompleto") |} in
      call emit (EvGerarBoleto request) ;
      match gerarBoleto sv request with
      | None => throw "Erro ao gerar boleto. Por favor, tente novamente."
      | Some boletoResponse =>
          if negb (success boletoResponse) then
            throw (if String.eqb (pr_message boletoResponse) "" then "Erro ao gerar boleto"
                   else pr_message boletoResponse)
          else
            let d := pr_data boletoResponse in
            let mensagem :=
              ("💳 **BOLEPIX (Boleto + PIX)**" +:+ nl +:+ nl)
              +:+ "💰 Valor Total: R$ " +:+ toFixed2 sv valorTotal +:+ (nl +:+ nl)
              +:+ ("📋 **Pagamento disponível em boleto e PIX no mesmo título:**" +:+ nl +:+ nl)
              +:+ ("**📄 BOLETO**" +:+ nl)
              +:+ "🔗 Link: " +:+ bd_link d +:+ nl
              +:+ ("📱 Código de Barras:" +:+ nl) +:+ bd_barcode d +:+ (nl +:+ nl)
              +:+ (if truthy (JStr <$> pixQrcode d)
                   then ("**🔵 PIX (No mesmo boleto)**" +:+ nl)
                        +:+ ("🧾 QR Code (imagem): disponível no link do boleto" +:+ nl)
                   else "")
              +:+ ("✅ Seu pedido foi registrado com sucesso!" +:+ nl +:+ nl)
              +:+ "Retornando ao menu principal." in
            ret (backToMenu mensagem)
      end)
    (fun e => ret (paymentError e)).

Definition processPaymentCarne (ph : string) (parcelas : Js.Number) : M ConversationStep :=
  tryCatch (
    await session <- getOrCreateSession ph ;
    let clienteData := dataProp session "clienteData" in
    let pacoteData := dataProp session "pacoteData" in
    if negb (truthy clienteData) || negb (truthy pacoteData) then
      throw "Dados do cliente ou pacote não encontrados"
    else
      let valorTotal := amountOf (prop pacoteData "valorTotal") in
      let valorParcela := (valorTotal / floatOfNumber parcelas)%float in
      await nomes <- itemNames (prop pacoteData "itensSelecionados") ;
      let descricao := formatarDescricaoPacote nomes in
      await vencimento <- calcularVencimentoPadrao ;
      let request :=
        {| cr_alunoId := prop clienteData "id";
           cr_valor := valorTotal;
           cr_descricao := descricao +:+ " - " +:+ toText (prop clienteData "nomeCompleto");
           cr_parcelas := parcelas;
           vencimentoPrimeiraParcela := vencimento |} in
      call emit (EvGerarCarne request) ;
      match gerarCarne sv request with
      | None => throw "Erro ao gerar carnê. Por favor, tente novamente."
      | Some carneResponse =>
          if negb (success carneResponse) then
            throw (if String.eqb (pr_message carneResponse) "" then "Erro ao gerar carnê"
                   else pr_message carneResponse)
          else
            match pr_data carneResponse with
            | [] => throw "Cannot read properties of undefined (reading 'vencimento')"
            | primeiraParcela :: _ =>
                let mensagem :=
                  "💳 **PAGAMENTO PARCELADO (Carnê " +:+ Js.toString parcelas
                  +:+ ("x)**" +:+ nl +:+ nl)
                  +:+ "💰 Valor Total: R$ " +:+ toFixed2 sv valorTotal +:+ nl
                  +:+ "📅 Valor da Parcela: R$ " +:+ toFixed2 sv valorParcela +:+ (nl +:+ nl)
                  +:+ ("📋 **1ª Parcela:**" +:+ nl)
                  +:+ "📅 Vencimento: " +:+ toLocaleDateString sv (p_vencimento primeiraParcela) +:+ nl
                  +:+ "💵 Valor: R$ " +:+ toFixed2 sv (p_valor primeiraParcela) +:+ (nl +:+ nl)
                  +:+ ("**📄 BOLETO**" +:+ nl)
                  +:+ "🔗 Link: " +:+ p_link primeiraParcela +:+ nl
                  +:+ ("📱 Código de Barras:" +:+ nl) +:+ p_barcode primeiraParcela +:+ (nl +:+ nl)
                  +:+ ("✅ Seu pedido foi registrado com sucesso!" +:+ nl)
                  +:+ ("📬 As demais parcelas serão enviadas nos próximos meses." +:+ nl +:+ nl)
                  +:+ "Retornando ao menu principal." in
                ret (backToMenu mensagem)
            end
      end)
    (fun e => ret (paymentError e)).

(** *** [handlePaymentMethodSelection] and [handleCarneParcelas] *)

Definition handlePaymentMethodSelection (message ph : string) : M (option ConversationStep) :=
  await session <- getOrCreateSession ph ;
  let clienteData := dataProp session "clienteData" in
  let pacoteData := dataProp session "pacoteData" in
  if negb (truthy clienteData) || negb (truthy (prop pacoteData "configuracaoTurmaId")) then
    ret (Some (backToMenu "❌ Erro: Dados não encontrados. Retornando ao menu principal."))
  else
    await configuracao <- dbGetConfiguracaoTurma (prop clienteData "turmaId") ;
    match configuracao with
    | None =>
        ret (Some (backToMenu "❌ Erro: Configuração da turma não encontrada. Retornando ao menu principal."))
    | Some cfg =>
        if String.eqb message "boleto_pix" then
          await r <- processPaymentBoletoPix ph cfg ; ret (Some r)
        else if String.eqb message "carne" then
          await r <- showCarneParcelasOptions ph cfg ; ret (Some r)
        else
          ret (Some (withOptions "payment_method"
            "❌ Opção inválida. Por favor, escolha uma das opções disponíveis."
            (paymentMethodOptions (carneMaxParcelas cfg))))
    end.

(** [isNaN(parcelas) || parcelas < 1]. *)
Definition invalidParcelas (parcelas : Js.Number) : bool :=
  Js.isNaN parcelas || Js.ltb parcelas (Js.Int 1).

Definition handleCarneParcelas (message ph : string) : M (option ConversationStep) :=
  await session <- getOrCreateSession ph ;
  let clienteData := dataProp session "clienteData" in
  let pacoteData := dataProp session "pacoteData" in
  if negb (truthy clienteData) || negb (truthy (prop pacoteData "configuracaoTurmaId")) then
    ret (Some (backToMenu "❌ Erro: Dados não encontrados. Retornando ao menu principal."))
  else
    let parcelas := Js.parseInt message in
    if invalidParcelas parcelas then
      await session <- getOrCreateSession ph ;
      let clienteData := dataProp session "clienteData" in
      await configuracao <-
        (if truthy clienteData then dbGetConfiguracaoTurma (prop clienteData "turmaId")
         else ret None) ;
      let maxParcelas :=
        countOr (match configuracao with Some cfg => carneMaxParcelas cfg | None => 0 end) 6 in
      ret (Some (withOptions "carne_parcelas"
        "❌ Número de parcelas inválido. Por favor, escolha uma opção válida."
        (parcelasOptionList maxParcelas)))
    else
      call updatePackageData ph "parcelas" (numberToJson parcelas) ;
      await r <- processPaymentCarne ph parcelas ;
      ret (Some r).

(** *** The dispatcher ([determineResponse]) *)

Definition lift (r : option ConversationStep) : M (option ConversationStep) := ret r.

Definition always (c : M ConversationStep) : M (option ConversationStep) :=
  await r <- c ; ret (Some r).

Definition determineResponse (session : SessionContext) (message : string)
    : M (option ConversationStep) :=
  let current := currentStep session in
  let messageLower := Js.trim (Js.toLowerCase message) in
  let ph := phone session in
  if String.eqb current "welcome" then lift (Some getWelcomeStep)
  else if String.eqb current "main_menu" then lift (handleMainMenu messageLower)
  else if String.eqb current "contract_cpf" then handleContractCpf messageLower ph
  else if String.eqb current "existing_client_menu" then lift (handleExistingClientMenu messageLower)
  else if String.eqb current "contract_existing_client" then lift (handleExistingClient messageLower)
  else if String.eqb current "contract_class_code" then handleClassCode messageLower ph
  else if String.eqb current "contract_name" then handleName message ph
  else if String.eqb current "contract_email" then handleEmail message ph
  else if String.eqb current "contract_cep" then handleCep message ph
  else if String.eqb current "contract_address" then handleAddress message ph
  else if String.eqb current "contract_neighborhood" then handleNeighborhood message ph
  else if String.eqb current "contract_city" then handleCity message ph
  else if String.eqb current "contract_state" then handleState messageLower ph
  else if String.eqb current "contract_confirmed" then always (getContractConfirmedStep ph)
  else if String.eqb current "package_selection" then handlePackageSelection messageLower ph
  else if String.eqb current "package_album_size" then handlePackageAlbumSize messageLower ph
  else if String.eqb current "package_photo_quantity" then handlePackagePhotoQuantity messageLower ph
  else if String.eqb current "package_extras" then handlePackageExtras messageLower ph
  else if String.eqb current "package_custom_items" then handlePackageCustomItems messageLower ph
  else if String.eqb current "package_confirmation" then handlePackageConfirmation messageLower ph
  else if String.eqb current "billing_cpf" then handleBillingCpf messageLower ph
  else if String.eqb current "payment_method" then handlePaymentMethodSelection messageLower ph
  else if String.eqb current "carne_parcelas" then handleCarneParcelas messageLower ph
  else if String.eqb current "contract" then lift (Some getWelcomeStep)
  else if String.eqb current "billing" then lift (Some getBillingStep)
  else if String.eqb current "editing" then lift (Some getEditingStep)
  else if String.eqb current "admin" then lift (Some getAdminStep)
  else if String.eqb current "quote" then lift (Some getQuoteStep)
  else if String.eqb current "meeting" then lift (Some getMeetingStep)
  else if String.eqb current "support" then lift (Some getSupportStep)
  else lift None.

(** *** Logging and sending *)

Definition logMessage (l : MessageLog) : M unit :=
  call emit (EvLogMessage l) ;
  tryCatch (
    await hasPrisma <- ask prisma ;
    if hasPrisma then query (modify (setLogs (fun ls => ls ++ [l]))) else ret tt)
    (fun _ => ret tt).

(** [ZApiService.sendMessage]: it answers [success: false] instead of
    throwing. *)
Definition sendMessage (request : ZApiRequest) : M bool :=
  let ok := zapi_sendMessage sv request in
  call emit (EvSend request ok) ;
  ret ok.

(** The request for a reply: the option list if there is one, else
    the list, else the buttons, else plain text. *)
Definition requestOf (ph : string) (response : ConversationStep) : ZApiRequest :=
  match optionList response, listMessage response, buttons response with
  | Some ol, _, _ => SendOptionList ph (message response) ol
  | None, Some l, _ => SendList ph (message response) l
  | None, None, Some bs => SendButtons ph (message response) bs
  | None, None, None => SendText ph (message response)
  end.

Definition outgoingLog (ph : string) (response : ConversationStep) : MessageLog :=
  {| log_phone := ph;
     log_message := message response;
     direction := outgoing;
     messageType :=
       match optionList response, listMessage response, buttons response with
       | Some _, _, _ => "optionList"
       | None, Some _, _ => "list"
       | None, None, Some _ => "button"
       | None, None, None => "text"
       end |}.

Definition sendResponse (ph : string) (response : ConversationStep) : M unit :=
  tryCatch (
    await ok <- sendMessage (requestOf ph response) ;
    if ok then logMessage (outgoingLog ph response) else ret tt)
    (fun _ => ret tt).

(** *** [processIncomingMessage] *)

(** A string that is there and not empty. *)
Definition nonEmpty (o : option string) : option string :=
  match o with
  | Some s => if String.eqb s "" then None else Some s
  | None => None
  end.

(** The inbound text and the type it is logged under: the selected
    row, else the pressed button, else [text.message], else
    [message.conversation], else [message] itself. *)
Definition messageContentOf (payload : ZApiWebhookPayload) : string * string :=
  let untouched := ("", if String.eqb (p_type payload) "" then "text" else p_type payload) in
  match listResponseMessage payload, buttonResponseMessage payload with
  | Some lr, _ => (selectedRowId lr, "list_response")
  | None, Some b => (buttonId b, "button_response")
  | None, None =>
      match nonEmpty (p_text payload) with
      | Some m => (m, "text")
      | None =>
          match p_message payload with
          | Some (MsgObject conversation _) =>
              match nonEmpty conversation with
              | Some c => (c, "text")
              | None => untouched
              end
          | Some (MsgText s) =>
              if String.eqb s "" then untouched else (s, "text")
          | Some (MsgOther _) => untouched
          | None => untouched
          end
      end
  end.

Definition incomingLog (payload : ZApiWebhookPayload) : MessageLog :=
  {| log_phone := p_phone payload;
     log_message := fst (messageContentOf payload);
     direction := incoming;
     messageType := snd (messageContentOf payload) |}.

Definition processIncomingMessage (payload : ZApiWebhookPayload) : M unit :=
  call emit (EvEngine (p_phone payload)) ;
  tryCatch (
    let ph := p_phone payload in
    let messageContent := fst (messageContentOf payload) in
    call logMessage (incomingLog payload) ;
    await session <- getOrCreateSession ph ;
    await response <- determineResponse session messageContent ;
    match response with
    | Some r =>
        await currentSession <- getOrCreateSession ph ;
        call updateSession ph (step r) messageContent (data currentSession) ;
        sendResponse ph r
    | None => ret tt
    end)
    (fun _ => ret tt).

(** *** The webhook controller ([WebhookController.handleWebhook])

    The controller builds its own [RedisService] and hands it to the
    engine, so [redisService] is what both see. Keys set with a TTL
    stay set here: the guards are read within one TTL. *)

Inductive WebhookResponse :=
| BadRequest            (* 400, "Payload invalido" *)
| IgnoredFromMe         (* 200, ignored_from_me *)
| Deduped               (* 200, deduped *)
| Debounced             (* 200, debounced *)
| Locked                (* 200, locked *)
| Success               (* 200, success *)
| ServerError (error : string).  (* 500 *)

(** [a || b] on optional strings. *)
Definition orString (a b : option string) : option string :=
  match nonEmpty a with
  | Some s => Some s
  | None => b
  end.

(** [error.message] of the [TypeError] of a conversion that fails. *)
Definition conversionError : string := "Cannot convert object to primitive value".

(** [`${content}`] in the signature of the debounce key, where
    [content] is [payload.message || payload.text?.message ||
    payload.listResponseMessage?.selectedRowId ||
    payload.buttonResponseMessage?.buttonId || '']; [None] when the
    conversion of the message to a text throws. *)
Definition debounceContent (payload : ZApiWebhookPayload) : option string :=
  match p_message payload with
  | Some (MsgObject _ ownToString) =>
      if ownToString then None else Some "[object Object]"
  | Some (MsgOther text) => text
  | other =>
      Some (default ""
        (orString (match other with Some (MsgText s) => Some s | _ => None end)
        (orString (p_text payload)
        (orString (selectedRowId <$> listResponseMessage payload)
        (orString (buttonId <$> buttonResponseMessage payload) None)))))
  end.

(** Messages of a user: text, list, buttons, [ReceivedCallback]. *)
Definition isUserMessage (payload : ZApiWebhookPayload) : bool :=
  (String.eqb (p_type payload) "text"
   && (match p_message payload with
       | Some (MsgText s) => negb (String.eqb s "")
       | Some (MsgObject _ _) => true
       | Some (MsgOther _) => true
       | None => false
       end
       || bool_decide (is_Some (p_text payload))))
  || String.eqb (p_type payload) "ReceivedCallback"
  || bool_decide (is_Some (listResponseMessage payload))
  || bool_decide (is_Some (buttonResponseMessage payload)).

Definition handleWebhook (payload : ZApiWebhookPayload) : M WebhookResponse :=
  tryCatch (
    if String.eqb (p_phone payload) "" || String.eqb (p_type payload) "" then
      ret BadRequest
    else if fromMe payload then ret IgnoredFromMe
    else
      await hasRedis <- ask redisService ;
      await duplicate <-
        match orString (messageId payload) (p_id payload) with
        | Some id =>
            if hasRedis then
              await fresh <- Redis.setIfNotExists ("zapi:msg:" +:+ id) ;
              ret (negb fresh)
            else ret false
        | None => ret false
        end ;
      if duplicate then ret Deduped
      else
        await repeated <-
          (if hasRedis then
             match debounceContent payload with
             | Some content =>
                 let sig := p_phone payload +:+ "|" +:+ p_type payload +:+ "|"
                            +:+ content in
                 await ok <- Redis.setIfNotExists ("zapi:debounce:" +:+ base64 sv sig) ;
                 ret (negb ok)
             | None => throw conversionError
             end
           else ret false) ;
        if repeated then ret Debounced
        else if isUserMessage payload then
          let lockKey := "zapi:lock:" +:+ p_phone payload in
          if hasRedis then
            await locked <- Redis.setIfNotExists lockKey ;
            if negb locked then ret Locked
            else
              (* try { processIncomingMessage } finally { delete lock } *)
              await outcome <-
                tryCatch (call processIncomingMessage payload ; ret None)
                         (fun e => ret (Some e)) ;
              call Redis.delete lockKey ;
              match outcome with
              | None => ret Success
              | Some e => throw e
              end
          else
            call processIncomingMessage payload ;
            ret Success
        else ret Success)
    (fun e => ret (ServerError e)).

End Engine.

(** ** Closed forms of a turn *)

(** The world [sendResponse] leaves. *)
Definition sent (sv : Services) (ph : string) (r : ConversationStep) (w : World) : World :=
  let request := requestOf ph r in
  let ok := zapi_sendMessage sv request in
  let w1 := record (EvSend request ok) w in
  if ok then logged (outgoingLog ph r) w1 else w1.

(** The world a turn starts the transition in: the engine was entered,
    the inbound message logged and the session read. *)
Definition turnStart (payload : ZApiWebhookPayload) (w : World) : SessionContext * World :=
  lookupSession (p_phone payload)
    (logged (incomingLog payload) (record (EvEngine (p_phone payload)) w)).

(** The world a turn ends in after a transition to [r]: the session is
    read again, stored under the new step, and the reply is sent. *)
Definition turnEnd (sv : Services) (payload : ZApiWebhookPayload) (r : ConversationStep)
    (w : World) : World :=
  let ph := p_phone payload in
  sent sv ph r
    (storeSession ph (step r) (fst (messageContentOf payload))
       (data (fst (lookupSession ph w))) (snd (lookupSession ph w))).

(** The reply of [handleClassCode] to a code that was not found. *)
Definition classCodeRetry : ConversationStep :=
  text "contract_class_code"
    ("❌ Código da turma não encontrado. Verifique o código e tente novamente."
     +:+ String (ascii_of_N 10) (String (ascii_of_N 10) "Digite o código da sua turma:")).

(** The attempt counter of a session is absent or a number. *)
Definition counterOk (s : SessionContext) : Prop :=
  match dataProp s "tentativasTurma" with
  | None | Some (JNum _) => True
  | Some _ => False
  end.

(** The attempt counter, as [handleClassCode] reads it. *)
Definition attempts (s : SessionContext) : Z :=
  integerOf (dataProp s "tentativasTurma").

(** The cohort code [handleClassCode] looks up for an inbound payload:
    the dispatcher lower-cases and trims the text, the handler trims it
    again. *)
Definition codeOf (payload : ZApiWebhookPayload) : string :=
  Js.trim (Js.trim (Js.toLowerCase (fst (messageContentOf payload)))).

(** The choices [handleMainMenu] compares the trimmed text with. *)
Definition exactChoices : list string :=
  ["1"; "contract"; "2"; "billing"; "3"; "editing"; "4"; "admin"; "5"; "quote";
   "6"; "meeting"].

(** The reply of [handleMainMenu] to the attendant option. *)
Definition attendantReply : ConversationStep :=
  text "support" "Você será direcionado para nossa equipe de atendimento. Aguarde um momento...".

(** The reply of [handleBillingCpf] when it has no 11-digit CPF. *)
Definition billingCpfPrompt : ConversationStep :=
  text "billing_cpf" "Por favor, informe um CPF válido com 11 dígitos (apenas números).".

(** The installment-plan requests a trace shows reaching the payment
    backend, in order. *)
Definition carneRequests (tr : list Event) : list CarneRequest :=
  omap (fun e => match e with EvGerarCarne r => Some r | _ => None end) tr.

(** The catalog [handlePackageSelection] works with: the partner API's
    list for the customer's cohort, or the local one for the stored
    configuration when the API has none. *)
Definition catalogFor (sv : Services) (s : SessionContext) : list ItemCustomizado :=
  match api_getItensCustomizados sv (toText (clienteProp s "turmaId")) with
  | [] => db_getItensCustomizados sv (toText (pacoteProp s "configuracaoTurmaId"))
  | itens => itens
  end.

(** The reply of [handlePackageSelection] to positions outside the
    catalog. *)
Definition invalidSelectionReply (invalidos : list Js.Number) (length : nat) : ConversationStep :=
  text "package_selection"
    ("❌ Número(s) inválido(s): "
     +:+ Js.join ", " (map Js.toString invalidos)
     +:+ (nl +:+ nl +:+ "Por favor, escolha números entre 1 e ")
     +:+ Js.numberToString (Z.of_nat length) +:+ ".").

(** A position that resolves in a catalog of the given length. *)
Definition inCatalog (length : nat) (n : Js.Number) : Prop :=
  match n with
  | Js.Int z => 1 <= z <= Z.of_nat length
  | _ => False
  end.

(** The requests a trace shows going out through the gateway, in
    order. *)
Definition sends (tr : list Event) : list ZApiRequest :=
  omap (fun e => match e with EvSend r _ => Some r | _ => None end) tr.

(** A world with further events on its trace. *)
Definition recordAll (evs : list Event) (w : World) : World :=
  fold_left (fun w e => record e w) evs w.

(** The lookups [handlePackageSelection] makes for the catalog. *)
Definition catalogLookups (sv : Services) (s : SessionContext) : list Event :=
  EvLookup "api.getItensCustomizados" (toText (clienteProp s "turmaId"))
  :: match api_getItensCustomizados sv (toText (clienteProp s "turmaId")) with
     | [] => [EvLookup "db.getItensCustomizados" (toText (pacoteProp s "configuracaoTurmaId"))]
     | _ :: _ => []
     end.

(** No [T] among the characters of a string. *)
Fixpoint noT (s : string) : bool :=
  match s with
  | EmptyString => true
  | String c r => negb (Ascii.eqb c "T") && noT r
  end.

(** The first due date of an installment plan requested at time [t]
    in the zone [tza]: the local date and time of day seven calendar
    days later, and of that instant the UTC calendar date, as
    [YYYY-MM-DD]. *)
Definition dueDate (tza : Date.Zone) (t : Z) : string :=
  Date.isoDate (Date.Day (Date.UTC tza (Date.LocalTime tza t + 7 * Date.msPerDay))).

(** A zone that keeps one offset. *)
Definition fixedOffset (tza : Date.Zone) : Prop :=
  forall t t' b b', tza t b = tza t' b'.

(** ** What a transition may do

    The events a transition (a step handler) may leave on the trace:
    lookups, session updates, registrations and payment requests, an
    installment plan always with the due date of the time [t] it is
    requested at. Inbound and outbound logging, sending and entering the
    engine belong to [processIncomingMessage]. *)
Definition handlerEvent (tza : Date.Zone) (t : Z) (e : Event) : Prop :=
  match e with
  | EvSend _ _ | EvLogMessage _ | EvEngine _ => False
  | EvGerarCarne r => vencimentoPrimeiraParcela r = dueDate tza t
  | _ => True
  end.

(** [c], run at time [t] in the zone [tza], leaves the clock, the zone
    and the message log alone, adds only handler events to the trace,
    and a value it returns satisfies [Q]. *)
Definition Emits (tza : Date.Zone) (t : Z) {A} (c : M A) (Q : A -> Prop) : Prop :=
  forall w, now w = t -> localTZA w = tza ->
    (now (exec c w) = t /\ localTZA (exec c w) = tza)
    /\ message_logs (exec c w) = message_logs w
    /\ (exists evs, trace (exec c w) = trace w ++ evs /\ Forall (handlerEvent tza t) evs)
    /\ (forall a, eval c w = Ok a -> Q a).

Definition anything {A} (a : A) : Prop := True.

Definition isReply (r : option ConversationStep) : Prop := r <> None.

(** A transition leaves the message log alone, and one that answers
    [null] has left nothing on the trace. *)
Definition Quiet (tza : Date.Zone) (t : Z) (c : M (option ConversationStep)) : Prop :=
  forall w, now w = t -> localTZA w = tza ->
    message_logs (exec c w) = message_logs w
    /\ exists evs,
      trace (exec c w) = trace w ++ evs
      /\ Forall (handlerEvent tza t) evs
      /\ (eval c w = Ok None -> evs = []).

(** The transition of a turn: [determineResponse] on the session and
    the text the turn starts with. *)
Definition transition (sv : Services) (payload : ZApiWebhookPayload) (w : World)
    : Result (option ConversationStep) :=
  eval (determineResponse sv (fst (turnStart payload w)) (fst (messageContentOf payload)))
       (snd (turnStart payload w)).

(** What [processIncomingMessage] does after the transition: for a
    reply, the session update that stores its step, the send, and the
    outgoing log when the send succeeded; nothing otherwise. *)
Definition closing (sv : Services) (ph : string) (res : Result (option ConversationStep))
    : list Event :=
  match res with
  | Ok (Some r) =>
      [EvUpdateSession ph (step r);
       EvSend (requestOf ph r) (zapi_sendMessage sv (requestOf ph r))]
      ++ (if zapi_sendMessage sv (requestOf ph r)
          then [EvLogMessage (outgoingLog ph r)] else [])
  | _ => []
  end.

(** The steps stored by the session updates of a trace, in order. *)
Definition updates (tr : list Event) : list string :=
  omap (fun e => match e with EvUpdateSession _ next => Some next | _ => None end) tr.

(** The message-log writes of a trace in one direction, in order. *)
Definition logWrites (d : Direction) (tr : list Event) : list MessageLog :=
  omap (fun e =>
          match e with
          | EvLogMessage l =>
              match d, direction l with
              | incoming, incoming | outgoing, outgoing => Some l
              | _, _ => None
              end
          | _ => None
          end) tr.

(** ** [ConversationService.deleteSession] *)

(** [DELETE FROM zapflow_sessions WHERE phone = ...]. *)
Definition deleteRow (ph : string) : M unit :=
  query (modify (setSessions (delete ph))).

Definition deleteSession (ph : string) : M unit :=
  tryCatch (
    await hasRedis <- ask redisService ;
    call (if hasRedis then call Redis.deleteSession ph ; ret tt else ret tt) ;
    await hasPrisma <- ask prisma ;
    if hasPrisma then deleteRow ph else ret tt)
    (fun _ => ret tt).

(** The handlers of the contact and address fields: the step each one
    serves, the step it moves on to, and the field of [clienteData] it
    writes. *)
Definition fieldHandlers
    : list (string * (string -> string -> M (option ConversationStep)) * string * string) :=
  [ ("contract_name", handleName, "contract_email", "nomeCompleto");
    ("contract_email", handleEmail, "contract_cep", "email");
    ("contract_cep", handleCep, "contract_address", "cep");
    ("contract_address", handleAddress, "contract_neighborhood", "endereco");
    ("contract_neighborhood", handleNeighborhood, "contract_city", "bairro");
    ("contract_city", handleCity, "contract_state", "cidade") ].

(** Every character is a digit. *)
Definition allDigits (s : string) : bool :=
  forallb Js.isDigit (String.list_ascii_of_string s).

(** The ids of the options a reply offers. *)
Definition optionIds (r : ConversationStep) : list string :=
  match optionList r with
  | Some ol => opt_id <$> options ol
  | None => []
  end.

(** The steps [determineResponse] has a case for. *)
Definition knownSteps : list string :=
  [ "welcome"; "main_menu"; "contract_cpf"; "existing_client_menu";
    "contract_existing_client"; "contract_class_code"; "contract_name";
    "contract_email"; "contract_cep"; "contract_address"; "contract_neighborhood";
    "contract_city"; "contract_state"; "contract_confirmed"; "package_selection";
    "package_album_size"; "package_photo_quantity"; "package_extras";
    "package_custom_items"; "package_confirmation"; "billing_cpf"; "payment_method";
    "carne_parcelas"; "contract"; "billing"; "editing"; "admin"; "quote"; "meeting";
    "support" ].

(** ** What the engine leaves alone *)

(** The parts of the world outside the sessions, the message log and
    the trace: the guard keys of the webhook, which stores are there and
    answer, and the clock. *)
Definition guard (w : World)
    : gset string * (bool * bool) * (bool * bool) * (Z * Date.Zone) :=
  (keys w, (redisService w, redis_up w), (prisma w, db_up w), (now w, localTZA w)).

Definition Keeps {A} (c : M A) : Prop := forall w, guard (exec c w) = guard w.

(** ** The guard keys of the webhook *)

Definition msgKey (id : string) : string := "zapi:msg:" +:+ id.

(** The message of the event converts to a text, so that the
    signature of the debounce key can be made. *)
Definition printable (payload : ZApiWebhookPayload) : Prop :=
  is_Some (debounceContent payload).

(** The debounce key of an event that is [printable]. *)
Definition debounceKey (sv : Services) (payload : ZApiWebhookPayload) : string :=
  "zapi:debounce:"
  +:+ base64 sv (p_phone payload +:+ "|" +:+ p_type payload +:+ "|"
                 +:+ default "" (debounceContent payload)).

Definition lockKey (payload : ZApiWebhookPayload) : string :=
  "zapi:lock:" +:+ p_phone payload.

(** The key that stops a second delivery: the one of the message id
    when the event has one, else the one of its content. *)
Definition deliveryKey (sv : Services) (payload : ZApiWebhookPayload) : string :=
  match orString (messageId payload) (p_id payload) with
  | Some id => msgKey id
  | None => debounceKey sv payload
  end.

(** [SET key NX] while Redis answers: whether the key was set now, and
    the world after. *)
Definition acquire (key : string) (w : World) : bool * World :=
  if bool_decide (key ∈ keys w) then (false, w)
  else (true, setKeys (fun ks => {[key]} ∪ ks) w).

(** The events of a trace that enter the engine. *)
Definition engineEntries (tr : list Event) : list string :=
  omap (fun e => match e with EvEngine ph => Some ph | _ => None end) tr.

(** A webhook event that passes validation and is not our own. *)
Definition accepted (payload : ZApiWebhookPayload) : Prop :=
  p_phone payload <> "" /\ p_type payload <> "" /\ fromMe payload = false.

(** Redis is there and answers. *)
Definition redisUp (w : World) : Prop := redisService w = true /\ redis_up w = true.

(** The character does not occur in the string. *)
Fixpoint noChar (c : ascii) (s : string) : bool :=
  match s with
  | EmptyString => true
  | String x r => negb (Ascii.eqb x c) && noChar c r
  end.

(** The extras [handlePackageExtras] accepts. *)
Definition validExtras : list string :=
  ["capa_acrilico"; "madeira"; "couro"; "marcadores"; "box"].

(** [c] leaves the session read for [ph] as it is, and the stores
    answering as they did. *)
Definition Reads (ph : string) {A} (c : M A) : Prop :=
  forall w,
    fst (lookupSession ph (exec c w)) = fst (lookupSession ph w)
    /\ cached (exec c w) = cached w /\ durable (exec c w) = durable w.

(** ** Scenarios: concrete services and worlds used to run the engine *)

Module Scenario.

Definition turmaDireito : Turma :=
  {| turma_id := "t-2025"; universidade := "UFMA"; curso := "Direito";
     nomeTurma := "Direito 2025" |}.

Definition configuracao : ConfiguracaoTurma :=
  {| config_id := "cfg-1";
     valorAlbum25x30 := 100; valorAlbum30x30 := 120; valorAlbum30x40 := 150;
     valorFoto60 := 60; valorFoto80 := 80; valorFoto100 := 100;
     valorExtraCapaAcrilico := 10; valorExtraMadeira := 20; valorExtraCouro := 30;
     valorExtraMarcadores := 5; valorExtraBox := 15;
     carneMaxParcelas := 6 |}.

Definition catalogo : list ItemCustomizado :=
  [ {| item_id := "i1"; nome := "Álbum"; valor := 10; configuracaoTurmaId := "cfg-1" |};
    {| item_id := "i2"; nome := "Fotos"; valor := 20; configuracaoTurmaId := "cfg-1" |};
    {| item_id := "i3"; nome := "Quadro"; valor := 30; configuracaoTurmaId := "cfg-1" |} ].

Definition maria : Aluno :=
  {| aluno_id := 7; aluno_nomeCompleto := "Maria Souza"; aluno_turmaId := "t-2025" |}.

(** A partner backend that knows one cohort, one customer and a
    three-item catalog; a payment backend that accepts any request; a
    gateway that delivers every message. *)
Definition services : Services :=
  {| api_checkCpfExists := fun cpf => if String.eqb cpf "11144477735" then Some maria else None;
     api_checkTurmaExists := fun code => if String.eqb code "t-2025" then Some turmaDireito else None;
     api_getConfiguracaoTurma := fun t => if String.eqb t "t-2025" then Some configuracao else None;
     api_getItensCustomizados := fun _ => [];
     api_createAluno := fun _ => Some maria;
     db_getConfiguracaoTurma := fun t => if String.eqb t "t-2025" then Some configuracao else None;
     db_getItensCustomizados := fun c => if String.eqb c "cfg-1" then catalogo else [];
     gerarBoleto := fun _ =>
       Some {| success := true; pr_message := "ok";
               pr_data := {| bd_link := "https://pay/b"; bd_barcode := "0001";
                             pixQrcode := None |} |};
     gerarCarne := fun req =>
       Some {| success := true; pr_message := "ok";
               pr_data := [ {| p_link := "https://pay/c"; p_barcode := "0002";
                               p_valor := cr_valor req;
                               p_vencimento := vencimentoPrimeiraParcela req |} ] |};
     zapi_sendMessage := fun _ => true;
     toFixed2 := fun _ => "0.00";
     toLocaleDateString := fun s => s;
     base64 := fun s => s |}.

Definition phone : string := "5598999990000".

(** Both stores answer and are empty; 2026-11-02T02:30:00.123Z. *)
Definition emptyWorld : World :=
  {| prisma := true; db_up := true; sessions := ∅; message_logs := [];
     redisService := true; redis_up := true; cache := ∅; keys := ∅;
     now := 1793586600123; localTZA := fun _ _ => 0; trace := [] |}.

(** The same, with Redis unreachable. *)
Definition redisDown : World :=
  {| prisma := true; db_up := true; sessions := ∅; message_logs := [];
     redisService := true; redis_up := false; cache := ∅; keys := ∅;
     now := 1793586600123; localTZA := fun _ _ => 0; trace := [] |}.

(** A session of [phone] at the given step with the given data, in
    both stores. *)
Definition worldAt (current : string) (d : option (gmap string JValue)) : World :=
  {| prisma := true; db_up := true;
     sessions := {[ phone := rowOf current "" d ]};
     message_logs := [];
     redisService := true; redis_up := true;
     cache := {[ phone := ctxOf phone current "" d ]};
     keys := ∅;
     now := 1793586600123; localTZA := fun _ _ => 0; trace := [] |}.

(** America/New_York around the end of daylight time in 2026: four
    hours behind UTC until 2026-11-01T06:00Z (02:00 local time), five
    from then on. A local time that the change repeats is read with the
    offset before it. *)
Definition newYork : Date.Zone :=
  fun t isUTC =>
    if isUTC then (if t <? 1793512800000 then -14400000 else -18000000)
    else (if t <? 1793498400000 then -14400000 else -18000000).

(** [worldAt] on the evening of 2026-10-28 in New York:
    2026-10-28T23:30:00Z, 19:30 local time. *)
Definition newYorkEvening (current : string) (d : option (gmap string JValue)) : World :=
  {| prisma := true; db_up := true;
     sessions := {[ phone := rowOf current "" d ]};
     message_logs := [];
     redisService := true; redis_up := true;
     cache := {[ phone := ctxOf phone current "" d ]};
     keys := ∅;
     now := 1793230200000; localTZA := newYork; trace := [] |}.

(** A customer registered in cohort [t-2025] with a package being
    chosen. *)
Definition clienteData : JValue :=
  JObj (<["cpf" := JStr "52998224725"]>
       (<["turmaId" := JStr "t-2025"]>
       (<["nomeCompleto" := JStr "Ana Lima"]>
       (<["id" := JNum 7]> ∅)))).

Definition pacoteData : JValue :=
  JObj (<["configuracaoTurmaId" := JStr "cfg-1"]> ∅).

Definition registered : option (gmap string JValue) :=
  Some (<["clienteData" := clienteData]> (<["pacoteData" := pacoteData]> ∅)).

Definition textPayload (msg : string) : ZApiWebhookPayload :=
  {| p_type := "text"; p_phone := phone; p_message := None; p_text := Some msg;
     listResponseMessage := None; buttonResponseMessage := None;
     fromMe := false; messageId := None; p_id := None |}.

End Scenario.

(** A deployment without stores: no database client, Redis
    unreachable. *)
Definition noStores : World :=
  {| prisma := false; db_up := true; sessions := ∅; message_logs := [];
     redisService := true; redis_up := false; cache := ∅; keys := ∅;
     now := 1793586600123; localTZA := fun _ _ => 0; trace := [] |}.

(** A text event whose [message] is an object with a [conversation]:
    [{ conversation: ... }]. *)
Definition objectPayload (conversation : string) : ZApiWebhookPayload :=
  {| p_type := "text"; p_phone := Scenario.phone;
     p_message := Some (MsgObject (Some conversation) false); p_text := None;
     listResponseMessage := None; buttonResponseMessage := None;
     fromMe := false; messageId := None; p_id := None |}.

(** A text event whose [message] is [{ toString: 1 }], with a message
    id. *)
Definition unprintablePayload : ZApiWebhookPayload :=
  {| p_type := "text"; p_phone := Scenario.phone;
     p_message := Some (MsgObject None true); p_text := None;
     listResponseMessage := None; buttonResponseMessage := None;
     fromMe := false; messageId := Some "A1"; p_id := None |}.

(** * Theorems *)

(** ** The CPF validator *)

Lemma parseInt_single (c : ascii) :
  Js.parseInt (String c EmptyString)
  = if Js.isDigit c then Js.Int (Js.digitValue c) else Js.NaN.
Proof. destruct c as [[] [] [] [] [] [] [] []]; reflexivity. Qed.

Lemma digitAt_get (cpf : string) (i : nat) :
  digitAt cpf i
  = match String.get i cpf with
    | Some c => if Js.isDigit c then Js.Int (Js.digitValue c) else Js.NaN
    | None => Js.NaN
    end.
Proof.
  unfold digitAt, Js.charAt. destruct (String.get i cpf) as [c|].
  - apply parseInt_single.
  - reflexivity.
Qed.

Lemma digitValue_inj (a b : ascii) :
  Js.isDigit a = true -> Js.isDigit b = true ->
  Js.digitValue a = Js.digitValue b -> a = b.
Proof.
  unfold Js.isDigit, Js.digitValue, Js.code. intros _ _ H.
  assert (N_of_ascii a = N_of_ascii b) as E by lia.
  rewrite <- (ascii_N_embedding a), <- (ascii_N_embedding b). now rewrite E.
Qed.

Lemma get_setChar_ne (s : string) (i j : nat) (c : ascii) :
  i <> j -> String.get i (setChar j c s) = String.get i s.
Proof.
  revert i j. induction s as [|a r IH]; intros i j Hij; [destruct j; reflexivity|].
  destruct j as [|j]; destruct i as [|i]; simpl; try congruence.
  apply IH. congruence.
Qed.

Lemma get_setChar_eq (s : string) (j : nat) (c : ascii) :
  is_Some (String.get j s) -> String.get j (setChar j c s) = Some c.
Proof.
  revert j. induction s as [|a r IH]; intros j [x Hx].
  - destruct j; discriminate.
  - destruct j as [|j]; simpl in *; [reflexivity|]. apply IH. eauto.
Qed.

Lemma weightedSum_ext (a b : string) (n : nat) :
  (forall i, (i < n)%nat -> digitAt a i = digitAt b i) ->
  weightedSum a n = weightedSum b n.
Proof.
  intros H. unfold weightedSum.
  generalize (Js.Int 0) as acc.
  assert (Forall (fun i => (i < n)%nat) (seq 0 n)) as Hl.
  { apply Forall_forall. intros i Hi. apply elem_of_seq in Hi. lia. }
  revert Hl. generalize (seq 0 n) as l.
  induction l as [|i l IH]; intros Hl acc; [reflexivity|].
  inversion Hl; subst. simpl. rewrite H by assumption. now apply IH.
Qed.

Lemma strictEq_true (a b : Js.Number) :
  Js.strictEq a b = true -> a = b /\ b <> Js.NaN.
Proof.
  destruct a as [|x|x], b as [|y|y]; simpl; try discriminate.
  - intros H. apply Z.eqb_eq in H. subst. split; [reflexivity | discriminate].
  - intros H. apply Bool.eqb_prop in H. subst. split; [reflexivity | discriminate].
Qed.

Lemma isValidCPF_inv (cpf : string) :
  isValidCPF cpf = true ->
  checkDigit (weightedSum cpf 9) = digitAt cpf 9
  /\ checkDigit (weightedSum cpf 10) = digitAt cpf 10
  /\ (exists c9, String.get 9 cpf = Some c9 /\ Js.isDigit c9 = true)
  /\ (exists c10, String.get 10 cpf = Some c10 /\ Js.isDigit c10 = true).
Proof.
  unfold isValidCPF. destruct (allSameDigit cpf); [discriminate|].
  intros H. apply andb_prop in H as [H1 H2].
  apply strictEq_true in H1 as (E1 & N1).
  apply strictEq_true in H2 as (E2 & N2).
  repeat split; try assumption.
  - rewrite digitAt_get in N1. destruct (String.get 9 cpf) as [c|]; [|congruence].
    exists c. split; [reflexivity|]. destruct (Js.isDigit c); [reflexivity | congruence].
  - rewrite digitAt_get in N2. destruct (String.get 10 cpf) as [c|]; [|congruence].
    exists c. split; [reflexivity|]. destruct (Js.isDigit c); [reflexivity | congruence].
Qed.

Lemma strictEq_digit_ne (d : Js.Number) (c0 c : ascii) :
  d = Js.Int (Js.digitValue c0) -> Js.isDigit c0 = true -> Js.isDigit c = true ->
  c0 <> c -> Js.strictEq d (Js.Int (Js.digitValue c)) = false.
Proof.
  intros -> H0 Hc Hne. simpl. apply Z.eqb_neq. intros E.
  apply Hne. now apply digitValue_inj.
Qed.

Lemma isValidCPF_altered_first (cpf : string) (c : ascii) :
  isValidCPF cpf = true -> Js.isDigit c = true ->
  String.get 9 cpf <> Some c ->
  isValidCPF (setChar 9 c cpf) = false.
Proof.
  intros Hv Hc Hne.
  apply isValidCPF_inv in Hv as (E1 & _ & (c9 & G9 & D9) & _).
  unfold isValidCPF. destruct (allSameDigit _); [reflexivity|].
  apply andb_false_intro1.
  rewrite (weightedSum_ext (setChar 9 c cpf) cpf 9).
  2:{ intros i Hi. rewrite !digitAt_get, get_setChar_ne by lia. reflexivity. }
  rewrite (digitAt_get (setChar 9 c cpf)), get_setChar_eq by (rewrite G9; eauto).
  rewrite Hc. apply strictEq_digit_ne with c9; auto.
  - rewrite E1, digitAt_get, G9, D9. reflexivity.
  - congruence.
Qed.

Lemma isValidCPF_altered_second (cpf : string) (c : ascii) :
  isValidCPF cpf = true -> Js.isDigit c = true ->
  String.get 10 cpf <> Some c ->
  isValidCPF (setChar 10 c cpf) = false.
Proof.
  intros Hv Hc Hne.
  apply isValidCPF_inv in Hv as (_ & E2 & _ & (c10 & G10 & D10)).
  unfold isValidCPF. destruct (allSameDigit _); [reflexivity|].
  apply andb_false_intro2.
  rewrite (weightedSum_ext (setChar 10 c cpf) cpf 10).
  2:{ intros i Hi. rewrite !digitAt_get, get_setChar_ne by lia. reflexivity. }
  rewrite (digitAt_get (setChar 10 c cpf)), get_setChar_eq by (rewrite G10; eauto).
  rewrite Hc. apply strictEq_digit_ne with c10; auto.
  - rewrite E2, digitAt_get, G10, D10. reflexivity.
  - congruence.
Qed.

Lemma isValidCPF_repeated (c : ascii) :
  Js.isDigit c = true ->
  isValidCPF (String.string_of_list_ascii (repeat c 11)) = false.
Proof.
  intros Hc. unfold isValidCPF, allSameDigit. simpl.
  rewrite Hc, Ascii.eqb_refl. reflexivity.
Qed.

(** C6. [isValidCPF] rejects every string made of one digit repeated
    eleven times, accepts the CPF 111.444.777-35, and rejects every
    string obtained from a CPF it accepts by replacing the tenth or the
    eleventh character (the two check digits) with a different digit. *)
Theorem isValidCPF_check_digits :
  (forall c, Js.isDigit c = true ->
     isValidCPF (String.string_of_list_ascii (repeat c 11)) = false)
  /\ isValidCPF "11144477735" = true
  /\ (forall cpf c, isValidCPF cpf = true -> Js.isDigit c = true ->
        String.get 9 cpf <> Some c -> isValidCPF (setChar 9 c cpf) = false)
  /\ (forall cpf c, isValidCPF cpf = true -> Js.isDigit c = true ->
        String.get 10 cpf <> Some c -> isValidCPF (setChar 10 c cpf) = false).
Proof.
  split; [exact isValidCPF_repeated|].
  split; [reflexivity|].
  split; [exact isValidCPF_altered_first | exact isValidCPF_altered_second].
Qed.

Lemma isValidCPF_check_digits_witness :
  isValidCPF "11111111111" = false
  /\ isValidCPF "11144477745" = false
  /\ isValidCPF "11144477736" = false.
Proof.
  destruct isValidCPF_check_digits as (H1 & H2 & H3 & H4).
  split; [exact (H1 "1"%char eq_refl)|].
  split.
  - apply (H3 "11144477735" "4"%char); [reflexivity | reflexivity | discriminate].
  - apply (H4 "11144477735" "6"%char); [reflexivity | reflexivity | discriminate].
Defined.

(** ** The session store *)

Ltac unfold_monad :=
  cbv [bind ret throw tryCatch ask modify emit query exec eval
       Redis.isAvailable Redis.setSession Redis.getSession Redis.deleteSession
       Redis.setIfNotExists Redis.delete
       selectSession insertSession upsertSession].

Lemma getOrCreateSession_run (ph : string) (w : World) :
  getOrCreateSession ph w = (Ok (fst (lookupSession ph w)), snd (lookupSession ph w)).
Proof.
  destruct w as [p u ss ml rs ru c ks n tz tr].
  unfold getOrCreateSession, lookupSession, mirror, durable, cached.
  destruct p, u, rs, ru; unfold_monad; cbn;
    try (destruct (c !! ph) as [s|]; cbn; [reflexivity|]);
    try (destruct (ss !! ph) as [r|] eqn:E; cbn;
         rewrite ?E, ?lookup_insert_eq; cbn;
         unfold setSessions; cbn; rewrite ?lookup_insert_eq; cbn);
    reflexivity.
Qed.

(** Json lemmas *)

Lemma size_elem (l : list JValue) (x : JValue) :
  x ∈ l -> (Json.size x < Json.size (JArr l))%nat.
Proof. cbn. induction 1; cbn; lia. Qed.

Lemma size_lookup (o : gmap string JValue) (k : string) (x : JValue) :
  o !! k = Some x -> (Json.size x < Json.size (JObj o))%nat.
Proof.
  cbn. revert k x.
  induction o as [|i y m Hi Hfold IH] using map_first_key_ind; intros k x.
  - now rewrite lookup_empty.
  - rewrite map_fold_insert_first_key by assumption.
    destruct (decide (k = i)) as [->|Hne].
    + rewrite lookup_insert_eq. intros [= ->]. lia.
    + rewrite lookup_insert_ne by congruence. intros H. specialize (IH _ _ H). lia.
Qed.

(** Induction on a JSON value, with the property for every element of
    an array and every member of an object. *)
Lemma JValue_nested_ind (P : JValue -> Prop) :
  P JNull -> (forall b, P (JBool b)) -> (forall n, P (JNum n)) ->
  (forall x, P (JReal x)) -> (forall s, P (JStr s)) ->
  (forall l, Forall P l -> P (JArr l)) ->
  (forall o, map_Forall (fun _ => P) o -> P (JObj o)) ->
  forall v, P v.
Proof.
  intros Hnull Hbool Hnum Hreal Hstr Harr Hobj v.
  induction (Nat.lt_wf_0_projected Json.size v) as [v _ IH].
  destruct v; auto.
  - apply Harr, Forall_forall. intros x Hx. apply IH. now apply size_elem.
  - apply Hobj. intros k x Hx. apply IH. now apply (size_lookup _ k).
Qed.

(** Text that was parsed once is parsed to the same value again. *)
Lemma roundTrip_idemp (v : JValue) :
  Json.roundTrip (Json.roundTrip v) = Json.roundTrip v.
Proof.
  induction v as [| | | x | | l IH | o IH] using JValue_nested_ind; try reflexivity.
  - cbn [Json.roundTrip].
    destruct (PrimFloat.is_nan x || PrimFloat.is_infinity x) eqn:E; [reflexivity|].
    destruct (PrimFloat.is_zero x) eqn:Z0; [reflexivity|].
    cbn [Json.roundTrip]. now rewrite E, Z0.
  - cbn. f_equal. rewrite map_map. apply map_ext_Forall. exact IH.
  - cbn. f_equal. rewrite <- map_fmap_compose. apply map_fmap_ext. exact IH.
Qed.

Lemma fmap_roundTrip_idemp (o : gmap string JValue) :
  Json.roundTrip <$> (Json.roundTrip <$> o) = Json.roundTrip <$> o.
Proof.
  rewrite <- map_fmap_compose. apply map_fmap_ext. intros k x _. apply roundTrip_idemp.
Qed.

Lemma object_idemp (d : option (gmap string JValue)) :
  Json.object (Json.object d) = Json.object d.
Proof.
  destruct d as [o|]; [|reflexivity]. cbn. f_equal. apply fmap_roundTrip_idemp.
Qed.

Lemma jsonSession_idemp (s : SessionContext) :
  jsonSession (jsonSession s) = jsonSession s.
Proof. unfold jsonSession. cbn. now rewrite object_idemp. Qed.

Lemma jsonSession_sessionOfRow (ph : string) (r : Row) :
  jsonSession (sessionOfRow ph r) = sessionOfRow ph r.
Proof. unfold jsonSession, sessionOfRow. cbn. now rewrite object_idemp. Qed.

Lemma union_fmap_same (f : JValue -> JValue) (m : gmap string JValue) :
  m ∪ (f <$> m) = m.
Proof.
  apply map_eq. intros k. rewrite lookup_union, lookup_fmap.
  destruct (m !! k); reflexivity.
Qed.

Lemma updateSession_run (ph next msg : string) (d : option (gmap string JValue)) (w : World) :
  updateSession ph next msg d w = (Ok tt, storeSession ph next msg d w).
Proof.
  destruct w as [p u ss ml rs ru c ks n tz tr].
  unfold updateSession, getOrCreateSession, storeSession, durable, cached, rowOf, ctxOf.
  destruct p, u, rs, ru; unfold_monad; cbn;
    rewrite ?lookup_delete_eq, ?lookup_insert_eq; cbn;
    rewrite ?lookup_delete_eq, ?lookup_insert_eq; cbn;
    try reflexivity.
  all: destruct d as [x|]; cbn;
    unfold setCache, setSessions, record, spread; cbn;
    rewrite ?insert_insert_eq, ?insert_delete_eq, ?union_fmap_same, ?map_union_idemp,
      ?map_union_empty;
    reflexivity.
Qed.

Lemma bind_run {A B} (c : M A) (k : A -> M B) (w w' : World) (a : A) :
  c w = (Ok a, w') -> bind c k w = k a w'.
Proof. unfold bind. now intros ->. Qed.

Lemma tryCatch_run {A} (c : M A) (h : string -> M A) (w w' : World) (a : A) :
  c w = (Ok a, w') -> tryCatch c h w = (Ok a, w').
Proof. unfold tryCatch. now intros ->. Qed.

Lemma cached_lookupSession (ph : string) (w : World) :
  cached (snd (lookupSession ph w)) = cached w.
Proof.
  destruct w as [p u ss ml rs ru c ks n tz tr].
  unfold lookupSession, mirror, cached, durable. cbn.
  destruct rs, ru, p, u; cbn; repeat (case_match; cbn); reflexivity.
Qed.

Lemma durable_lookupSession (ph : string) (w : World) :
  durable (snd (lookupSession ph w)) = durable w.
Proof.
  destruct w as [p u ss ml rs ru c ks n tz tr].
  unfold lookupSession, mirror, cached, durable. cbn.
  destruct rs, ru, p, u; cbn; repeat (case_match; cbn); reflexivity.
Qed.

Lemma cached_storeSession (ph next msg : string) d (w : World) :
  cached (storeSession ph next msg d w) = cached w.
Proof. unfold storeSession. destruct (cached w) eqn:C, (durable w); exact C. Qed.

Lemma durable_storeSession (ph next msg : string) d (w : World) :
  durable (storeSession ph next msg d w) = durable w.
Proof. unfold storeSession. destruct (cached w), (durable w) eqn:D; exact D. Qed.

Lemma dataProp_default (s : SessionContext) (k : string) :
  default ∅ (data s) !! k = dataProp s k.
Proof. unfold dataProp. destruct (data s); [reflexivity | apply lookup_empty]. Qed.

Lemma setProp_extensible (v : option JValue) (k : string) (x : JValue) (w : World) :
  extensible v ->
  setProp (orElse v emptyObject) k x w = (Ok (JObj (<[k := x]> (objOf v))), w).
Proof.
  intros H. unfold orElse.
  destruct v as [[| b | n | f | s | l | o]|]; cbn [extensible] in H;
    rewrite ?H; try reflexivity; discriminate H.
Qed.

(** One write, in closed form: the session is read, the key is set in
    its sub-record, and the whole data is stored again. *)
Lemma performWrite_run (ph : string) (wr : Write) (w : World) :
  let s := fst (lookupSession ph w) in
  extensible (dataProp s (subRecord wr)) ->
  performWrite ph wr w =
  (Ok tt,
   storeSession ph (currentStep s) (default "" (lastMessage s))
     (Some (applyWrite (default ∅ (data s)) wr)) (snd (lookupSession ph w))).
Proof.
  intros s Hx. unfold applyWrite. rewrite dataProp_default. fold s.
  destruct wr as [k v | k v]; cbn [performWrite subRecord writeKey writeValue] in *.
  - unfold updateClienteData. apply tryCatch_run.
    erewrite bind_run by apply getOrCreateSession_run.
    erewrite bind_run by (apply setProp_extensible; exact Hx).
    apply updateSession_run.
  - unfold updatePackageData.
    erewrite bind_run by apply getOrCreateSession_run.
    erewrite bind_run by (apply setProp_extensible; exact Hx).
    apply updateSession_run.
Qed.

Lemma storeSession_holds (ph next msg : string) (D : gmap string JValue) (w : World) :
  holds ph D (storeSession ph next msg (Some D) w).
Proof.
  unfold holds. rewrite cached_storeSession, durable_storeSession.
  unfold storeSession. split; intros H; rewrite H.
  - eexists. split.
    + destruct (durable w); cbn; apply lookup_insert_eq.
    + reflexivity.
  - eexists. split.
    + destruct (cached w); cbn; apply lookup_insert_eq.
    + reflexivity.
Qed.

Lemma lookupSession_holds (ph : string) (D : gmap string JValue) (w : World) :
  cached w || durable w = true -> holds ph D w ->
  data (fst (lookupSession ph w)) = Some (Json.roundTrip <$> D).
Proof.
  intros Hup [Hc Hd]. unfold lookupSession.
  destruct (cached w) eqn:C.
  - destruct (Hc eq_refl) as (s & -> & E). cbn. now rewrite E.
  - cbn in Hup. rewrite Hup. destruct (Hd Hup) as (r & -> & E). cbn. now rewrite E.
Qed.

Lemma holds_read (ph : string) (D : gmap string JValue) (w : World) :
  holds ph D w ->
  (durable w = true -> data <$> readRow ph w = Some (Some (Json.roundTrip <$> D)))
  /\ (cached w = true -> data <$> readCache ph w = Some (Some (Json.roundTrip <$> D))).
Proof.
  intros [Hc Hd]. unfold readRow, readCache. split; intros H.
  - destruct (Hd H) as (r & -> & E). cbn. now rewrite E.
  - destruct (Hc H) as (s & -> & E). cbn. now rewrite E.
Qed.

Lemma applyWrite_extensible (D : gmap string JValue) (wr : Write) :
  extensibleData D -> extensibleData (applyWrite D wr).
Proof.
  intros [H1 H2]. unfold extensibleData, applyWrite.
  destruct wr; cbn [subRecord]; split;
    rewrite ?lookup_insert_eq, ?lookup_insert_ne by discriminate; cbn; auto.
Qed.

Lemma extensible_sub (D : gmap string JValue) (wr : Write) :
  extensibleData D -> extensible (D !! subRecord wr).
Proof. intros [H1 H2]. destruct wr; assumption. Qed.

Lemma extensible_roundTrip (v : option JValue) :
  extensible v -> extensible (Json.roundTrip <$> v).
Proof.
  destruct v as [[| b | n | x | s | l | o]|]; cbn [extensible fmap option_fmap option_map Json.roundTrip];
    auto.
  intros H.
  destruct (PrimFloat.is_nan x || PrimFloat.is_infinity x) eqn:E; [reflexivity|].
  destruct (PrimFloat.is_zero x) eqn:Z0; [reflexivity | exact H].
Qed.

Lemma extensibleData_roundTrip (D : gmap string JValue) :
  extensibleData D -> extensibleData (Json.roundTrip <$> D).
Proof.
  intros [H1 H2]. split; rewrite lookup_fmap; now apply extensible_roundTrip.
Qed.

Lemma objOf_roundTrip (v : option JValue) :
  objOf (Json.roundTrip <$> v) = Json.roundTrip <$> objOf v.
Proof.
  destruct v as [[| b | n | x | s | l | o]|]; cbn [fmap option_fmap option_map Json.roundTrip objOf];
    rewrite ?fmap_empty; try reflexivity.
  destruct (PrimFloat.is_nan x || PrimFloat.is_infinity x); [reflexivity|].
  destruct (PrimFloat.is_zero x); reflexivity.
Qed.

(** Reading back what a write stored: the write of the value as JSON
    gives it back, on the data as JSON gives it back. *)
Lemma fmap_applyWrite (D : gmap string JValue) (wr : Write) :
  Json.roundTrip <$> applyWrite D wr = applyWrite (Json.roundTrip <$> D) (jsonWrite wr).
Proof.
  unfold applyWrite. rewrite fmap_insert. cbn [Json.roundTrip].
  rewrite fmap_insert, lookup_fmap, objOf_roundTrip.
  destruct wr; reflexivity.
Qed.

Lemma performWrites_holds (ph : string) (ws : list Write) :
  forall (D : gmap string JValue) (w : World),
    cached w || durable w = true -> holds ph D w -> extensibleData D ->
    eval (performWrites ph ws) w = Ok tt
    /\ (exists D', holds ph D' (exec (performWrites ph ws) w)
                   /\ Json.roundTrip <$> D'
                      = applyWrites (Json.roundTrip <$> D) (jsonWrite <$> ws))
    /\ cached (exec (performWrites ph ws) w) = cached w
    /\ durable (exec (performWrites ph ws) w) = durable w.
Proof.
  induction ws as [|wr rest IH]; intros D w Hup Hh Hx.
  - cbn. eauto 6.
  - pose proof (lookupSession_holds ph D w Hup Hh) as Hd.
    assert (extensible (dataProp (fst (lookupSession ph w)) (subRecord wr))) as Hs.
    { rewrite <- dataProp_default, Hd. cbn.
      now apply extensible_sub, extensibleData_roundTrip. }
    pose proof (performWrite_run ph wr w Hs) as Hrun. rewrite Hd in Hrun. cbn in Hrun.
    unfold eval, exec in *. cbn [performWrites].
    erewrite bind_run by exact Hrun.
    set (w1 := storeSession _ _ _ _ _) in *.
    assert (cached w1 = cached w) as C1
      by (unfold w1; now rewrite cached_storeSession, cached_lookupSession).
    assert (durable w1 = durable w) as D1
      by (unfold w1; now rewrite durable_storeSession, durable_lookupSession).
    destruct (IH (applyWrite (Json.roundTrip <$> D) wr) w1) as (E & (D' & H & HD) & C & Dd).
    + now rewrite C1, D1.
    + apply storeSession_holds.
    + now apply applyWrite_extensible, extensibleData_roundTrip.
    + cbn [applyWrites fold_left fmap list_fmap]. unfold eval, exec in *.
      split; [exact E|]. split.
      * exists D'. split; [exact H|].
        now rewrite HD, fmap_applyWrite, fmap_roundTrip_idemp.
      * split; [now rewrite C | now rewrite Dd].
Qed.

(** ** Running the engine: closed forms under [bind] *)

Lemma bind_getOrCreateSession {B} (ph : string) (k : SessionContext -> M B) (w : World) :
  bind (getOrCreateSession ph) k w
  = k (fst (lookupSession ph w)) (snd (lookupSession ph w)).
Proof. apply bind_run, getOrCreateSession_run. Qed.

Lemma bind_updateSession {B} (ph next msg : string) d (k : unit -> M B) (w : World) :
  bind (updateSession ph next msg d) k w = k tt (storeSession ph next msg d w).
Proof. apply bind_run, updateSession_run. Qed.

Lemma logMessage_run (l : MessageLog) (w : World) :
  logMessage l w = (Ok tt, logged l w).
Proof.
  destruct w as [p u ss ml rs ru c ks n tz tr].
  unfold logMessage, logged, durable. destruct p, u; reflexivity.
Qed.

Lemma bind_logMessage {B} (l : MessageLog) (k : unit -> M B) (w : World) :
  bind (logMessage l) k w = k tt (logged l w).
Proof. apply bind_run, logMessage_run. Qed.

(** Reading a session does not depend on the trace or on the message
    log, and leaves both alone. *)
Lemma lookupSession_record (ph : string) (e : Event) (w : World) :
  lookupSession ph (record e w)
  = (fst (lookupSession ph w), record e (snd (lookupSession ph w))).
Proof.
  destruct w as [p u ss ml rs ru c ks n tz tr].
  unfold lookupSession, mirror, cached, durable. cbn.
  destruct rs, ru, p, u; cbn; repeat (case_match; cbn); reflexivity.
Qed.

Lemma lookupSession_setLogs (ph : string) f (w : World) :
  lookupSession ph (setLogs f w)
  = (fst (lookupSession ph w), setLogs f (snd (lookupSession ph w))).
Proof.
  destruct w as [p u ss ml rs ru c ks n tz tr].
  unfold lookupSession, mirror, cached, durable. cbn.
  destruct rs, ru, p, u; cbn; repeat (case_match; cbn); reflexivity.
Qed.

Lemma lookupSession_logged (ph : string) (l : MessageLog) (w : World) :
  lookupSession ph (logged l w)
  = (fst (lookupSession ph w), logged l (snd (lookupSession ph w))).
Proof.
  unfold logged. rewrite durable_lookupSession.
  destruct (durable w); rewrite ?lookupSession_setLogs, lookupSession_record; reflexivity.
Qed.

Lemma trace_lookupSession (ph : string) (w : World) :
  trace (snd (lookupSession ph w)) = trace w.
Proof.
  destruct w as [p u ss ml rs ru c ks n tz tr].
  unfold lookupSession, mirror, cached, durable. cbn.
  destruct rs, ru, p, u; cbn; repeat (case_match; cbn); reflexivity.
Qed.

Lemma trace_logged (l : MessageLog) (w : World) :
  trace (logged l w) = trace w ++ [EvLogMessage l].
Proof. unfold logged. destruct (durable w); reflexivity. Qed.

(** A session that is past [welcome] was found, not created: reading it
    writes no row, and reading it again finds the same. *)
Lemma lookupSession_found (ph : string) (w : World) :
  currentStep (fst (lookupSession ph w)) <> "welcome" ->
  sessions (snd (lookupSession ph w)) = sessions w
  /\ fst (lookupSession ph (snd (lookupSession ph w))) = fst (lookupSession ph w).
Proof.
  destruct w as [p u ss ml rs ru c ks n tz tr].
  unfold lookupSession, mirror, cached, durable. cbn.
  intros Hne.
  destruct rs, ru, p, u; cbn in *;
    repeat (case_match; cbn in *; simplify_eq;
            rewrite ?lookup_insert_eq in *; cbn in *; simplify_eq);
    unfold sessionOfRow, jsonSession; cbn; rewrite ?object_idemp;
    first [ split; reflexivity | exfalso; apply Hne; reflexivity ].
Qed.

(** ** The main menu *)

Ltac case_eqb :=
  match goal with
  | |- context [String.eqb ?a ?b] => destruct (String.eqb_spec a b) as [->|?]
  end.

Lemma handleMainMenu_exact (message : string) :
  let m := Js.trim message in
  (step <$> handleMainMenu message = Some "contract_cpf" <-> m = "1" \/ m = "contract")
  /\ (step <$> handleMainMenu message = Some "billing_cpf" <-> m = "2" \/ m = "billing")
  /\ (handleMainMenu message = Some (getSupportStep) <->
        m = "3" \/ m = "editing" \/ m = "4" \/ m = "admin"
        \/ m = "5" \/ m = "quote" \/ m = "6" \/ m = "meeting")
  /\ (step <$> handleMainMenu message = Some "support" ->
        attendantFallback message = true)
  /\ (handleMainMenu message = None -> attendantFallback message = false).
Proof.
  unfold handleMainMenu, attendantFallback.
  generalize (Js.includes "atendente" message || Js.includes "suporte" message
              || Js.includes "7" message || String.eqb message "support") as fb.
  generalize (Js.trim message) as m. intros m fb. cbn zeta.
  repeat (case_eqb; cbn [orb];
          [ repeat split; intros; try discriminate; try reflexivity;
            try (intuition (discriminate || congruence)); fail | ]).
  destruct fb; cbn; repeat split; intros; try discriminate; try reflexivity;
    intuition (discriminate || congruence).
Qed.

Lemma sendResponse_run (sv : Services) (ph : string) (r : ConversationStep) (w : World) :
  sendResponse sv ph r w = (Ok tt, sent sv ph r w).
Proof.
  unfold sendResponse, sent, sendMessage. apply tryCatch_run.
  unfold bind at 1. unfold bind at 1. cbn [emit modify].
  destruct (zapi_sendMessage sv (requestOf ph r)); [apply logMessage_run | reflexivity].
Qed.

(** A turn, in closed form. *)
Lemma processIncomingMessage_run (sv : Services) (payload : ZApiWebhookPayload) (w : World) :
  processIncomingMessage sv payload w =
  (Ok tt,
   let start := turnStart payload w in
   match determineResponse sv (fst start) (fst (messageContentOf payload)) (snd start) with
   | (Ok (Some r), w') => turnEnd sv payload r w'
   | (Ok None, w') => w'
   | (Throw _, w') => w'
   end).
Proof.
  unfold processIncomingMessage, turnStart, turnEnd.
  unfold bind at 1. cbn [emit modify]. unfold tryCatch at 1. cbn zeta.
  rewrite bind_logMessage, bind_getOrCreateSession.
  unfold bind at 1.
  destruct (determineResponse _ _ _ _) as [[[r|]|e] w']; try reflexivity.
  rewrite bind_getOrCreateSession, bind_updateSession, sendResponse_run. reflexivity.
Qed.

Lemma eval_getOrCreateSession (ph : string) (w : World) (s : SessionContext) :
  eval (getOrCreateSession ph) w = Ok s <-> s = fst (lookupSession ph w).
Proof.
  unfold eval. rewrite getOrCreateSession_run. cbn. split; congruence.
Qed.

Lemma turnStart_session (payload : ZApiWebhookPayload) (w : World) :
  fst (turnStart payload w) = fst (lookupSession (p_phone payload) w).
Proof.
  unfold turnStart. now rewrite lookupSession_logged, lookupSession_record.
Qed.

Lemma turnStart_world (payload : ZApiWebhookPayload) (w : World) :
  snd (turnStart payload w)
  = logged (incomingLog payload)
      (record (EvEngine (p_phone payload)) (snd (lookupSession (p_phone payload) w))).
Proof.
  unfold turnStart. now rewrite lookupSession_logged, lookupSession_record.
Qed.

Lemma sessions_logged (l : MessageLog) (w : World) : sessions (logged l w) = sessions w.
Proof. unfold logged. destruct (durable w); reflexivity. Qed.

Lemma lookupSession_sent (sv : Services) (ph ph' : string) (r : ConversationStep) (w : World) :
  fst (lookupSession ph (sent sv ph' r w)) = fst (lookupSession ph w).
Proof.
  unfold sent. destruct (zapi_sendMessage sv _);
    now rewrite ?lookupSession_logged, lookupSession_record.
Qed.

Lemma trace_sent (sv : Services) (ph : string) (r : ConversationStep) (w : World) :
  trace (sent sv ph r w)
  = trace w ++ EvSend (requestOf ph r) (zapi_sendMessage sv (requestOf ph r))
      :: (if zapi_sendMessage sv (requestOf ph r)
          then [EvLogMessage (outgoingLog ph r)] else []).
Proof.
  unfold sent. destruct (zapi_sendMessage sv _).
  - rewrite trace_logged. cbn. now rewrite <- app_assoc.
  - reflexivity.
Qed.

Lemma trace_storeSession (ph next msg : string) d (w : World) :
  trace (storeSession ph next msg d w) = trace w ++ [EvUpdateSession ph next].
Proof. unfold storeSession. destruct (cached w), (durable w); reflexivity. Qed.

(** After [updateSession], a read finds the step it was given, and the
    data as JSON gives it back. *)
Lemma lookupSession_storeSession (ph next msg : string) d (w : World) :
  cached w || durable w = true ->
  let s := fst (lookupSession ph (storeSession ph next msg d w)) in
  phone s = ph /\ currentStep s = next /\ data s = Json.object d.
Proof.
  destruct w as [p u ss ml rs ru c ks n tz tr].
  unfold lookupSession, storeSession, mirror, cached, durable. cbn.
  destruct rs, ru, p, u; cbn; intros Hup; try discriminate;
    rewrite ?lookup_insert_eq; cbn; auto.
Qed.

(** What a read returns was parsed from JSON text, or is a new session. *)
Lemma lookupSession_clean (ph : string) (w : World) :
  Json.object (data (fst (lookupSession ph w))) = data (fst (lookupSession ph w)).
Proof.
  unfold lookupSession.
  destruct (cached w).
  - destruct (cache w !! ph) as [s|]; cbn; [apply object_idemp|].
    destruct (durable w); [|reflexivity].
    destruct (sessions w !! ph) as [r|]; cbn; [apply object_idemp | reflexivity].
  - destruct (durable w); [|reflexivity].
    destruct (sessions w !! ph) as [r|]; cbn; [apply object_idemp | reflexivity].
Qed.

Lemma lookupSession_clean_default (ph : string) (w : World) :
  Json.roundTrip <$> default ∅ (data (fst (lookupSession ph w)))
  = default ∅ (data (fst (lookupSession ph w))).
Proof.
  pose proof (lookupSession_clean ph w) as H.
  destruct (data (fst (lookupSession ph w))) as [o|]; cbn in *.
  - now injection H.
  - apply fmap_empty.
Qed.


(** The switches of the stores are never touched. *)
Lemma cached_record (e : Event) (w : World) : cached (record e w) = cached w.
Proof. reflexivity. Qed.
Lemma durable_record (e : Event) (w : World) : durable (record e w) = durable w.
Proof. reflexivity. Qed.
Lemma cached_logged (l : MessageLog) (w : World) : cached (logged l w) = cached w.
Proof. unfold logged. destruct (durable w); reflexivity. Qed.
Lemma durable_logged (l : MessageLog) (w : World) : durable (logged l w) = durable w.
Proof. unfold logged. destruct (durable w) eqn:E; exact E. Qed.
Lemma cached_sent (sv : Services) (ph : string) (r : ConversationStep) (w : World) :
  cached (sent sv ph r w) = cached w.
Proof. unfold sent. destruct (zapi_sendMessage sv _); now rewrite ?cached_logged. Qed.
Lemma durable_sent (sv : Services) (ph : string) (r : ConversationStep) (w : World) :
  durable (sent sv ph r w) = durable w.
Proof. unfold sent. destruct (zapi_sendMessage sv _); now rewrite ?durable_logged. Qed.

Create Rewrite HintDb switches.
#[local] Hint Rewrite cached_record durable_record cached_logged durable_logged
  cached_sent durable_sent cached_lookupSession durable_lookupSession
  cached_storeSession durable_storeSession : switches.

(** A turn at the main menu: an unrecognised text leaves a log line
    and nothing else; a recognised one stores the new step and sends
    one reply. *)
Lemma main_menu_turn (sv : Services) (payload : ZApiWebhookPayload) (w : World)
    (s : SessionContext) :
  eval (getOrCreateSession (p_phone payload)) w = Ok s ->
  currentStep s = "main_menu" ->
  let ph := p_phone payload in
  let w' := exec (processIncomingMessage sv payload) w in
  match handleMainMenu (Js.trim (Js.toLowerCase (fst (messageContentOf payload)))) with
  | None =>
      trace w' = trace w ++ [EvEngine ph; EvLogMessage (incomingLog payload)]
      /\ sessions w' = sessions w
      /\ eval (getOrCreateSession ph) w' = Ok s
  | Some r =>
      trace w' = trace w
        ++ [EvEngine ph; EvLogMessage (incomingLog payload);
            EvUpdateSession ph (step r);
            EvSend (requestOf ph r) (zapi_sendMessage sv (requestOf ph r))]
        ++ (if zapi_sendMessage sv (requestOf ph r)
            then [EvLogMessage (outgoingLog ph r)] else [])
      /\ (cached w || durable w = true ->
          exists s', eval (getOrCreateSession ph) w' = Ok s'
                     /\ currentStep s' = step r /\ data s' = data s)
  end.
Proof.
  intros Hs Hstep. cbv zeta. apply eval_getOrCreateSession in Hs.
  unfold exec. rewrite processIncomingMessage_run. cbn [snd].
  rewrite turnStart_session, turnStart_world.
  set (ph := p_phone payload) in *.
  assert (currentStep (fst (lookupSession ph w)) <> "welcome") as Hne
    by (rewrite <- Hs, Hstep; discriminate).
  destruct (lookupSession_found ph w Hne) as [Hsess Hagain].
  rewrite <- Hs.
  unfold determineResponse. rewrite Hstep.
  simpl (String.eqb "main_menu" _). cbv iota. unfold lift, ret.
  set (w1 := logged _ (record _ (snd (lookupSession ph w)))).
  assert (fst (lookupSession ph w1) = s) as Hread.
  { unfold w1. rewrite lookupSession_logged, lookupSession_record. cbn [fst].
    now rewrite Hagain. }
  destruct (handleMainMenu _) as [r|].
  - unfold turnEnd. fold ph. split.
    + rewrite trace_sent, trace_storeSession, trace_lookupSession.
      unfold w1. rewrite trace_logged. cbn [trace record].
      rewrite trace_lookupSession, <- !app_assoc. reflexivity.
    + intros Hup. eexists. split; [apply eval_getOrCreateSession; reflexivity|].
      rewrite lookupSession_sent, Hread.
      match goal with |- context [storeSession ph ?n ?m ?d ?x] =>
        destruct (lookupSession_storeSession ph n m d x) as (_ & E1 & E2) end.
      * unfold w1. autorewrite with switches. exact Hup.
      * split; [exact E1|]. rewrite E2, Hs. apply lookupSession_clean.
  - unfold w1. rewrite trace_logged. cbn [trace record]. rewrite trace_lookupSession.
    rewrite sessions_logged. cbn [sessions record]. rewrite Hsess.
    rewrite <- app_assoc. split; [reflexivity|]. split; [reflexivity|].
    apply eval_getOrCreateSession. fold w1. now rewrite Hread.
Qed.

Lemma string_eqb_false (a b : string) : a <> b -> String.eqb a b = false.
Proof. intros H. destruct (String.eqb_spec a b); congruence. Qed.

Lemma handleMainMenu_other (message : string) :
  Js.trim message ∉ exactChoices ->
  handleMainMenu message
  = if attendantFallback message then Some attendantReply else None.
Proof.
  unfold exactChoices. rewrite !not_elem_of_cons. intros H.
  unfold handleMainMenu, attendantFallback. cbv zeta.
  repeat (destruct H as [?Hne H]). 
  repeat match goal with
         | Hne : Js.trim message <> ?c |- _ =>
             rewrite (string_eqb_false _ _ Hne); clear Hne
         end.
  reflexivity.
Qed.

(** **C3.** Option 7 of the main menu is matched by substring. The
    options 1 to 6 are compared with the trimmed text, but the
    attendant option is taken whenever the text contains the character
    [7]: any text with a 7 in it that is not one of the exact choices,
    such as [17] or the date [27/07/1990], is answered with the hand-over
    to an attendant and moves the session to [support]. *)
Theorem main_menu_seven_by_substring :
  (forall message,
     Js.trim message ∉ exactChoices -> Js.includes "7" message = true ->
     handleMainMenu message = Some attendantReply)
  /\ (let w := Scenario.worldAt "main_menu" None in
      let w17 := exec (processIncomingMessage Scenario.services (Scenario.textPayload "17")) w in
      let wDate :=
        exec (processIncomingMessage Scenario.services (Scenario.textPayload "27/07/1990")) w in
      sends (trace w17) = [SendText Scenario.phone (message attendantReply)]
      /\ sends (trace wDate) = [SendText Scenario.phone (message attendantReply)]
      /\ (exists s', eval (getOrCreateSession Scenario.phone) w17 = Ok s'
                     /\ currentStep s' = "support")
      /\ (exists s', eval (getOrCreateSession Scenario.phone) wDate = Ok s'
                     /\ currentStep s' = "support")).
Proof.
  split.
  - intros message Hm H7. rewrite handleMainMenu_other by exact Hm.
    unfold attendantFallback. rewrite H7, !orb_true_r. reflexivity.
  - cbv zeta. split; [vm_compute; reflexivity|]. split; [vm_compute; reflexivity|].
    split; eexists; (split; [vm_compute; reflexivity | vm_compute; reflexivity]).
Qed.

Lemma main_menu_seven_by_substring_witness :
  handleMainMenu "17" = Some attendantReply.
Proof.
  apply (proj1 main_menu_seven_by_substring "17"); [|reflexivity].
  unfold exactChoices. rewrite !not_elem_of_cons.
  repeat (split; [vm_compute; discriminate|]). apply not_elem_of_nil.
Defined.

(** The main menu, choice by choice, and the turn around it. The
    options 1 to 6 and their keywords are chosen by the trimmed text
    being equal to them. A text that is none of them and has no
    [atendente], [suporte] or [7] in it (and is not [support]) gets no
    answer: the turn calls [logMessage] for the inbound text and nothing
    else, nothing is sent and the session is as it was. A text that is
    answered stores the step of the reply, keeps the data, and sends the
    one reply. *)
Theorem main_menu_choices :
  (forall message,
     let m := Js.trim message in
     (step <$> handleMainMenu message = Some "contract_cpf" <-> m = "1" \/ m = "contract")
     /\ (step <$> handleMainMenu message = Some "billing_cpf" <-> m = "2" \/ m = "billing")
     /\ (handleMainMenu message = Some getSupportStep <->
           m = "3" \/ m = "editing" \/ m = "4" \/ m = "admin"
           \/ m = "5" \/ m = "quote" \/ m = "6" \/ m = "meeting")
     /\ (handleMainMenu message = None <->
           (m ∉ exactChoices)
           /\ Js.includes "atendente" message = false
           /\ Js.includes "suporte" message = false
           /\ Js.includes "7" message = false
           /\ message <> "support"))
  /\ (forall sv payload w s,
        eval (getOrCreateSession (p_phone payload)) w = Ok s ->
        currentStep s = "main_menu" ->
        let ph := p_phone payload in
        let w' := exec (processIncomingMessage sv payload) w in
        match handleMainMenu (Js.trim (Js.toLowerCase (fst (messageContentOf payload)))) with
        | None =>
            trace w' = trace w ++ [EvEngine ph; EvLogMessage (incomingLog payload)]
            /\ sessions w' = sessions w
            /\ eval (getOrCreateSession ph) w' = Ok s
        | Some r =>
            trace w' = trace w
              ++ [EvEngine ph; EvLogMessage (incomingLog payload);
                  EvUpdateSession ph (step r);
                  EvSend (requestOf ph r) (zapi_sendMessage sv (requestOf ph r))]
              ++ (if zapi_sendMessage sv (requestOf ph r)
                  then [EvLogMessage (outgoingLog ph r)] else [])
            /\ (cached w || durable w = true ->
                exists s', eval (getOrCreateSession ph) w' = Ok s'
                           /\ currentStep s' = step r /\ data s' = data s)
        end).
Proof.
  split; [|exact main_menu_turn].
  intros message. cbv zeta.
  destruct (handleMainMenu_exact message) as (H1 & H2 & H3 & _ & _).
  split; [exact H1|]. split; [exact H2|]. split; [exact H3|].
  split.
  - intros Hnone.
    assert (Js.trim message ∉ exactChoices) as Hm.
    { unfold exactChoices. rewrite !not_elem_of_cons.
      repeat (split; [intros E;
        first [ assert (step <$> handleMainMenu message = Some "contract_cpf") as X
                  by (apply H1; auto); rewrite Hnone in X; discriminate X
              | assert (step <$> handleMainMenu message = Some "billing_cpf") as X
                  by (apply H2; auto); rewrite Hnone in X; discriminate X
              | assert (handleMainMenu message = Some getSupportStep) as X
                  by (apply H3; tauto); rewrite Hnone in X; discriminate X ]|]).
      apply not_elem_of_nil. }
    split; [exact Hm|].
    rewrite (handleMainMenu_other _ Hm) in Hnone. unfold attendantFallback in Hnone.
    destruct (Js.includes "atendente" message), (Js.includes "suporte" message),
      (Js.includes "7" message), (String.eqb_spec message "support");
      cbn in Hnone; try discriminate Hnone; auto.
  - intros (Hm & Ha & Hs & H7 & Hne).
    rewrite (handleMainMenu_other _ Hm). unfold attendantFallback.
    now rewrite Ha, Hs, H7, (string_eqb_false _ _ Hne).
Qed.

Lemma main_menu_choices_witness :
  let payload := Scenario.textPayload "hello" in
  let w := Scenario.worldAt "main_menu" None in
  let w' := exec (processIncomingMessage Scenario.services payload) w in
  trace w' = trace w ++ [EvEngine Scenario.phone; EvLogMessage (incomingLog payload)]
  /\ sessions w' = sessions w
  /\ eval (getOrCreateSession Scenario.phone) w'
     = Ok (ctxOf Scenario.phone "main_menu" "" None).
Proof.
  exact (proj2 main_menu_choices Scenario.services (Scenario.textPayload "hello")
           (Scenario.worldAt "main_menu" None)
           (ctxOf Scenario.phone "main_menu" "" None) eq_refl eq_refl).
Defined.

(** ** Session data across updates *)

Lemma applyWrite_keeps_top (D : gmap string JValue) (wr : Write) (k : string) :
  is_Some (D !! k) -> is_Some (applyWrite D wr !! k).
Proof.
  intros H. unfold applyWrite.
  destruct (decide (subRecord wr = k)) as [->|Hne].
  - rewrite lookup_insert_eq. eauto.
  - now rewrite lookup_insert_ne.
Qed.

Lemma applyWrite_keeps_nested (D : gmap string JValue) (wr : Write) (sub k : string) :
  is_Some (objOf (D !! sub) !! k) -> is_Some (objOf (applyWrite D wr !! sub) !! k).
Proof.
  intros H. unfold applyWrite.
  destruct (decide (subRecord wr = sub)) as [->|Hne].
  - rewrite lookup_insert_eq. cbn [objOf].
    destruct (decide (writeKey wr = k)) as [->|Hk].
    + rewrite lookup_insert_eq. eauto.
    + now rewrite lookup_insert_ne.
  - now rewrite lookup_insert_ne.
Qed.

Lemma applyWrite_written (D : gmap string JValue) (wr : Write) :
  objOf (applyWrite D wr !! subRecord wr) !! writeKey wr = Some (writeValue wr).
Proof. unfold applyWrite. rewrite lookup_insert_eq. cbn. apply lookup_insert_eq. Qed.

Lemma applyWrites_keeps_top (ws : list Write) (D : gmap string JValue) (k : string) :
  is_Some (D !! k) -> is_Some (applyWrites D ws !! k).
Proof.
  revert D. induction ws as [|wr ws IH]; intros D H; [exact H|].
  cbn. apply IH. now apply applyWrite_keeps_top.
Qed.

Lemma applyWrites_keeps_nested (ws : list Write) (D : gmap string JValue) (sub k : string) :
  is_Some (objOf (D !! sub) !! k) -> is_Some (objOf (applyWrites D ws !! sub) !! k).
Proof.
  revert D. induction ws as [|wr ws IH]; intros D H; [exact H|].
  cbn. apply IH. now apply applyWrite_keeps_nested.
Qed.

Lemma applyWrites_written (ws : list Write) (D : gmap string JValue) (wr : Write) :
  wr ∈ ws -> is_Some (objOf (applyWrites D ws !! subRecord wr) !! writeKey wr).
Proof.
  revert D. induction ws as [|x ws IH]; intros D H; [inversion H|].
  cbn. apply elem_of_cons in H as [->|H].
  - apply applyWrites_keeps_nested. rewrite applyWrite_written. eauto.
  - now apply IH.
Qed.

Lemma subRecord_jsonWrite (wr : Write) : subRecord (jsonWrite wr) = subRecord wr.
Proof. now destruct wr. Qed.

Lemma writeKey_jsonWrite (wr : Write) : writeKey (jsonWrite wr) = writeKey wr.
Proof. now destruct wr. Qed.



(** **C1.** [updateSession] does not merge. Its cache branch spreads
    the data of the session it reads over the new data, but it reads
    that session after the durable record was overwritten and the cache
    entry deleted, so there is nothing left to merge with: after two
    updates the session holds the data of the second update only, and a
    key that only the first update wrote is gone from the durable record
    and from the cache. *)
Theorem updateSession_replaces_data (ph next msg : string) (d1 d2 : gmap string JValue)
    (k : string) (w : World) :
  cached w || durable w = true ->
  d2 !! k = None ->
  let w' := exec (updateAll ph next msg [d1; d2]) w in
  (exists s, eval (getOrCreateSession ph) w' = Ok s
             /\ data s = Some (Json.roundTrip <$> d2) /\ dataProp s k = None)
  /\ (durable w = true -> exists r, readRow ph w' = Some r /\ dataProp r k = None)
  /\ (cached w = true -> exists c, readCache ph w' = Some c /\ dataProp c k = None).
Proof.
  intros Hup Hk. cbv zeta. unfold exec, updateAll.
  rewrite bind_updateSession, bind_updateSession. cbn [ret snd].
  set (w1 := storeSession ph next msg (Some d1) w).
  assert (cached w1 = cached w /\ durable w1 = durable w) as [C1 D1]
    by (unfold w1; now autorewrite with switches).
  pose proof (storeSession_holds ph next msg d2 w1) as Hh.
  set (w2 := storeSession ph next msg (Some d2) w1) in *.
  assert (cached w2 = cached w /\ durable w2 = durable w) as [C2 D2]
    by (unfold w2; autorewrite with switches; auto).
  assert ((Json.roundTrip <$> d2) !! k = None) as Hk' by (now rewrite lookup_fmap, Hk).
  split; [|split].
  - eexists. split; [apply eval_getOrCreateSession; reflexivity|].
    assert (data (fst (lookupSession ph w2)) = Some (Json.roundTrip <$> d2)) as E
      by (apply lookupSession_holds; [now rewrite C2, D2 | exact Hh]).
    split; [exact E|]. unfold dataProp. now rewrite E.
  - intros Hd. destruct (holds_read _ _ _ Hh) as [Hrow _]. rewrite D2 in Hrow.
    specialize (Hrow Hd). destruct (readRow ph w2) as [r|]; [|discriminate].
    exists r. split; [reflexivity|]. cbn in Hrow. injection Hrow as E.
    unfold dataProp. now rewrite E.
  - intros Hc. destruct (holds_read _ _ _ Hh) as [_ Hcache]. rewrite C2 in Hcache.
    specialize (Hcache Hc). destruct (readCache ph w2) as [c|]; [|discriminate].
    exists c. split; [reflexivity|]. cbn in Hcache. injection Hcache as E.
    unfold dataProp. now rewrite E.
Qed.

Lemma updateSession_replaces_data_witness :
  let w' := exec (updateAll Scenario.phone "contract_name" "x"
                    [ {[ "a" := JNum 1 ]}; {[ "b" := JNum 2 ]} ]) Scenario.emptyWorld in
  exists s, eval (getOrCreateSession Scenario.phone) w' = Ok s
            /\ data s = Some {[ "b" := JNum 2 ]} /\ dataProp s "a" = None.
Proof.
  exact (proj1 (updateSession_replaces_data Scenario.phone "contract_name" "x"
                  {[ "a" := JNum 1 ]} {[ "b" := JNum 2 ]} "a" Scenario.emptyWorld
                  eq_refl eq_refl)).
Defined.

(** ** Cohort lookups and the attempt counter *)

(** A failed lookup, in closed form. *)
Lemma handleClassCode_failed (sv : Services) (message ph : string) (w : World) :
  Js.trim message <> "" ->
  api_checkTurmaExists sv (Js.trim message) = None ->
  let w1 := record (EvLookup "checkTurmaExists" (Js.trim message)) w in
  let s := fst (lookupSession ph w1) in
  let tentativas := attempts s + 1 in
  handleClassCode sv message ph w =
  (Ok (Some (if 3 <=? tentativas then getSupportStep else classCodeRetry)),
   storeSession ph "contract_class_code" message
     (Some (<["tentativasTurma" := JNum tentativas]> (default ∅ (data s))))
     (snd (lookupSession ph w1))).
Proof.
  intros Hne Hfail. cbv zeta. unfold handleClassCode.
  rewrite (string_eqb_false _ _ Hne).
  unfold checkTurmaExists. unfold bind at 1. unfold bind at 1. cbn [emit modify ret].
  rewrite Hfail.
  rewrite bind_getOrCreateSession, bind_updateSession. unfold attempts.
  destruct (3 <=? _); reflexivity.
Qed.

(** A whole turn in [contract_class_code] whose code is not found. *)
Lemma class_code_failed_turn (sv : Services) (payload : ZApiWebhookPayload) (w : World)
    (s : SessionContext) :
  let ph := p_phone payload in
  eval (getOrCreateSession ph) w = Ok s ->
  currentStep s = "contract_class_code" ->
  phone s = ph ->
  cached w || durable w = true ->
  codeOf payload <> "" ->
  api_checkTurmaExists sv (codeOf payload) = None ->
  let w' := exec (processIncomingMessage sv payload) w in
  let r := if 3 <=? attempts s + 1 then getSupportStep else classCodeRetry in
  let ok := zapi_sendMessage sv (requestOf ph r) in
  (exists s', eval (getOrCreateSession ph) w' = Ok s'
     /\ phone s' = ph /\ currentStep s' = step r
     /\ data s' = Some (<["tentativasTurma" := JNum (attempts s + 1)]> (default ∅ (data s))))
  /\ cached w' || durable w' = true
  /\ trace w' = trace w
       ++ [EvEngine ph; EvLogMessage (incomingLog payload);
           EvLookup "checkTurmaExists" (codeOf payload);
           EvUpdateSession ph "contract_class_code";
           EvUpdateSession ph (step r);
           EvSend (requestOf ph r) ok]
       ++ (if ok then [EvLogMessage (outgoingLog ph r)] else []).
Proof.
  cbv zeta. set (ph := p_phone payload).
  intros Hs Hstep Hph Hup Hcode Hfail.
  apply eval_getOrCreateSession in Hs.
  assert (currentStep (fst (lookupSession ph w)) <> "welcome") as Hne
    by (rewrite <- Hs, Hstep; discriminate).
  destruct (lookupSession_found ph w Hne) as [_ Hagain].
  unfold exec. rewrite processIncomingMessage_run. cbn [snd].
  rewrite turnStart_session, turnStart_world. fold ph. rewrite <- Hs.
  unfold determineResponse. rewrite Hstep, Hph.
  simpl (String.eqb "contract_class_code" _). cbv iota.
  set (w1 := logged _ (record _ (snd (lookupSession ph w)))).
  rewrite handleClassCode_failed by assumption. cbv zeta.
  fold (codeOf payload).
  set (w2 := record (EvLookup _ _) w1).
  assert (fst (lookupSession ph w2) = s) as Hread.
  { unfold w2, w1. rewrite lookupSession_record, lookupSession_logged, lookupSession_record.
    cbn [fst]. now rewrite Hagain. }
  rewrite Hread.
  set (D := <["tentativasTurma" := JNum (attempts s + 1)]> (default ∅ (data s))).
  set (r := if 3 <=? attempts s + 1 then getSupportStep else classCodeRetry).
  set (w3 := storeSession ph "contract_class_code" _ (Some D) _).
  assert (cached w2 || durable w2 = true) as Hup2.
  { unfold w2, w1. now autorewrite with switches. }
  assert (cached w3 || durable w3 = true) as Hup3.
  { unfold w3. now autorewrite with switches. }
  unfold turnEnd. fold ph.
  assert (Json.object (Some D) = Some D) as HD.
  { unfold D. cbn [Json.object fmap option_fmap option_map].
    rewrite fmap_insert. cbn [Json.roundTrip].
    now rewrite Hs, lookupSession_clean_default. }
  assert (data (fst (lookupSession ph w3)) = Some D) as Hdata.
  { unfold w3.
    match goal with |- context [storeSession ph ?n ?m ?d ?x] =>
      destruct (lookupSession_storeSession ph n m d x) as (_ & _ & E) end.
    - now autorewrite with switches.
    - now rewrite E. }
  rewrite Hdata.
  set (w4 := storeSession ph (step r) _ (Some D) _).
  split; [|split].
  - eexists. split; [apply eval_getOrCreateSession; reflexivity|].
    rewrite lookupSession_sent. unfold w4.
    match goal with |- context [storeSession ph ?n ?m ?d ?x] =>
      destruct (lookupSession_storeSession ph n m d x) as (E1 & E2 & E3) end.
    + now autorewrite with switches.
    + rewrite HD in E3. auto.
  - unfold w4. now autorewrite with switches.
  - rewrite trace_sent. unfold w4. rewrite trace_storeSession, trace_lookupSession.
    unfold w3. rewrite trace_storeSession, trace_lookupSession.
    unfold w2, w1. cbn [trace record]. rewrite trace_logged. cbn [trace record].
    rewrite trace_lookupSession, <- !app_assoc. reflexivity.
Qed.

Lemma attempts_after (s s' : SessionContext) (n : Z) :
  data s' = Some (<["tentativasTurma" := JNum n]> (default ∅ (data s))) ->
  attempts s' = n /\ counterOk s'.
Proof.
  intros H. unfold attempts, counterOk, dataProp. rewrite H, lookup_insert_eq.
  split; [reflexivity | exact I].
Qed.

(** A session at the main menu: the transition of the next turn is
    the choice [handleMainMenu] makes of the text. *)
Lemma transition_main_menu (sv : Services) (payload : ZApiWebhookPayload) (w : World)
    (s : SessionContext) :
  eval (getOrCreateSession (p_phone payload)) w = Ok s ->
  currentStep s = "main_menu" ->
  transition sv payload w
  = Ok (handleMainMenu (Js.trim (Js.toLowerCase (fst (messageContentOf payload))))).
Proof.
  intros Hs Hstep. apply eval_getOrCreateSession in Hs.
  unfold transition. rewrite turnStart_session, <- Hs.
  unfold determineResponse. rewrite Hstep. reflexivity.
Qed.




(** ** The billing CPF *)

Lemma bind_bind {A B C} (c : M A) (k : A -> M B) (k' : B -> M C) (w : World) :
  bind (bind c k) k' w = bind c (fun a => bind (k a) k') w.
Proof. unfold bind. destruct (c w) as [[a|e] w']; reflexivity. Qed.

Lemma bind_ret {A B} (a : A) (k : A -> M B) (w : World) : bind (ret a) k w = k a w.
Proof. reflexivity. Qed.

Lemma bind_throw {A B} (e : string) (k : A -> M B) (w : World) :
  bind (throw e) k w = (Throw e, w).
Proof. reflexivity. Qed.

(** [handleBillingCpf] once it has settled on the digits [cpf]. *)
Lemma handleBillingCpf_lookup (sv : Services) (cpf : string) (w : World) :
  Js.length cpf = 11%nat ->
  exists r,
    step r = "main_menu"
    /\ (if negb (Js.length cpf =? 11)%nat then ret (Some billingCpfPrompt)
        else
          bind (checkCpfExists sv cpf) (fun aluno =>
            match aluno with
            | None => ret (Some (backToMenu "CPF não encontrado. Retornando ao menu principal."))
            | Some a =>
                ret (Some (backToMenu
                  ("Aluno: " +:+ aluno_nomeCompleto a +:+ " (Turma " +:+ aluno_turmaId a
                   +:+ (")" +:+ nl +:+ nl)
                   +:+ ("Resumo financeiro:" +:+ nl +:+ "- Boletos/PIX pendentes: 0" +:+ nl
                        +:+ "- Carnês pendentes: 0"))))
            end)) w
       = (Ok (Some r), record (EvLookup "checkCpfExists" cpf) w).
Proof.
  intros ->. cbn [Nat.eqb negb]. unfold checkCpfExists, bind, emit, modify, ret.
  destruct (api_checkCpfExists sv _); eexists; (split; [|reflexivity]); reflexivity.
Qed.

(** **C9.** In [billing_cpf], when the inbound text does not have
    exactly 11 digits but the CPF stored in the session's client data
    does, [handleBillingCpf] looks the customer up under the stored CPF
    and answers from the lookup (back at the main menu) instead of asking
    again; it asks again for a valid CPF only when neither the input nor
    the stored CPF has 11 digits, and then it makes no lookup. *)
Theorem billing_cpf_session_fallback (sv : Services) (message ph : string) (w : World)
    (s : SessionContext) :
  eval (getOrCreateSession ph) w = Ok s ->
  currentStep s = "billing_cpf" ->
  let typed := Js.replaceNonDigits message in
  let answer := eval (handleBillingCpf sv message ph) w in
  let after := exec (handleBillingCpf sv message ph) w in
  (forall c,
     Js.length typed <> 11%nat ->
     clienteProp s "cpf" = Some (JStr c) ->
     Js.length (Js.replaceNonDigits c) = 11%nat ->
     trace after = trace w ++ [EvLookup "checkCpfExists" (Js.replaceNonDigits c)]
     /\ exists r, answer = Ok (Some r) /\ step r = "main_menu")
  /\ (answer = Ok (Some billingCpfPrompt) ->
      Js.length typed <> 11%nat
      /\ forall c, clienteProp s "cpf" = Some (JStr c) ->
                   Js.length (Js.replaceNonDigits c) <> 11%nat)
  /\ (Js.length typed <> 11%nat ->
      (clienteProp s "cpf" = None
       \/ exists c, clienteProp s "cpf" = Some (JStr c)
                    /\ Js.length (Js.replaceNonDigits c) <> 11%nat) ->
      answer = Ok (Some billingCpfPrompt) /\ trace after = trace w).
Proof.
  intros Hs Hstep. cbv zeta.
  apply eval_getOrCreateSession in Hs.
  assert (currentStep (fst (lookupSession ph w)) <> "welcome") as Hne
    by (rewrite <- Hs, Hstep; discriminate).
  destruct (lookupSession_found ph w Hne) as [_ Hagain].
  unfold eval, exec, handleBillingCpf.
  rewrite bind_getOrCreateSession, <- Hs, Hstep.
  simpl (negb (String.eqb _ _)). cbv iota.
  set (w1 := snd (lookupSession ph w)).
  fold billingCpfPrompt.
  destruct (Nat.eqb_spec (Js.length (Js.replaceNonDigits message)) 11) as [Ht|Ht].
  - (* the input has 11 digits *)
    cbn [negb]. rewrite (bind_run (ret _) _ w1 w1 (Js.replaceNonDigits message) eq_refl).
    destruct (handleBillingCpf_lookup sv (Js.replaceNonDigits message) w1 Ht)
      as (r & Hr & ->). cbn [fst snd].
    split; [intros c Hc; contradiction|]. split; [|intros Hc; contradiction].
    intros E. injection E as ->. discriminate Hr.
  - cbn [negb]. rewrite bind_bind, bind_getOrCreateSession.
    assert (fst (lookupSession ph w1) = s) as Hread
      by (unfold w1; now rewrite Hagain).
    rewrite Hread.
    set (w2 := snd (lookupSession ph w1)).
    assert (trace w2 = trace w) as Htr
      by (unfold w2, w1; now rewrite !trace_lookupSession).
    pose proof (proj2 (Nat.eqb_neq _ _) Ht) as Hb.
    destruct (clienteProp s "cpf") as [v|] eqn:Ecpf.
    2:{ cbn [truthy]. rewrite bind_ret, Hb. cbn [negb fst snd ret].
        split; [intros c _ Hc; discriminate|].
        split; [intros _; split; [exact Ht | intros c Hc; discriminate]|].
        intros _ _. split; [reflexivity | exact Htr]. }
    destruct v as [|b|n|x|c|l|o];
      try (destruct (truthy _); rewrite ?bind_ret, ?bind_throw, ?Hb;
           cbn [negb fst snd ret];
           (split; [intros c _ Hc; discriminate|]);
           (split; [intros _; split; [exact Ht | intros c Hc; discriminate]|]);
           intros _ [Hc|(c & Hc & _)]; discriminate).
    destruct (Nat.eqb_spec (Js.length (Js.replaceNonDigits c)) 11) as [Hc|Hc].
    + assert (truthy (Some (JStr c)) = true) as ->
        by (destruct c; [discriminate Hc | reflexivity]).
      rewrite bind_ret.
      destruct (handleBillingCpf_lookup sv (Js.replaceNonDigits c) w2 Hc)
        as (r & Hr & ->). cbn [fst snd trace record]. rewrite Htr.
      split; [intros c' _ E _; injection E as <-; eauto|].
      split.
      * intros E. injection E as ->. discriminate Hr.
      * intros _ [E|(c' & E & Hc')]; [discriminate|]. injection E as <-. contradiction.
    + destruct (truthy (Some (JStr c))); rewrite bind_ret, Hb; cbn [negb fst snd ret].
      all: split; [intros c' _ E Hc'; injection E as <-; contradiction|].
      all: split; [intros _; split; [exact Ht|]; intros c' E; injection E as <-; exact Hc|].
      all: intros _ _; split; [reflexivity | exact Htr].
Qed.

Lemma billing_cpf_session_fallback_witness :
  let w := Scenario.worldAt "billing_cpf" Scenario.registered in
  trace (exec (handleBillingCpf Scenario.services "oi" Scenario.phone) w)
  = trace w ++ [EvLookup "checkCpfExists" "52998224725"].
Proof.
  refine (proj1 (proj1 (billing_cpf_session_fallback Scenario.services "oi" Scenario.phone
    (Scenario.worldAt "billing_cpf" Scenario.registered)
    _ eq_refl eq_refl) "52998224725" _ eq_refl eq_refl)).
  vm_compute. discriminate.
Defined.

(** ** Installment counts *)

(** A count that parses to a number of at least 1 goes straight to the
    payment: no configuration is read on this path. *)
Lemma handleCarneParcelas_accepted (sv : Services) (message ph : string) (w : World) :
  let s := fst (lookupSession ph w) in
  let n := Js.parseInt message in
  truthy (dataProp s "clienteData") = true ->
  truthy (pacoteProp s "configuracaoTurmaId") = true ->
  invalidParcelas n = false ->
  handleCarneParcelas sv message ph w
  = bind (updatePackageData ph "parcelas" (numberToJson n))
      (fun _ => bind (processPaymentCarne sv ph n) (fun r => ret (Some r)))
      (snd (lookupSession ph w)).
Proof.
  cbv zeta. intros Hc Hp Hn. unfold handleCarneParcelas.
  rewrite bind_getOrCreateSession. unfold pacoteProp in Hp. rewrite Hc, Hp, Hn.
  reflexivity.
Qed.

(** **C4.** The installment count is not checked against the cohort's
    maximum. With a cohort whose configured maximum is 6, the message
    [12] in [carne_parcelas] is accepted: the payment backend receives a
    request for 12 installments, 12 is stored as the session's installment
    count and the session moves on to the main menu. *)
Theorem carne_parcelas_above_maximum_accepted :
  let w := Scenario.worldAt "carne_parcelas" Scenario.registered in
  let w' := exec (processIncomingMessage Scenario.services (Scenario.textPayload "12")) w in
  carneMaxParcelas <$> db_getConfiguracaoTurma Scenario.services "t-2025" = Some 6
  /\ cr_parcelas <$> carneRequests (trace w') = [Js.Int 12]
  /\ exists s',
       eval (getOrCreateSession Scenario.phone) w' = Ok s'
       /\ currentStep s' = "main_menu"
       /\ pacoteProp s' "parcelas" = Some (JNum 12).
Proof.
  cbv zeta. split; [reflexivity|]. split; [vm_compute; reflexivity|].
  eexists. split; [vm_compute; reflexivity|]. split; vm_compute; reflexivity.
Qed.

(** ** The webhook guards during a cache outage *)

Lemma setIfNotExists_down (key : string) (w : World) :
  redis_up w = false -> Redis.setIfNotExists key w = (Ok false, w).
Proof.
  intros H. unfold Redis.setIfNotExists, Redis.isAvailable, bind, ask. now rewrite H.
Qed.

(** **C2.** The guards fail closed, not open. When the controller's
    Redis service is unavailable, [setIfNotExists] answers [false], which
    the controller reads as "key already there": every event that passes
    validation and is not self-originated is answered as a duplicate
    (with a message id) or as a repeat (without; as a server error when
    its message does not even convert to the text of the debounce key),
    the world is left as it was and the conversation engine is never
    entered. *)
Theorem webhook_guard_fails_closed (sv : Services) (payload : ZApiWebhookPayload) (w : World) :
  redisService w = true -> redis_up w = false ->
  p_phone payload <> "" -> p_type payload <> "" -> fromMe payload = false ->
  eval (handleWebhook sv payload) w
    = Ok (match orString (messageId payload) (p_id payload) with
          | Some _ => Deduped
          | None =>
              match debounceContent payload with
              | Some _ => Debounced
              | None => ServerError conversionError
              end
          end)
  /\ exec (handleWebhook sv payload) w = w.
Proof.
  intros Hsvc Hdown Hph Hty Hme. unfold eval, exec, handleWebhook.
  rewrite (string_eqb_false _ _ Hph), (string_eqb_false _ _ Hty), Hme.
  cbn [orb]. unfold tryCatch.
  rewrite (bind_run (ask redisService) _ w w true) by (unfold ask; now rewrite Hsvc).
  destruct (orString (messageId payload) (p_id payload)) as [id|].
  - rewrite bind_bind, (bind_run _ _ w w false (setIfNotExists_down _ w Hdown)).
    split; reflexivity.
  - rewrite bind_ret. cbv iota zeta.
    destruct (debounceContent payload) as [content|].
    + rewrite bind_bind, (bind_run _ _ w w false (setIfNotExists_down _ w Hdown)).
      split; reflexivity.
    + split; reflexivity.
Qed.

Lemma webhook_guard_fails_closed_witness :
  eval (handleWebhook Scenario.services (Scenario.textPayload "1")) Scenario.redisDown
    = Ok Debounced
  /\ exec (handleWebhook Scenario.services (Scenario.textPayload "1")) Scenario.redisDown
    = Scenario.redisDown.
Proof.
  apply (webhook_guard_fails_closed Scenario.services (Scenario.textPayload "1")
           Scenario.redisDown eq_refl eq_refl); [discriminate | discriminate | reflexivity].
Defined.

(** With Redis up and no key set, the same event is processed. *)
Lemma webhook_processes_when_cache_up :
  eval (handleWebhook Scenario.services (Scenario.textPayload "1")) Scenario.emptyWorld
    = Ok Success
  /\ hd_error (trace (exec (handleWebhook Scenario.services (Scenario.textPayload "1"))
                       Scenario.emptyWorld))
     = Some (EvEngine Scenario.phone).
Proof. split; vm_compute; reflexivity. Qed.

(** ** Package selection *)

Lemma outside_spec (n : nat) (k : Js.Number) :
  k <> Js.NaN -> outside n k = true <-> ~ inCatalog n k.
Proof.
  intros Hk. unfold outside, inCatalog, Js.ltb.
  destruct k as [|z|[]]; [congruence| |cbn; tauto..].
  rewrite orb_true_iff, !Z.ltb_lt. lia.
Qed.

(** What [parseSelection] keeps is a number. *)
Lemma parseSelection_numbers (message : string) :
  Forall (fun k => k <> Js.NaN) (parseSelection message).
Proof.
  unfold parseSelection. generalize (Js.split "," (Js.replaceSpaces message)) as l.
  induction l as [|x l IH]; [constructor|].
  cbn [omap list_omap]. destruct (Js.parseInt (Js.trim x)) eqn:E; cbn [Js.isNaN];
    [exact IH | constructor; [discriminate | exact IH]..].
Qed.

Lemma numerosInvalidos_nil (numeros : list Js.Number) (n : nat) :
  Forall (fun k => k <> Js.NaN) numeros ->
  numerosInvalidos numeros n = [] <-> Forall (inCatalog n) numeros.
Proof.
  unfold numerosInvalidos. induction 1 as [|k l Hk _ IH].
  - split; [constructor | reflexivity].
  - rewrite filter_cons. pose proof (outside_spec n k Hk) as Ho.
    destruct (decide (outside n k = true)) as [H|H].
    + split; [discriminate|]. intros F. inversion F; subst. tauto.
    + rewrite IH. split; intros F.
      * constructor; [|exact F].
        destruct k as [|z|[]]; cbn in *; try congruence.
        unfold outside, Js.ltb in H. apply not_true_is_false in H.
        apply orb_false_elim in H as [H1 H2]. apply Z.ltb_ge in H1, H2. lia.
      * now inversion F.
Qed.

Lemma numerosInvalidos_spec (numeros : list Js.Number) (n : nat) (k : Js.Number) :
  Forall (fun k => k <> Js.NaN) numeros ->
  k ∈ numerosInvalidos numeros n <-> k ∈ numeros /\ ~ inCatalog n k.
Proof.
  intros Hall. unfold numerosInvalidos. rewrite list_elem_of_filter. split.
  - intros [H1 H2]. split; [exact H2|]. apply outside_spec; [|exact H1].
    rewrite Forall_forall in Hall. now apply Hall.
  - intros [H1 H2]. split; [|exact H1]. apply outside_spec; [|exact H2].
    rewrite Forall_forall in Hall. now apply Hall.
Qed.

Lemma selectItems_length (itens : list ItemCustomizado) (numeros : list Js.Number) :
  Forall (inCatalog (length itens)) numeros ->
  length (selectItems itens numeros) = length numeros.
Proof.
  unfold selectItems. induction 1 as [|k l Hk _ IH]; [reflexivity|].
  cbn [omap list_omap]. destruct k as [|z|[]]; cbn [inCatalog] in Hk; try contradiction.
  cbn [itemAt].
  destruct (lookup_lt_is_Some_2 itens (Z.to_nat (z - 1)) ltac:(lia)) as [x ->].
  cbn. now rewrite IH.
Qed.

Lemma pacoteProp_object (s : SessionContext) (k : string) :
  truthy (pacoteProp s k) = true -> extensible (dataProp s "pacoteData").
Proof.
  unfold pacoteProp, prop.
  destruct (dataProp s "pacoteData") as [[| | | | | |o]|]; cbn; try discriminate; auto.
Qed.

(** One field write and the session read after it: the value is read
    as JSON gives it back. *)
Lemma performWrite_read (ph : string) (wr : Write) (w : World) :
  let s := fst (lookupSession ph w) in
  cached w || durable w = true ->
  extensible (dataProp s (subRecord wr)) ->
  let w' := exec (performWrite ph wr) w in
  let s' := fst (lookupSession ph w') in
  eval (performWrite ph wr) w = Ok tt
  /\ cached w' || durable w' = true
  /\ phone s' = ph
  /\ currentStep s' = currentStep s
  /\ data s' = Some (applyWrite (default ∅ (data s)) (jsonWrite wr))
  /\ trace w' = trace w ++ [EvUpdateSession ph (currentStep s)].
Proof.
  cbv zeta. intros Hup Hx. unfold eval, exec.
  rewrite (performWrite_run ph wr w Hx). cbn [fst snd].
  match goal with |- context [storeSession ph ?n ?m ?d ?x] =>
    destruct (lookupSession_storeSession ph n m d x) as (E1 & E2 & E3) end.
  { now autorewrite with switches. }
  split; [reflexivity|]. split; [now autorewrite with switches|].
  split; [exact E1|]. split; [exact E2|]. split.
  { rewrite E3. cbn [Json.object fmap option_fmap option_map].
    now rewrite fmap_applyWrite, lookupSession_clean_default. }
  now rewrite trace_storeSession, trace_lookupSession.
Qed.

Lemma applyWrite_pacote (D : gmap string JValue) (k : string) (v : JValue) (k' : string) :
  prop (applyWrite D (WPacote k v) !! "pacoteData") k'
  = if decide (k = k') then Some v else objOf (D !! "pacoteData") !! k'.
Proof.
  unfold applyWrite. cbn [subRecord writeKey writeValue].
  rewrite lookup_insert_eq. cbn [prop]. apply lookup_insert.
Qed.

Lemma lookupSession_recordAll (ph : string) (evs : list Event) (w : World) :
  lookupSession ph (recordAll evs w)
  = (fst (lookupSession ph w), recordAll evs (snd (lookupSession ph w))).
Proof.
  revert w. induction evs as [|e evs IH]; intros w; cbn.
  - now destruct (lookupSession ph w).
  - unfold recordAll in *. cbn. now rewrite IH, lookupSession_record.
Qed.

Lemma cached_recordAll (evs : list Event) (w : World) : cached (recordAll evs w) = cached w.
Proof.
  revert w. induction evs as [|e evs IH]; intros w; [reflexivity|].
  unfold recordAll in *. cbn [fold_left]. now rewrite IH.
Qed.

Lemma durable_recordAll (evs : list Event) (w : World) : durable (recordAll evs w) = durable w.
Proof.
  revert w. induction evs as [|e evs IH]; intros w; [reflexivity|].
  unfold recordAll in *. cbn [fold_left]. now rewrite IH.
Qed.

Lemma trace_recordAll (evs : list Event) (w : World) :
  trace (recordAll evs w) = trace w ++ evs.
Proof.
  revert w. induction evs as [|e evs IH]; intros w; cbn.
  - now rewrite app_nil_r.
  - unfold recordAll in *. cbn [fold_left]. rewrite IH. cbn. now rewrite <- app_assoc.
Qed.

#[local] Hint Rewrite cached_recordAll durable_recordAll : switches.

(** Fetching the catalog, in closed form. *)
Lemma fetch_catalog_run {B} (sv : Services) (s : SessionContext)
    (k : list ItemCustomizado -> M B) (w : World) :
  bind (apiGetItensCustomizados sv (clienteProp s "turmaId"))
    (fun fromApi =>
       bind (orFallback fromApi
               (dbGetItensCustomizados sv (toText (pacoteProp s "configuracaoTurmaId")))) k) w
  = k (catalogFor sv s) (recordAll (catalogLookups sv s) w).
Proof.
  unfold apiGetItensCustomizados, catalogFor, catalogLookups.
  rewrite bind_bind. unfold bind at 1. cbn [emit modify]. rewrite bind_ret.
  destruct (api_getItensCustomizados sv _) as [|i l]; cbn [orFallback].
  - unfold dbGetItensCustomizados. rewrite bind_bind. unfold bind at 1. cbn [emit modify].
    now rewrite bind_ret.
  - now rewrite bind_ret.
Qed.

Lemma eval_exec_run {A} (c : M A) (w : World) (a : A) :
  eval c w = Ok a -> c w = (Ok a, exec c w).
Proof. unfold eval, exec. destruct (c w) as [r w']. cbn. now intros ->. Qed.

Lemma objOf_lookup (v : option JValue) (k : string) : objOf v !! k = prop v k.
Proof. destruct v as [[| | | | | |o]|]; cbn; try apply lookup_empty; reflexivity. Qed.



(** ** Due dates *)

Lemma MonthFromDay_range (day : Z) : 0 <= Date.MonthFromDay day <= 11.
Proof.
  unfold Date.MonthFromDay. cbv zeta.
  repeat (match goal with |- context [if ?b then _ else _] => destruct b end); lia.
Qed.

(** [MakeDay] undoes the split of a day into year, month and date. *)
Lemma MakeDay_split (day k : Z) :
  Date.MakeDay (Date.YearFromDay day) (Date.MonthFromDay day) (Date.DateFromDay day + k)
  = day + k.
Proof.
  pose proof (MonthFromDay_range day) as Hm.
  unfold Date.MakeDay, Date.DateFromDay, Date.DayWithinYear. cbv zeta.
  rewrite (Z.div_small (Date.MonthFromDay day) 12) by lia.
  rewrite (Z.mod_small (Date.MonthFromDay day) 12) by lia.
  rewrite Z.add_0_r. lia.
Qed.

(** [setDate(getDate() + 7)]: the same local time of day seven
    calendar days later, taken back to UTC. *)
Lemma setDate_week (tza : Date.Zone) (t : Z) :
  Date.setDate tza t (Date.getDate tza t + 7)
  = Date.TimeClip (Date.UTC tza (Date.LocalTime tza t + 7 * Date.msPerDay)).
Proof.
  unfold Date.setDate, Date.getDate, Date.DateFromTime, Date.YearFromTime,
    Date.MonthFromTime. cbv zeta.
  rewrite MakeDay_split. f_equal. f_equal.
  unfold Date.MakeDate, Date.Day, Date.TimeWithinDay.
  pose proof (Z.div_mod (Date.LocalTime tza t) Date.msPerDay
                ltac:(unfold Date.msPerDay; lia)).
  lia.
Qed.

(** In a zone that keeps one offset that is seven days later. *)
Lemma week_fixedOffset (tza : Date.Zone) (t : Z) :
  fixedOffset tza ->
  Date.UTC tza (Date.LocalTime tza t + 7 * Date.msPerDay) = t + 7 * Date.msPerDay.
Proof.
  intros H. unfold Date.UTC, Date.LocalTime.
  rewrite (H (t + tza t true + 7 * Date.msPerDay) t false true). lia.
Qed.

(** The year of a day is the one the day falls in, and it is the only
    one. *)
Lemma YearFromDay_spec (day : Z) :
  Date.DayFromYear (Date.YearFromDay day) <= day
  < Date.DayFromYear (Date.YearFromDay day + 1).
Proof.
  unfold Date.YearFromDay. cbv zeta.
  set (y := 1970 + 400 * day / 146097).
  assert (Date.DayFromYear (y - 1) <= day < Date.DayFromYear (y + 2)) as H.
  { unfold Date.DayFromYear, y. Z.to_euclidean_division_equations. lia. }
  destruct (Z.ltb_spec day (Date.DayFromYear y)).
  - replace (y - 1 + 1) with y by lia. lia.
  - destruct (Z.leb_spec (Date.DayFromYear (y + 1)) day).
    + replace (y + 1 + 1) with (y + 2) by lia. lia.
    + lia.
Qed.

Lemma YearFromDay_unique (day y : Z) :
  Date.DayFromYear y <= day < Date.DayFromYear (y + 1) -> Date.YearFromDay day = y.
Proof.
  intros H. pose proof (YearFromDay_spec day) as S.
  assert (forall a b, a < b -> Date.DayFromYear (a + 1) <= Date.DayFromYear b) as Hmono.
  { intros a b Hab. unfold Date.DayFromYear. Z.to_euclidean_division_equations. lia. }
  destruct (Z.lt_trichotomy (Date.YearFromDay day) y) as [L|[E|G]]; [|exact E|].
  - specialize (Hmono _ _ L). lia.
  - specialize (Hmono _ _ G). lia.
Qed.

Lemma Day_week (t : Z) : Date.Day (t + 7 * Date.msPerDay) = Date.Day t + 7.
Proof. unfold Date.Day. rewrite Z.div_add by (unfold Date.msPerDay; lia). reflexivity. Qed.

Lemma noT_app (a b : string) : noT (a +:+ b) = noT a && noT b.
Proof. induction a as [|c a IH]; [reflexivity|]. simpl. now rewrite IH, andb_assoc. Qed.

Lemma digit_noT (n : Z) : Ascii.eqb (Date.digit n) "T" = false.
Proof.
  unfold Date.digit. pose proof (Z.mod_pos_bound n 10 ltac:(lia)) as H.
  assert (n mod 10 = 0 \/ n mod 10 = 1 \/ n mod 10 = 2 \/ n mod 10 = 3 \/ n mod 10 = 4
          \/ n mod 10 = 5 \/ n mod 10 = 6 \/ n mod 10 = 7 \/ n mod 10 = 8 \/ n mod 10 = 9)
    as Hc by lia.
  repeat (destruct Hc as [-> | Hc]; [reflexivity|]). now rewrite Hc.
Qed.

Lemma pad2_noT (n : Z) : noT (Date.pad2 n) = true.
Proof. unfold Date.pad2. cbn [noT]. now rewrite !digit_noT. Qed.

Lemma pad4_noT (n : Z) : noT (Date.pad4 n) = true.
Proof. unfold Date.pad4, Date.pad3. cbn [noT]. now rewrite !digit_noT, pad2_noT. Qed.

Lemma pad6_noT (n : Z) : noT (Date.pad6 n) = true.
Proof. unfold Date.pad6. cbn [noT]. now rewrite !digit_noT, pad4_noT. Qed.

Lemma isoYear_noT (y : Z) : noT (Date.isoYear y) = true.
Proof.
  unfold Date.isoYear. destruct (_ && _); [apply pad4_noT|].
  destruct (y <? 0); cbn [noT]; now rewrite pad6_noT.
Qed.

Lemma isoDate_noT (day : Z) : noT (Date.isoDate day) = true.
Proof.
  unfold Date.isoDate. now rewrite !noT_app, isoYear_noT, !pad2_noT.
Qed.

Lemma split_head (a b : string) :
  noT a = true -> hd "" (Js.split "T" (a +:+ String "T" b)) = a.
Proof.
  induction a as [|c a IH]; intros H; [reflexivity|].
  cbn [noT] in H. apply andb_true_iff in H as [Hc Ha]. apply negb_true_iff in Hc.
  change (String c a +:+ String "T" b) with (String c (a +:+ String "T" b)).
  cbn [Js.split]. rewrite Hc. specialize (IH Ha).
  destruct (Js.split "T" (a +:+ String "T" b)) as [|h tl]; cbn [hd] in *; now subst.
Qed.

Lemma toISOString_date (t : Z) :
  hd "" (Js.split "T" (Date.toISOString t)) = Date.isoDate (Date.Day t).
Proof.
  unfold Date.toISOString. cbv zeta.
  change (?a +:+ "T" +:+ ?b) with (a +:+ String "T" b).
  apply split_head, isoDate_noT.
Qed.

(** ** Transitions: what they leave on the trace *)

Section Emits.

Context (tz : Date.Zone) (t : Z).

Lemma Emits_ret {A} (a : A) (Q : A -> Prop) : Q a -> Emits tz t (ret a) Q.
Proof.
  intros H w Hw Hz. split; [split; [exact Hw | exact Hz]|]. split; [reflexivity|]. split.
  - exists []. split; [now rewrite app_nil_r | constructor].
  - intros a' E. injection E as <-. exact H.
Qed.

Lemma Emits_throw {A} (e : string) (Q : A -> Prop) : Emits tz t (throw e) Q.
Proof.
  intros w Hw Hz. split; [split; [exact Hw | exact Hz]|]. split; [reflexivity|]. split.
  - exists []. split; [now rewrite app_nil_r | constructor].
  - intros a' E. discriminate E.
Qed.

Lemma Emits_bind {A B} (c : M A) (k : A -> M B) (Q : A -> Prop) (R : B -> Prop) :
  Emits tz t c Q -> (forall a, Q a -> Emits tz t (k a) R) -> Emits tz t (bind c k) R.
Proof.
  intros Hc Hk w Hw Hz. destruct (Hc w Hw Hz) as (N1 & L1 & (evs1 & T1 & F1) & Q1).
  unfold exec, eval, bind in *. destruct (c w) as [[a|e] w1]; cbn [fst snd] in *.
  - destruct (Hk a (Q1 a eq_refl) w1 (proj1 N1) (proj2 N1))
      as (N2 & L2 & (evs2 & T2 & F2) & Q2).
    unfold exec, eval in N2, L2, T2, Q2.
    split; [exact N2|]. split; [now rewrite L2|]. split; [|exact Q2].
    exists (evs1 ++ evs2). rewrite T2, T1, <- app_assoc. split; [reflexivity|].
    now apply Forall_app.
  - split; [exact N1|]. split; [exact L1|]. split; [eauto|]. intros a E. discriminate E.
Qed.

Lemma Emits_then {A B} (c : M A) (k : A -> M B) (R : B -> Prop) :
  Emits tz t c anything -> (forall a, Emits tz t (k a) R) -> Emits tz t (bind c k) R.
Proof. intros Hc Hk. apply (Emits_bind c k anything R Hc). intros a _. apply Hk. Qed.

Lemma Emits_tryCatch {A} (c : M A) (h : string -> M A) (Q : A -> Prop) :
  Emits tz t c Q -> (forall e, Emits tz t (h e) Q) -> Emits tz t (tryCatch c h) Q.
Proof.
  intros Hc Hh w Hw Hz. destruct (Hc w Hw Hz) as (N1 & L1 & (evs1 & T1 & F1) & Q1).
  unfold exec, eval, tryCatch in *. destruct (c w) as [[a|e] w1]; cbn [fst snd] in *.
  - split; [exact N1|]. split; [exact L1|]. split; [eauto|]. exact Q1.
  - destruct (Hh e w1 (proj1 N1) (proj2 N1)) as (N2 & L2 & (evs2 & T2 & F2) & Q2).
    unfold exec, eval in N2, L2, T2, Q2.
    split; [exact N2|]. split; [now rewrite L2|]. split; [|exact Q2].
    exists (evs1 ++ evs2). rewrite T2, T1, <- app_assoc. split; [reflexivity|].
    now apply Forall_app.
Qed.

Lemma Emits_weaken {A} (c : M A) (Q Q' : A -> Prop) :
  Emits tz t c Q -> (forall a, Q a -> Q' a) -> Emits tz t c Q'.
Proof.
  intros Hc HQ w Hw Hz. destruct (Hc w Hw Hz) as (N1 & L1 & T1 & Q1).
  split; [exact N1|]. split; [exact L1|]. split; [exact T1|]. intros a E. apply HQ, Q1, E.
Qed.

Lemma Emits_anything {A} (c : M A) (Q : A -> Prop) : Emits tz t c Q -> Emits tz t c anything.
Proof. intros H. apply (Emits_weaken c Q anything H). intros a _. exact I. Qed.

Lemma Emits_ask {A} (f : World -> A) (Q : A -> Prop) :
  (forall w, now w = t -> Q (f w)) -> Emits tz t (ask f) Q.
Proof.
  intros H w Hw Hz. split; [split; [exact Hw | exact Hz]|]. split; [reflexivity|]. split.
  - exists []. split; [now rewrite app_nil_r | constructor].
  - intros a E. injection E as <-. now apply H.
Qed.

Lemma Emits_emit (e : Event) : handlerEvent tz t e -> Emits tz t (emit e) anything.
Proof.
  intros H w Hw Hz. split; [split; [exact Hw | exact Hz]|]. split; [reflexivity|]. split.
  - exists [e]. split; [reflexivity | now constructor].
  - intros a _. exact I.
Qed.

(** Reading and storing a session leave the clock, the zone and the
    message log alone. *)
Lemma now_lookupSession (ph : string) (w : World) :
  now (snd (lookupSession ph w)) = now w
  /\ localTZA (snd (lookupSession ph w)) = localTZA w
  /\ message_logs (snd (lookupSession ph w)) = message_logs w.
Proof.
  destruct w as [p u ss ml rs ru c ks n z tr].
  unfold lookupSession, mirror, cached, durable. cbn.
  destruct rs, ru, p, u; cbn; repeat (case_match; cbn); repeat split; reflexivity.
Qed.

Lemma now_storeSession (ph next msg : string) d (w : World) :
  now (storeSession ph next msg d w) = now w
  /\ localTZA (storeSession ph next msg d w) = localTZA w
  /\ message_logs (storeSession ph next msg d w) = message_logs w.
Proof. unfold storeSession. destruct (cached w), (durable w); repeat split; reflexivity. Qed.

Lemma Emits_getOrCreateSession (ph : string) : Emits tz t (getOrCreateSession ph) anything.
Proof.
  intros w Hw Hz. unfold exec, eval. rewrite getOrCreateSession_run. cbn [fst snd].
  destruct (now_lookupSession ph w) as (-> & -> & ->).
  split; [split; [exact Hw | exact Hz]|]. split; [reflexivity|]. split.
  - exists []. rewrite trace_lookupSession, app_nil_r. split; [reflexivity | constructor].
  - intros a _. exact I.
Qed.

Lemma Emits_updateSession (ph next msg : string) d :
  Emits tz t (updateSession ph next msg d) anything.
Proof.
  intros w Hw Hz. unfold exec, eval. rewrite updateSession_run. cbn [fst snd].
  destruct (now_storeSession ph next msg d w) as (-> & -> & ->).
  split; [split; [exact Hw | exact Hz]|]. split; [reflexivity|]. split.
  - exists [EvUpdateSession ph next]. rewrite trace_storeSession.
    split; [reflexivity | repeat constructor].
  - intros a _. exact I.
Qed.

End Emits.

(** What [calcularVencimentoPadrao] answers, in closed form: outside
    the range of valid dates it throws. *)
Lemma calcularVencimentoPadrao_run (w : World) :
  calcularVencimentoPadrao w
  = (match Date.TimeClip (Date.UTC (localTZA w)
                            (Date.LocalTime (localTZA w) (now w) + 7 * Date.msPerDay)) with
     | Some _ => Ok (dueDate (localTZA w) (now w))
     | None => Throw "Invalid time value"
     end, w).
Proof.
  unfold calcularVencimentoPadrao.
  rewrite !bind_run with (a := now w) (w' := w) by reflexivity.
  rewrite !bind_run with (a := localTZA w) (w' := w) by reflexivity.
  rewrite setDate_week. destruct (Date.TimeClip _) as [d|] eqn:Ed; [|reflexivity].
  unfold ret. rewrite toISOString_date.
  unfold Date.TimeClip in Ed. destruct (_ <=? _); [|discriminate].
  injection Ed as <-. reflexivity.
Qed.

(** The due date [calcularVencimentoPadrao] returns, in any zone. *)
Lemma Emits_calcularVencimentoPadrao (tz : Date.Zone) (t : Z) :
  Emits tz t calcularVencimentoPadrao (fun d => d = dueDate tz t).
Proof.
  intros w Hw Hz. unfold exec, eval. rewrite calcularVencimentoPadrao_run.
  cbn [fst snd]. split; [split; [exact Hw | exact Hz]|]. split; [reflexivity|]. split.
  - exists []. rewrite app_nil_r. split; [reflexivity | constructor].
  - intros a E. destruct (Date.TimeClip _); [|discriminate].
    injection E as <-. now rewrite Hw, Hz.
Qed.

Ltac emits_side :=
  first [ exact I | reflexivity | (unfold isReply; discriminate) | idtac ].

Ltac emits :=
  cbv zeta beta;
  lazymatch goal with
  | |- Emits _ _ (ret _) _ => apply Emits_ret; emits_side
  | |- Emits _ _ (throw _) _ => apply Emits_throw
  | |- Emits _ _ (bind calcularVencimentoPadrao _) _ =>
      eapply Emits_bind; [apply Emits_calcularVencimentoPadrao | intros ? ->; emits]
  | |- Emits _ _ (bind _ _) _ => apply Emits_then; [emits | intros ?; emits]
  | |- Emits _ _ (tryCatch _ _) _ => apply Emits_tryCatch; [emits | intros ?; emits]
  | |- Emits _ _ (emit _) _ => apply Emits_emit; emits_side
  | |- Emits _ _ (ask _) _ => apply Emits_ask; intros; exact I
  | |- Emits _ _ (match ?x with _ => _ end) _ => destruct x; emits
  | |- Emits _ _ (orFallback _ _) _ => unfold orFallback; emits
  | |- Emits _ _ (always _) _ => unfold always; emits
  | |- Emits _ _ _ _ =>
      first [ solve [auto 1 with emits]
            | apply Emits_anything with (Q := isReply); solve [auto 1 with emits] ]
  end.

Create HintDb emits.
#[local] Hint Resolve Emits_getOrCreateSession Emits_updateSession : emits.

Section Handlers.

Context (tz : Date.Zone) (t : Z) (sv : Services).

Lemma Emits_setProp (target : option JValue) (key : string) (value : JValue) :
  Emits tz t (setProp target key value) anything.
Proof. unfold setProp. emits. Qed.

Lemma Emits_updateClienteData (ph key : string) (value : JValue) :
  Emits tz t (updateClienteData ph key value) anything.
Proof. pose proof Emits_setProp. unfold updateClienteData. emits. Qed.


Lemma Emits_updatePackageData (ph key : string) (value : JValue) :
  Emits tz t (updatePackageData ph key value) anything.
Proof. pose proof Emits_setProp. unfold updatePackageData. emits. Qed.

#[local] Hint Resolve Emits_setProp Emits_updateClienteData Emits_updatePackageData : emits.

Lemma Emits_checkCpfExists (cpf : string) : Emits tz t (checkCpfExists sv cpf) anything.
Proof. unfold checkCpfExists. emits. Qed.

Lemma Emits_checkTurmaExists (turmaId : string) : Emits tz t (checkTurmaExists sv turmaId) anything.
Proof. unfold checkTurmaExists. emits. Qed.

Lemma Emits_apiGetConfiguracaoTurma (v : option JValue) :
  Emits tz t (apiGetConfiguracaoTurma sv v) anything.
Proof. unfold apiGetConfiguracaoTurma. emits. Qed.

Lemma Emits_apiGetItensCustomizados (v : option JValue) :
  Emits tz t (apiGetItensCustomizados sv v) anything.
Proof. unfold apiGetItensCustomizados. emits. Qed.

Lemma Emits_dbGetConfiguracaoTurma (v : option JValue) :
  Emits tz t (dbGetConfiguracaoTurma sv v) anything.
Proof. unfold dbGetConfiguracaoTurma. emits. Qed.

Lemma Emits_dbGetItensCustomizados (c : string) :
  Emits tz t (dbGetItensCustomizados sv c) anything.
Proof. unfold dbGetItensCustomizados. emits. Qed.

Lemma Emits_createAluno (v : option JValue) (rest : string -> AlunoData) :
  Emits tz t (createAluno sv v rest) anything.
Proof. unfold createAluno. emits. Qed.

Lemma Emits_elementsOf (v : option JValue) : Emits tz t (elementsOf v) anything.
Proof. unfold elementsOf. emits. Qed.

Lemma Emits_append (v : option JValue) (x : JValue) : Emits tz t (append v x) anything.
Proof. unfold append. emits. Qed.

Lemma Emits_itemNames (v : option JValue) : Emits tz t (itemNames v) anything.
Proof.
  unfold itemNames. destruct (truthy v); [|emits].
  destruct v as [[| | | | |l|]|]; try emits.
  induction l as [|item l IH]; cbn [fold_right]; [emits|].
  destruct item; try (apply Emits_then; [exact IH | intros ?; emits]). emits.
Qed.

Lemma Emits_extrasSummary (cfg : option ConfiguracaoTurma) (l : list JValue)
    (acc : string * float) :
  Emits tz t (extrasSummary sv cfg l acc) anything.
Proof.
  revert acc. induction l as [|element l IH]; intros acc; cbn [extrasSummary]; [emits|].
  destruct element; emits.
Qed.

#[local] Hint Resolve Emits_checkCpfExists Emits_checkTurmaExists
  Emits_apiGetConfiguracaoTurma Emits_apiGetItensCustomizados
  Emits_dbGetConfiguracaoTurma Emits_dbGetItensCustomizados Emits_createAluno
  Emits_elementsOf Emits_append Emits_itemNames Emits_extrasSummary : emits.

Lemma Emits_getContractConfirmedStep (ph : string) :
  Emits tz t (getContractConfirmedStep sv ph) anything.
Proof. unfold getContractConfirmedStep. emits. Qed.

#[local] Hint Resolve Emits_getContractConfirmedStep : emits.

Lemma Emits_showCarneParcelasOptions (ph : string) (cfg : ConfiguracaoTurma) :
  Emits tz t (showCarneParcelasOptions ph cfg) anything.
Proof. unfold showCarneParcelasOptions. emits. Qed.

#[local] Hint Resolve Emits_showCarneParcelasOptions : emits.

Lemma Emits_processPaymentBoletoPix (ph : string) (cfg : ConfiguracaoTurma) :
  Emits tz t (processPaymentBoletoPix sv ph cfg) anything.
Proof. unfold processPaymentBoletoPix. emits. Qed.

#[local] Hint Resolve Emits_processPaymentBoletoPix : emits.

Lemma Emits_processPaymentCarne (ph : string) (n : Js.Number) :
  Emits tz t (processPaymentCarne sv ph n) anything.
Proof. unfold processPaymentCarne. emits. Qed.

#[local] Hint Resolve Emits_processPaymentCarne : emits.

Lemma Emits_handleContractCpf (message ph : string) :
  Emits tz t (handleContractCpf sv message ph) isReply.
Proof. unfold handleContractCpf. emits. Qed.

#[local] Hint Resolve Emits_handleContractCpf : emits.

Lemma Emits_handleClassCode (message ph : string) :
  Emits tz t (handleClassCode sv message ph) isReply.
Proof. unfold handleClassCode. emits. Qed.

#[local] Hint Resolve Emits_handleClassCode : emits.

Lemma Emits_handleName (message ph : string) :
  Emits tz t (handleName message ph) isReply.
Proof. unfold handleName. emits. Qed.

#[local] Hint Resolve Emits_handleName : emits.

Lemma Emits_handleEmail (message ph : string) :
  Emits tz t (handleEmail message ph) isReply.
Proof. unfold handleEmail. emits. Qed.

#[local] Hint Resolve Emits_handleEmail : emits.

Lemma Emits_handleCep (message ph : string) :
  Emits tz t (handleCep message ph) isReply.
Proof. unfold handleCep. emits. Qed.

#[local] Hint Resolve Emits_handleCep : emits.

Lemma Emits_handleAddress (message ph : string) :
  Emits tz t (handleAddress message ph) isReply.
Proof. unfold handleAddress. emits. Qed.

#[local] Hint Resolve Emits_handleAddress : emits.

Lemma Emits_handleNeighborhood (message ph : string) :
  Emits tz t (handleNeighborhood message ph) isReply.
Proof. unfold handleNeighborhood. emits. Qed.

#[local] Hint Resolve Emits_handleNeighborhood : emits.

Lemma Emits_handleCity (message ph : string) :
  Emits tz t (handleCity message ph) isReply.
Proof. unfold handleCity. emits. Qed.

#[local] Hint Resolve Emits_handleCity : emits.

Lemma Emits_handleState (message ph : string) :
  Emits tz t (handleState sv message ph) isReply.
Proof. unfold handleState. emits. Qed.

#[local] Hint Resolve Emits_handleState : emits.

Lemma Emits_handlePackageSelection (message ph : string) :
  Emits tz t (handlePackageSelection sv message ph) isReply.
Proof. unfold handlePackageSelection. emits. Qed.

#[local] Hint Resolve Emits_handlePackageSelection : emits.

Lemma Emits_handlePaymentMethod (message ph : string) :
  Emits tz t (handlePaymentMethod sv message ph) isReply.
Proof. unfold handlePaymentMethod. emits. Qed.

#[local] Hint Resolve Emits_handlePaymentMethod : emits.

Lemma Emits_handlePackageConfirmation (message ph : string) :
  Emits tz t (handlePackageConfirmation sv message ph) isReply.
Proof. unfold handlePackageConfirmation. emits. Qed.

#[local] Hint Resolve Emits_handlePackageConfirmation : emits.

Lemma Emits_handlePackageAlbumSize (message ph : string) :
  Emits tz t (handlePackageAlbumSize sv message ph) isReply.
Proof. unfold handlePackageAlbumSize. emits. Qed.

#[local] Hint Resolve Emits_handlePackageAlbumSize : emits.

Lemma Emits_handlePackagePhotoQuantity (message ph : string) :
  Emits tz t (handlePackagePhotoQuantity sv message ph) isReply.
Proof. unfold handlePackagePhotoQuantity. emits. Qed.

#[local] Hint Resolve Emits_handlePackagePhotoQuantity : emits.

Lemma Emits_handlePackageExtras (message ph : string) :
  Emits tz t (handlePackageExtras sv message ph) isReply.
Proof. unfold handlePackageExtras. emits. Qed.

#[local] Hint Resolve Emits_handlePackageExtras : emits.

Lemma Emits_handlePackageCustomItems (message ph : string) :
  Emits tz t (handlePackageCustomItems sv message ph) isReply.
Proof. unfold handlePackageCustomItems. emits. Qed.

#[local] Hint Resolve Emits_handlePackageCustomItems : emits.

Lemma Emits_handlePaymentMethodSelection (message ph : string) :
  Emits tz t (handlePaymentMethodSelection sv message ph) isReply.
Proof. unfold handlePaymentMethodSelection. emits. Qed.

#[local] Hint Resolve Emits_handlePaymentMethodSelection : emits.

Lemma Emits_handleCarneParcelas (message ph : string) :
  Emits tz t (handleCarneParcelas sv message ph) isReply.
Proof. unfold handleCarneParcelas. emits. Qed.

#[local] Hint Resolve Emits_handleCarneParcelas : emits.

End Handlers.

(** ** A turn, event by event *)

#[local] Hint Resolve
  Emits_setProp
  Emits_updateClienteData
  Emits_updatePackageData
  Emits_checkCpfExists
  Emits_checkTurmaExists
  Emits_apiGetConfiguracaoTurma
  Emits_apiGetItensCustomizados
  Emits_dbGetConfiguracaoTurma
  Emits_dbGetItensCustomizados
  Emits_createAluno
  Emits_elementsOf
  Emits_append
  Emits_itemNames
  Emits_extrasSummary
  Emits_getContractConfirmedStep
  Emits_showCarneParcelasOptions
  Emits_processPaymentBoletoPix
  Emits_processPaymentCarne
  Emits_handleContractCpf
  Emits_handleClassCode
  Emits_handleName
  Emits_handleEmail
  Emits_handleCep
  Emits_handleAddress
  Emits_handleNeighborhood
  Emits_handleCity
  Emits_handleState
  Emits_handlePackageSelection
  Emits_handlePaymentMethod
  Emits_handlePackageConfirmation
  Emits_handlePackageAlbumSize
  Emits_handlePackagePhotoQuantity
  Emits_handlePackageExtras
  Emits_handlePackageCustomItems
  Emits_handlePaymentMethodSelection
  Emits_handleCarneParcelas : emits.

Section Turn.

Context (tz : Date.Zone) (t : Z) (sv : Services).

Lemma Quiet_of_Emits (c : M (option ConversationStep)) : Emits tz t c isReply -> Quiet tz t c.
Proof.
  intros H w Hw Hz. destruct (H w Hw Hz) as (_ & L & (evs & T & F) & Q).
  split; [exact L|].
  exists evs. split; [exact T|]. split; [exact F|].
  intros E. exfalso. exact (Q None E eq_refl).
Qed.

Lemma Quiet_ret (r : option ConversationStep) : Quiet tz t (ret r).
Proof.
  intros w Hw Hz. split; [reflexivity|].
  exists []. split; [now rewrite app_nil_r|]. split; [constructor | reflexivity].
Qed.

Lemma Quiet_handleBillingCpf (message ph : string) : Quiet tz t (handleBillingCpf sv message ph).
Proof.
  intros w Hw Hz. unfold handleBillingCpf, exec, eval.
  rewrite bind_getOrCreateSession.
  set (s := fst (lookupSession ph w)). set (w1 := snd (lookupSession ph w)).
  destruct (now_lookupSession ph w) as (Hn & Hzone & Hl). fold w1 in Hn, Hzone, Hl.
  assert (now w1 = t) as Hw1 by congruence.
  assert (localTZA w1 = tz) as Hz1 by congruence.
  assert (trace w1 = trace w) as Ht by apply trace_lookupSession.
  destruct (negb (String.eqb (currentStep s) "billing_cpf")).
  - destruct (Quiet_ret None w1 Hw1 Hz1) as (L & evs & T & F & N).
    split; [now rewrite <- Hl|]. exists evs. rewrite <- Ht. auto.
  - match goal with |- context [bind ?c ?k w1] =>
      assert (Emits tz t (bind c k) isReply) as He by emits end.
    destruct (Quiet_of_Emits _ He w1 Hw1 Hz1) as (L & evs & T & F & N).
    split; [now rewrite <- Hl|]. exists evs. rewrite <- Ht. auto.
Qed.

Lemma Quiet_determineResponse (session : SessionContext) (message : string) :
  Quiet tz t (determineResponse sv session message).
Proof.
  unfold determineResponse, lift. cbv zeta.
  repeat (match goal with |- Quiet _ _ (if ?b then _ else _) => destruct b end;
          [first [ apply Quiet_ret | apply Quiet_handleBillingCpf
                 | apply Quiet_of_Emits; emits ] |]).
  apply Quiet_ret.
Qed.

End Turn.

(** ** The session store *)

Lemma lookupSession_idempotent (ph : string) (w : World) :
  lookupSession ph (snd (lookupSession ph w))
  = (fst (lookupSession ph w), snd (lookupSession ph w)).
Proof.
  destruct w as [p u ss ml rs ru c ks n tz tr].
  unfold lookupSession, mirror, cached, durable. cbn.
  destruct rs, ru, p, u; cbn;
    repeat (case_match; cbn in *; simplify_eq;
            rewrite ?lookup_insert_eq in *; cbn in *;
            rewrite ?jsonSession_sessionOfRow in *; simplify_eq); reflexivity.
Qed.

(** Reading a session twice: the second read returns the same session
    and changes nothing, whatever the stores hold and whether they
    answer. *)
Theorem getOrCreateSession_idempotent (ph : string) (w : World) :
  let w1 := exec (getOrCreateSession ph) w in
  eval (getOrCreateSession ph) w1 = eval (getOrCreateSession ph) w
  /\ exec (getOrCreateSession ph) w1 = w1.
Proof.
  cbv zeta. unfold eval, exec. rewrite !getOrCreateSession_run. cbn [fst snd].
  now rewrite lookupSession_idempotent.
Qed.



Lemma lookupSession_storeSession_ne (ph ph' next msg : string) d (w : World) :
  ph <> ph' ->
  fst (lookupSession ph' (storeSession ph next msg d w)) = fst (lookupSession ph' w).
Proof.
  intros Hne. destruct w as [p u ss ml rs ru c ks n tz tr].
  unfold lookupSession, storeSession, mirror, cached, durable. cbn.
  destruct rs, ru, p, u; cbn; rewrite ?lookup_insert_ne by exact Hne;
    repeat (case_match; cbn); reflexivity.
Qed.

(** Sessions are kept apart: updating the session of one phone does not
    change what is read for another. *)
Theorem updateSession_other_phone (ph ph' next msg : string)
    (d : option (gmap string JValue)) (w : World) :
  ph <> ph' ->
  eval (getOrCreateSession ph') (exec (updateSession ph next msg d) w)
  = eval (getOrCreateSession ph') w.
Proof.
  intros Hne. unfold eval, exec. rewrite updateSession_run, !getOrCreateSession_run.
  cbn [fst snd]. now rewrite lookupSession_storeSession_ne.
Qed.

Lemma updateSession_other_phone_witness :
  eval (getOrCreateSession "5598111112222")
    (exec (updateSession Scenario.phone "contract_name" "x" None)
          (Scenario.worldAt "billing_cpf" Scenario.registered))
  = eval (getOrCreateSession "5598111112222")
      (Scenario.worldAt "billing_cpf" Scenario.registered).
Proof.
  apply (updateSession_other_phone Scenario.phone "5598111112222"). discriminate.
Defined.

(** [deleteSession], in closed form: the cached copy goes when Redis
    answers, the row when the database answers. *)
Lemma deleteSession_run (ph : string) (w : World) :
  deleteSession ph w
  = (Ok tt,
     let w1 := if cached w then setCache (delete ph) w else w in
     if durable w then setSessions (delete ph) w1 else w1).
Proof.
  destruct w as [p u ss ml rs ru c ks n tz tr].
  unfold deleteSession, deleteRow, cached, durable.
  destruct rs, ru, p, u; reflexivity.
Qed.

(** [deleteSession] does not throw, and the next read starts over: it
    returns a new [welcome] session without data, whichever stores
    answer. *)
Theorem deleteSession_then_read (ph : string) (w : World) :
  eval (deleteSession ph) w = Ok tt
  /\ eval (getOrCreateSession ph) (exec (deleteSession ph) w) = Ok (welcomeSession ph).
Proof.
  unfold eval, exec. rewrite deleteSession_run. cbn [fst snd]. split; [reflexivity|].
  rewrite getOrCreateSession_run. cbn [fst]. f_equal.
  destruct w as [p u ss ml rs ru c ks n tz tr].
  unfold lookupSession, mirror, cached, durable. cbn.
  destruct rs, ru, p, u; cbn; rewrite ?lookup_delete_eq; reflexivity.
Qed.

(** ** Field handlers *)

Lemma setProp_world (target : option JValue) (k : string) (v : JValue) (w : World) :
  snd (setProp target k v w) = w.
Proof. destruct target as [[| | | | | |]|]; reflexivity. Qed.

(** [updateClienteData] swallows its errors: it always returns, after
    at most one session update that keeps the current step. *)
Lemma updateClienteData_total (ph k : string) (v : JValue) (w : World) :
  exists w',
    updateClienteData ph k v w = (Ok tt, w')
    /\ (trace w' = trace w
        \/ trace w' = trace w ++ [EvUpdateSession ph (currentStep (fst (lookupSession ph w)))]).
Proof.
  unfold updateClienteData, tryCatch. rewrite bind_getOrCreateSession.
  set (s := fst (lookupSession ph w)). set (w1 := snd (lookupSession ph w)).
  unfold bind at 1.
  pose proof (setProp_world (orElse (dataProp s "clienteData") emptyObject) k v w1) as Hw.
  destruct (setProp _ k v w1) as [[x|e] w2]; cbn [snd] in Hw; subst w2.
  - rewrite updateSession_run. eexists. split; [reflexivity|]. right.
    unfold w1. now rewrite trace_storeSession, trace_lookupSession.
  - eexists. split; [reflexivity|]. left. apply trace_lookupSession.
Qed.

(** At [contract_cpf], an input that is not a valid 11-digit CPF is
    answered with a new prompt and touches nothing: no lookup, no session
    write. A valid CPF is looked up and the reply goes to the customer
    menu when it is registered and to the cohort code when it is not. *)
Theorem contract_cpf_gate (sv : Services) (message ph : string) (w : World) :
  let cpf := Js.replaceNonDigits message in
  let valid := (Js.length cpf =? 11)%nat && isValidCPF cpf in
  (valid = false ->
   exists r, handleContractCpf sv message ph w = (Ok (Some r), w)
             /\ step r = "contract_cpf")
  /\ (valid = true ->
      exists r,
        eval (handleContractCpf sv message ph) w = Ok (Some r)
        /\ step r = (match api_checkCpfExists sv (Js.replaceNonDigits cpf) with
                     | Some _ => "existing_client_menu"
                     | None => "contract_class_code"
                     end)
        /\ last (trace (exec (handleContractCpf sv message ph) w))
           = Some (EvLookup "checkCpfExists" cpf)).
Proof.
  cbv zeta. unfold handleContractCpf, eval, exec. cbv zeta. split.
  - intros H. destruct (_ =? 11)%nat; cbn [andb] in H.
    + rewrite H. eexists. split; reflexivity.
    + destruct (0 <? _)%nat; eexists; split; reflexivity.
  - intros H. apply andb_prop in H as [-> ->].
    destruct (updateClienteData_total ph "cpf" (JStr (Js.replaceNonDigits message)) w)
      as (w' & E & _).
    rewrite (bind_run _ _ w w' tt E).
    unfold checkCpfExists. rewrite bind_bind. unfold bind at 1. cbn [emit modify].
    rewrite bind_ret.
    destruct (api_checkCpfExists sv _); cbn [ret fst snd trace record];
      (eexists; split; [reflexivity|]; split; [reflexivity|]; apply last_snoc).
Qed.

Lemma contract_cpf_gate_witness :
  (exists r,
     handleContractCpf Scenario.services "111.444.777-36" Scenario.phone Scenario.emptyWorld
       = (Ok (Some r), Scenario.emptyWorld)
     /\ step r = "contract_cpf")
  /\ (exists r,
        eval (handleContractCpf Scenario.services "111.444.777-35" Scenario.phone)
          Scenario.emptyWorld = Ok (Some r)
        /\ step r = "existing_client_menu"
        /\ last (trace (exec (handleContractCpf Scenario.services "111.444.777-35"
                               Scenario.phone) Scenario.emptyWorld))
           = Some (EvLookup "checkCpfExists" "11144477735")).
Proof.
  split.
  - exact (proj1 (contract_cpf_gate Scenario.services "111.444.777-36" Scenario.phone
                    Scenario.emptyWorld) eq_refl).
  - exact (proj2 (contract_cpf_gate Scenario.services "111.444.777-35" Scenario.phone
                    Scenario.emptyWorld) eq_refl).
Defined.

(** The handlers of the contact and address fields never throw and
    never answer [null]. Each one either asks again at its own step,
    leaving the world as it was, or moves on to the next step after
    handing one value for its own field to [updateClienteData]. *)
Theorem field_handlers_write_or_reprompt (cur next key : string)
    (h : string -> string -> M (option ConversationStep)) (message ph : string) (w : World) :
  (cur, h, next, key) ∈ fieldHandlers ->
  exists r w',
    h message ph w = (Ok (Some r), w')
    /\ ((step r = cur /\ w' = w)
        \/ (step r = next
            /\ exists v, w' = exec (updateClienteData ph key (JStr v)) w)).
Proof.
  unfold fieldHandlers. rewrite !elem_of_cons, elem_of_nil.
  intros [H|[H|[H|[H|[H|[H|[]]]]]]]; injection H as -> -> -> ->.
  - unfold handleName. cbv zeta. destruct (_ || _).
    + do 2 eexists. split; [reflexivity|]. left. split; reflexivity.
    + match goal with |- context [updateClienteData ph ?k ?v] =>
        destruct (updateClienteData_total ph k v w) as (w' & E & _) end.
      rewrite (bind_run _ _ w w' tt E). do 2 eexists. split; [reflexivity|].
      right. split; [reflexivity|]. eexists. unfold exec. now rewrite E.
  - unfold handleEmail. cbv zeta. destruct (_ || _).
    + do 2 eexists. split; [reflexivity|]. left. split; reflexivity.
    + match goal with |- context [updateClienteData ph ?k ?v] =>
        destruct (updateClienteData_total ph k v w) as (w' & E & _) end.
      rewrite (bind_run _ _ w w' tt E). do 2 eexists. split; [reflexivity|].
      right. split; [reflexivity|]. eexists. unfold exec. now rewrite E.
  - unfold handleCep. cbv zeta. destruct (negb _).
    + do 2 eexists. split; [reflexivity|]. left. split; reflexivity.
    + match goal with |- context [updateClienteData ph ?k ?v] =>
        destruct (updateClienteData_total ph k v w) as (w' & E & _) end.
      rewrite (bind_run _ _ w w' tt E). do 2 eexists. split; [reflexivity|].
      right. split; [reflexivity|]. eexists. unfold exec. now rewrite E.
  - unfold handleAddress. cbv zeta. destruct (_ || _).
    + do 2 eexists. split; [reflexivity|]. left. split; reflexivity.
    + destruct (ruaNumero _) as [rua numero]. destruct (_ || _).
      * do 2 eexists. split; [reflexivity|]. left. split; reflexivity.
      * match goal with |- context [updateClienteData ph ?k ?v] =>
          destruct (updateClienteData_total ph k v w) as (w' & E & _) end.
        rewrite (bind_run _ _ w w' tt E). do 2 eexists. split; [reflexivity|].
        right. split; [reflexivity|]. eexists. unfold exec. now rewrite E.
  - unfold handleNeighborhood. cbv zeta. destruct (_ || _).
    + do 2 eexists. split; [reflexivity|]. left. split; reflexivity.
    + match goal with |- context [updateClienteData ph ?k ?v] =>
        destruct (updateClienteData_total ph k v w) as (w' & E & _) end.
      rewrite (bind_run _ _ w w' tt E). do 2 eexists. split; [reflexivity|].
      right. split; [reflexivity|]. eexists. unfold exec. now rewrite E.
  - unfold handleCity. cbv zeta. destruct (_ || _).
    + do 2 eexists. split; [reflexivity|]. left. split; reflexivity.
    + match goal with |- context [updateClienteData ph ?k ?v] =>
        destruct (updateClienteData_total ph k v w) as (w' & E & _) end.
      rewrite (bind_run _ _ w w' tt E). do 2 eexists. split; [reflexivity|].
      right. split; [reflexivity|]. eexists. unfold exec. now rewrite E.
Qed.

Lemma field_handlers_write_or_reprompt_witness :
  exists r w',
    handleName "A" Scenario.phone Scenario.emptyWorld = (Ok (Some r), w')
    /\ ((step r = "contract_name" /\ w' = Scenario.emptyWorld)
        \/ (step r = "contract_email"
            /\ exists v, w' = exec (updateClienteData Scenario.phone "nomeCompleto" (JStr v))
                                Scenario.emptyWorld)).
Proof.
  apply (field_handlers_write_or_reprompt "contract_name" "contract_email" "nomeCompleto"
           handleName "A" Scenario.phone Scenario.emptyWorld).
  unfold fieldHandlers. apply elem_of_cons. left. reflexivity.
Defined.

(** ** Postal codes *)

Lemma replaceNonDigits_allDigits (s : string) : allDigits (Js.replaceNonDigits s) = true.
Proof.
  unfold allDigits. induction s as [|c r IH]; [reflexivity|].
  cbn [Js.replaceNonDigits]. destruct (Js.isDigit c) eqn:E; [|exact IH].
  cbn. now rewrite E, IH.
Qed.

Lemma allDigits_length (s : string) :
  allDigits s = true -> Js.length s = String.length s.
Proof.
  unfold allDigits. induction s as [|c r IH]; [reflexivity|].
  cbn [String.list_ascii_of_string forallb Js.length String.length].
  intros H. apply andb_prop in H as [Hc Hr]. rewrite (IH Hr).
  unfold Js.isDigit in Hc. apply andb_prop in Hc as [_ Hc]. apply N.leb_le in Hc.
  destruct (N.ltb_spec (Js.code c) 128) as [_|H]; [reflexivity | lia].
Qed.

Lemma replaceNonDigits_id (s : string) :
  allDigits s = true -> Js.replaceNonDigits s = s.
Proof.
  unfold allDigits. induction s as [|c r IH]; [reflexivity|].
  cbn [String.list_ascii_of_string forallb Js.replaceNonDigits].
  intros H. apply andb_prop in H as [-> Hr]. now rewrite (IH Hr).
Qed.

(** An eight-digit postal code is stored as [ddddd-ddd]: nine
    characters with the dash in sixth place, and taking the digits
    of the stored form gives back the digits typed. An input with
    another number of digits is answered with a new prompt and nothing
    is written. *)
Theorem cep_stored_form (message ph : string) (w : World) :
  let d := Js.replaceNonDigits message in
  (Js.length d = 8%nat ->
   String.length (formatCEP d) = 9%nat
   /\ String.get 5 (formatCEP d) = Some "-"%char
   /\ Js.replaceNonDigits (formatCEP d) = d
   /\ exists r,
        handleCep message ph w
          = (Ok (Some r), exec (updateClienteData ph "cep" (JStr (formatCEP d))) w)
        /\ step r = "contract_address")
  /\ (Js.length d <> 8%nat ->
      exists r, handleCep message ph w = (Ok (Some r), w) /\ step r = "contract_cep").
Proof.
  cbv zeta. split.
  - intros H8.
    pose proof (replaceNonDigits_allDigits message) as Hd.
    assert (exists r, handleCep message ph w
              = (Ok (Some r),
                 exec (updateClienteData ph "cep"
                         (JStr (formatCEP (Js.replaceNonDigits message)))) w)
              /\ step r = "contract_address") as Hh.
    { unfold handleCep. cbv zeta. rewrite H8. cbn [Nat.eqb negb].
      match goal with |- context [updateClienteData ph ?k ?v] =>
        destruct (updateClienteData_total ph k v w) as (w' & E & _) end.
      rewrite (bind_run _ _ w w' tt E). unfold exec. rewrite E.
      eexists. split; reflexivity. }
    rewrite (allDigits_length _ Hd) in H8.
    revert Hh. generalize (Js.replaceNonDigits message) Hd H8. clear.
    intros d Hd H8 Hh.
    do 9 (destruct d as [|? d]; try discriminate H8).
    unfold allDigits in Hd. cbn [String.list_ascii_of_string forallb] in Hd.
    repeat (apply andb_prop in Hd as [? Hd]).
    repeat split; try exact Hh;
      cbn [formatCEP takeDigits];
      repeat match goal with H : Js.isDigit ?c = true |- context [Js.isDigit ?c] =>
        rewrite H end;
      cbn -[Js.isDigit];
      repeat (change (String ?a ?s +:+ ?t) with (String a (s +:+ t)));
      change ("" +:+ ?t) with t;
      repeat (change (String ?a ?s +:+ ?t) with (String a (s +:+ t)));
      change ("" +:+ ?t) with t;
      cbn -[Js.isDigit];
      repeat match goal with H : Js.isDigit ?c = true |- context [Js.isDigit ?c] =>
        rewrite H end;
      reflexivity.
  - intros H. unfold handleCep. cbv zeta.
    rewrite (proj2 (Nat.eqb_neq _ _) H). cbn [negb]. eexists. split; reflexivity.
Qed.

Lemma cep_stored_form_witness :
  String.length (formatCEP "65000123") = 9%nat
  /\ String.get 5 (formatCEP "65000123") = Some "-"%char
  /\ Js.replaceNonDigits (formatCEP "65000123") = "65000123".
Proof.
  pose proof (proj1 (cep_stored_form "65.000-123" Scenario.phone Scenario.emptyWorld) eq_refl)
    as (H1 & H2 & H3 & _).
  exact (conj H1 (conj H2 H3)).
Defined.

(** ** Payments *)

Lemma tryCatch_reply {A} (tz : Date.Zone) (t : Z) (c : M A) (g : string -> A)
    (Q : A -> Prop) :
  Emits tz t c Q -> (forall e, Q (g e)) ->
  forall w, now w = t -> localTZA w = tz ->
    exists a, eval (tryCatch c (fun e => ret (g e))) w = Ok a /\ Q a.
Proof.
  intros Hc Hg w Hw Hz. destruct (Hc w Hw Hz) as (_ & _ & _ & HQ).
  unfold eval, tryCatch in *. destruct (c w) as [[a|e] w']; cbn [fst] in *.
  - eauto.
  - exists (g e). split; [reflexivity | apply Hg].
Qed.

(** Requesting a payment never throws and always ends at the main
    menu: on success with the payment details, and with an error reply
    when the session lacks data, the backend refuses or fails, or its
    answer has no installment. *)
Theorem payments_return_to_main_menu (sv : Services) (ph : string) (w : World) :
  (forall parcelas, exists r,
     eval (processPaymentCarne sv ph parcelas) w = Ok r /\ step r = "main_menu")
  /\ (forall configuracao, exists r,
        eval (processPaymentBoletoPix sv ph configuracao) w = Ok r /\ step r = "main_menu").
Proof.
  split.
  - intros parcelas. unfold processPaymentCarne.
    apply (tryCatch_reply (localTZA w) (now w)); [emits | reflexivity..].
  - intros configuracao. unfold processPaymentBoletoPix.
    apply (tryCatch_reply (localTZA w) (now w)); [emits | reflexivity..].
Qed.

Lemma parcelasOptions_ids (max : Z) :
  opt_id <$> parcelasOptions max = Js.numberToString <$> seqZ 1 max.
Proof. unfold parcelasOptions. rewrite <- list_fmap_compose. reflexivity. Qed.

Lemma dbGetConfiguracaoTurma_run (sv : Services) (v : option JValue) (w : World) :
  dbGetConfiguracaoTurma sv v w
  = (Ok (db_getConfiguracaoTurma sv (toText v)),
     record (EvLookup "db.getConfiguracaoTurma" (toText v)) w).
Proof. reflexivity. Qed.

(** The installment prompts offer the counts 1 to the cohort's
    maximum. When the cohort has no maximum (0), the first prompt offers
    only 1, while the prompt after an invalid count offers 1 to 6, as it
    does when the configuration is not found. An invalid count (not a
    number, or below 1) only reads the configuration: no payment is
    requested and nothing is stored. *)
Theorem parcelas_prompts (sv : Services) (message ph : string) (w : World)
    (s : SessionContext) :
  (forall cfg, exists r,
     showCarneParcelasOptions ph cfg w = (Ok r, w)
     /\ step r = "carne_parcelas"
     /\ optionIds r
        = Js.numberToString
            <$> seqZ 1 (if carneMaxParcelas cfg =? 0 then 1 else carneMaxParcelas cfg))
  /\ (eval (getOrCreateSession ph) w = Ok s ->
      truthy (dataProp s "clienteData") = true ->
      truthy (pacoteProp s "configuracaoTurmaId") = true ->
      invalidParcelas (Js.parseInt message) = true ->
      let turmaId := toText (clienteProp s "turmaId") in
      let max := match db_getConfiguracaoTurma sv turmaId with
                 | Some cfg => if carneMaxParcelas cfg =? 0 then 6 else carneMaxParcelas cfg
                 | None => 6
                 end in
      exists r,
        eval (handleCarneParcelas sv message ph) w = Ok (Some r)
        /\ step r = "carne_parcelas"
        /\ optionIds r = Js.numberToString <$> seqZ 1 max
        /\ trace (exec (handleCarneParcelas sv message ph) w)
           = trace w ++ [EvLookup "db.getConfiguracaoTurma" turmaId]).
Proof.
  split.
  - intros cfg. eexists. split; [reflexivity|]. split; [reflexivity|].
    unfold optionIds. cbn [optionList withOptions parcelasOptionList options].
    apply parcelasOptions_ids.
  - intros Hs Hc Hp Hbad. cbv zeta. apply eval_getOrCreateSession in Hs.
    unfold eval, exec, handleCarneParcelas.
    rewrite bind_getOrCreateSession, <- Hs. unfold pacoteProp in Hp. rewrite Hc, Hp.
    cbn [negb orb]. cbv zeta. rewrite Hbad.
    rewrite bind_getOrCreateSession, lookupSession_idempotent. cbn [fst snd].
    rewrite <- Hs, Hc.
    rewrite (bind_run _ _ _ _ _ (dbGetConfiguracaoTurma_run sv _ _)).
    cbn [ret fst snd trace record]. rewrite trace_lookupSession.
    eexists. split; [reflexivity|]. split; [reflexivity|]. split; [|reflexivity].
    unfold optionIds. cbn [optionList withOptions parcelasOptionList options].
    rewrite parcelasOptions_ids. unfold countOr, clienteProp.
    destruct (db_getConfiguracaoTurma sv _); reflexivity.
Qed.

Lemma parcelas_prompts_witness :
  exists r,
    eval (handleCarneParcelas Scenario.services "0" Scenario.phone)
      (Scenario.worldAt "carne_parcelas" Scenario.registered) = Ok (Some r)
    /\ step r = "carne_parcelas"
    /\ optionIds r = ["1"; "2"; "3"; "4"; "5"; "6"].
Proof.
  destruct (proj2 (parcelas_prompts Scenario.services "0" Scenario.phone
              (Scenario.worldAt "carne_parcelas" Scenario.registered)
              (ctxOf Scenario.phone "carne_parcelas" "" Scenario.registered))
              eq_refl eq_refl eq_refl eq_refl) as (r & E & Hs & Hi & _).
  exists r. split; [exact E|]. split; [exact Hs|]. exact Hi.
Defined.

(** ** Turns that cannot advance *)

Lemma turnStart_trace (payload : ZApiWebhookPayload) (w : World) :
  trace (snd (turnStart payload w))
  = trace w ++ [EvEngine (p_phone payload); EvLogMessage (incomingLog payload)].
Proof.
  rewrite turnStart_world, trace_logged. cbn [trace record].
  now rewrite trace_lookupSession, <- app_assoc.
Qed.

(** With no store answering (no database, or it is down, and no Redis,
    or it is down) the conversation cannot advance: every inbound
    message, whatever it says, is answered with the welcome menu, and the
    next read of the session is again a new [welcome] session. *)
Theorem no_store_every_turn_welcomes (sv : Services) (payload : ZApiWebhookPayload)
    (w : World) :
  cached w = false -> durable w = false ->
  let ph := p_phone payload in
  let w' := exec (processIncomingMessage sv payload) w in
  transition sv payload w = Ok (Some getWelcomeStep)
  /\ trace w' = trace w ++ [EvEngine ph; EvLogMessage (incomingLog payload)]
                  ++ closing sv ph (Ok (Some getWelcomeStep))
  /\ eval (getOrCreateSession ph) w' = Ok (welcomeSession ph)
  /\ cached w' = false /\ durable w' = false.
Proof.
  intros Hc Hd. cbv zeta.
  assert (forall x, cached x = false -> durable x = false ->
            lookupSession (p_phone payload) x = (welcomeSession (p_phone payload), x)) as Hl.
  { intros x Hx1 Hx2. unfold lookupSession, mirror. now rewrite Hx1, Hx2. }
  assert (transition sv payload w = Ok (Some getWelcomeStep)) as Ht.
  { unfold transition. rewrite turnStart_session, Hl by assumption. reflexivity. }
  split; [exact Ht|].
  unfold exec. rewrite processIncomingMessage_run. cbn [snd]. cbv zeta.
  unfold transition, eval in Ht.
  destruct (determineResponse sv _ _ _) as [res w1] eqn:E. cbn [fst] in Ht. subst res.
  assert (w1 = snd (turnStart payload w)) as ->.
  { revert E. rewrite turnStart_session, Hl by assumption. cbn.
    unfold lift, ret. now intros [= <-]. }
  assert (cached (snd (turnStart payload w)) = false) as Hc1
    by (rewrite turnStart_world; now autorewrite with switches).
  assert (durable (snd (turnStart payload w)) = false) as Hd1
    by (rewrite turnStart_world; now autorewrite with switches).
  unfold turnEnd. rewrite (Hl _ Hc1 Hd1). cbn [fst snd].
  set (w2 := storeSession _ _ _ _ _).
  assert (cached w2 = false) as Hc2 by (unfold w2; now autorewrite with switches).
  assert (durable w2 = false) as Hd2 by (unfold w2; now autorewrite with switches).
  split; [|split; [|split]].
  - rewrite trace_sent. unfold w2. rewrite trace_storeSession, turnStart_trace.
    cbn [closing]. rewrite <- !app_assoc. reflexivity.
  - apply eval_getOrCreateSession. rewrite lookupSession_sent, (Hl _ Hc2 Hd2). reflexivity.
  - now autorewrite with switches.
  - now autorewrite with switches.
Qed.

Lemma no_store_every_turn_welcomes_witness :
  transition Scenario.services (Scenario.textPayload "2") noStores
  = Ok (Some getWelcomeStep).
Proof.
  exact (proj1 (no_store_every_turn_welcomes Scenario.services (Scenario.textPayload "2")
                  noStores eq_refl eq_refl)).
Defined.

Lemma determineResponse_unknown (sv : Services) (s : SessionContext) (message : string) :
  currentStep s ∉ knownSteps -> determineResponse sv s message = ret None.
Proof.
  unfold knownSteps. rewrite !not_elem_of_cons. intros H.
  unfold determineResponse. cbv zeta.
  repeat (let Hne := fresh "Hne" in
          destruct H as [Hne H]; rewrite (string_eqb_false _ _ Hne)).
  reflexivity.
Qed.

(** A session whose stored step is not one the dispatcher knows gets
    no answer to any message: the inbound text is logged and nothing
    else happens, so nothing the customer sends can move the session. *)
Theorem unknown_step_never_answered (sv : Services) (payload : ZApiWebhookPayload)
    (w : World) (s : SessionContext) :
  let ph := p_phone payload in
  eval (getOrCreateSession ph) w = Ok s ->
  currentStep s ∉ knownSteps ->
  let w' := exec (processIncomingMessage sv payload) w in
  transition sv payload w = Ok None
  /\ trace w' = trace w ++ [EvEngine ph; EvLogMessage (incomingLog payload)]
  /\ eval (getOrCreateSession ph) w' = Ok s.
Proof.
  cbv zeta. intros Hs Hk. apply eval_getOrCreateSession in Hs.
  assert (determineResponse sv (fst (turnStart payload w)) (fst (messageContentOf payload))
          = ret None) as Hd.
  { apply determineResponse_unknown. now rewrite turnStart_session, <- Hs. }
  split; [unfold transition; now rewrite Hd|].
  unfold exec. rewrite processIncomingMessage_run. cbn [snd]. cbv zeta. rewrite Hd.
  cbn [ret]. split; [apply turnStart_trace|].
  apply eval_getOrCreateSession. rewrite turnStart_world.
  rewrite lookupSession_logged, lookupSession_record. cbn [fst].
  now rewrite lookupSession_idempotent.
Qed.

Lemma unknown_step_never_answered_witness :
  trace (exec (processIncomingMessage Scenario.services (Scenario.textPayload "menu"))
           (Scenario.worldAt "payment_done" None))
  = [EvEngine Scenario.phone; EvLogMessage (incomingLog (Scenario.textPayload "menu"))].
Proof.
  refine (proj1 (proj2 (unknown_step_never_answered Scenario.services
    (Scenario.textPayload "menu") (Scenario.worldAt "payment_done" None)
    (ctxOf Scenario.phone "payment_done" "" None) eq_refl _))).
  unfold knownSteps. rewrite !not_elem_of_cons. cbn.
  repeat (split; [discriminate|]). apply not_elem_of_nil.
Defined.

(** ** A cohort code that is found *)

Lemma checkTurmaExists_run (sv : Services) (turmaId : string) (w : World) :
  checkTurmaExists sv turmaId w
  = (Ok (api_checkTurmaExists sv turmaId), record (EvLookup "checkTurmaExists" turmaId) w).
Proof. reflexivity. Qed.

(** A cohort code that the partner backend knows is stored as the
    customer's [turmaId] and the conversation moves on to the name. The
    count of failed attempts is not reset by it: failures before the
    success still count towards the limit of three. *)
Theorem class_code_found (sv : Services) (message ph : string) (w : World)
    (s : SessionContext) (turma : Turma) :
  eval (getOrCreateSession ph) w = Ok s ->
  cached w || durable w = true ->
  extensible (dataProp s "clienteData") ->
  Js.trim message <> "" ->
  api_checkTurmaExists sv (Js.trim message) = Some turma ->
  let w' := exec (handleClassCode sv message ph) w in
  (exists r, eval (handleClassCode sv message ph) w = Ok (Some r)
             /\ step r = "contract_name")
  /\ exists s',
       eval (getOrCreateSession ph) w' = Ok s'
       /\ clienteProp s' "turmaId" = Some (JStr (turma_id turma))
       /\ dataProp s' "tentativasTurma" = dataProp s "tentativasTurma"
       /\ currentStep s' = currentStep s.
Proof.
  intros Hs Hup Hx Hne Hfound. cbv zeta. apply eval_getOrCreateSession in Hs.
  unfold eval, exec, handleClassCode. cbv zeta.
  rewrite (string_eqb_false _ _ Hne).
  rewrite !(bind_run _ _ _ _ _ (checkTurmaExists_run sv _ w)), Hfound.
  set (w1 := record _ w).
  assert (fst (lookupSession ph w1) = s) as Hread
    by (unfold w1; rewrite lookupSession_record; now rewrite Hs).
  change (updateClienteData ph "turmaId" (JStr (turma_id turma)))
    with (performWrite ph (WCliente "turmaId" (JStr (turma_id turma)))).
  destruct (performWrite_read ph (WCliente "turmaId" (JStr (turma_id turma))) w1)
    as (E & _ & _ & Hstep & Hdata & _).
  { unfold w1. now autorewrite with switches. }
  { now rewrite Hread. }
  rewrite Hread in Hstep, Hdata.
  rewrite !(bind_run _ _ _ _ tt (eval_exec_run _ _ _ E)). cbn [ret fst snd].
  split; [eexists; split; reflexivity|].
  eexists. split; [apply eval_getOrCreateSession; reflexivity|].
  split; [|split; [|exact Hstep]].
  - unfold clienteProp, dataProp. rewrite Hdata. unfold applyWrite.
    cbn [subRecord writeKey writeValue]. rewrite lookup_insert_eq. cbn [prop].
    apply lookup_insert_eq.
  - unfold dataProp at 1. rewrite Hdata. unfold applyWrite. cbn [subRecord].
    rewrite lookup_insert_ne by discriminate. apply dataProp_default.
Qed.

Lemma class_code_found_witness :
  exists s',
    eval (getOrCreateSession Scenario.phone)
      (exec (handleClassCode Scenario.services "t-2025" Scenario.phone)
         (Scenario.worldAt "contract_class_code" (Some {[ "tentativasTurma" := JNum 2 ]})))
      = Ok s'
    /\ clienteProp s' "turmaId" = Some (JStr "t-2025")
    /\ dataProp s' "tentativasTurma" = Some (JNum 2)
    /\ currentStep s' = "contract_class_code".
Proof.
  refine (proj2 (class_code_found Scenario.services "t-2025" Scenario.phone
    (Scenario.worldAt "contract_class_code" (Some {[ "tentativasTurma" := JNum 2 ]}))
    (ctxOf Scenario.phone "contract_class_code" ""
       (Some {[ "tentativasTurma" := JNum 2 ]}))
    Scenario.turmaDireito eq_refl eq_refl eq_refl _ eq_refl)).
  vm_compute. discriminate.
Defined.

(** ** The engine and the guards of the webhook *)

Lemma Keeps_ret {A} (a : A) : Keeps (ret a).
Proof. intros w. reflexivity. Qed.

Lemma Keeps_throw {A} (e : string) : Keeps (@throw A e).
Proof. intros w. reflexivity. Qed.

Lemma Keeps_bind {A B} (c : M A) (k : A -> M B) :
  Keeps c -> (forall a, Keeps (k a)) -> Keeps (bind c k).
Proof.
  intros Hc Hk w. specialize (Hc w). unfold exec, bind in *.
  destruct (c w) as [[a|e] w1]; cbn [snd] in *; [|exact Hc].
  specialize (Hk a w1). unfold exec in Hk. now rewrite Hk.
Qed.

Lemma Keeps_tryCatch {A} (c : M A) (h : string -> M A) :
  Keeps c -> (forall e, Keeps (h e)) -> Keeps (tryCatch c h).
Proof.
  intros Hc Hh w. specialize (Hc w). unfold exec, tryCatch in *.
  destruct (c w) as [[a|e] w1]; cbn [snd] in *; [exact Hc|].
  specialize (Hh e w1). unfold exec in Hh. now rewrite Hh.
Qed.

Lemma Keeps_ask {A} (f : World -> A) : Keeps (ask f).
Proof. intros w. reflexivity. Qed.

Lemma Keeps_emit (e : Event) : Keeps (emit e).
Proof. intros w. reflexivity. Qed.

Lemma guard_lookupSession (ph : string) (w : World) :
  guard (snd (lookupSession ph w)) = guard w.
Proof.
  destruct w as [p u ss ml rs ru c ks n tz tr].
  unfold lookupSession, mirror, cached, durable. cbn.
  destruct rs, ru, p, u; cbn; repeat (case_match; cbn); reflexivity.
Qed.

Lemma guard_storeSession (ph next msg : string) d (w : World) :
  guard (storeSession ph next msg d w) = guard w.
Proof. unfold storeSession. destruct (cached w), (durable w); reflexivity. Qed.

Lemma guard_logged (l : MessageLog) (w : World) : guard (logged l w) = guard w.
Proof. unfold logged. destruct (durable w); reflexivity. Qed.

Lemma Keeps_getOrCreateSession (ph : string) : Keeps (getOrCreateSession ph).
Proof. intros w. unfold exec. rewrite getOrCreateSession_run. apply guard_lookupSession. Qed.

Lemma Keeps_updateSession (ph next msg : string) d : Keeps (updateSession ph next msg d).
Proof. intros w. unfold exec. rewrite updateSession_run. apply guard_storeSession. Qed.

Lemma Keeps_logMessage (sv : Services) (l : MessageLog) : Keeps (logMessage l).
Proof. intros w. unfold exec. rewrite logMessage_run. apply guard_logged. Qed.

Ltac keeps :=
  cbv zeta beta;
  lazymatch goal with
  | |- Keeps (ret _) => apply Keeps_ret
  | |- Keeps (throw _) => apply Keeps_throw
  | |- Keeps (bind _ _) => apply Keeps_bind; [keeps | intros ?; keeps]
  | |- Keeps (tryCatch _ _) => apply Keeps_tryCatch; [keeps | intros ?; keeps]
  | |- Keeps (emit _) => apply Keeps_emit
  | |- Keeps (ask _) => apply Keeps_ask
  | |- Keeps (match ?x with _ => _ end) => destruct x; keeps
  | |- Keeps (orFallback _ _) => unfold orFallback; keeps
  | |- Keeps (always _) => unfold always; keeps
  | |- Keeps (lift _) => apply Keeps_ret
  | |- Keeps _ => solve [auto 1 with keeps]
  end.

Create HintDb keeps.
#[local] Hint Resolve Keeps_getOrCreateSession Keeps_updateSession Keeps_logMessage : keeps.

Section Kept.

Context (sv : Services).

Lemma Keeps_setProp (target : option JValue) (key : string) (value : JValue) :
  Keeps (setProp target key value).
Proof. unfold setProp. keeps. Qed.

#[local] Hint Resolve Keeps_setProp : keeps.

Lemma Keeps_calcularVencimentoPadrao : Keeps calcularVencimentoPadrao.
Proof. unfold calcularVencimentoPadrao. keeps. Qed.

#[local] Hint Resolve Keeps_calcularVencimentoPadrao : keeps.

Lemma Keeps_updateClienteData (ph key : string) (value : JValue) :
  Keeps (updateClienteData ph key value).
Proof. unfold updateClienteData. keeps. Qed.

#[local] Hint Resolve Keeps_updateClienteData : keeps.

Lemma Keeps_updatePackageData (ph key : string) (value : JValue) :
  Keeps (updatePackageData ph key value).
Proof. unfold updatePackageData. keeps. Qed.

#[local] Hint Resolve Keeps_updatePackageData : keeps.

Lemma Keeps_checkCpfExists (cpf : string) :
  Keeps (checkCpfExists sv cpf).
Proof. unfold checkCpfExists. keeps. Qed.

#[local] Hint Resolve Keeps_checkCpfExists : keeps.

Lemma Keeps_checkTurmaExists (turmaId : string) :
  Keeps (checkTurmaExists sv turmaId).
Proof. unfold checkTurmaExists. keeps. Qed.

#[local] Hint Resolve Keeps_checkTurmaExists : keeps.

Lemma Keeps_apiGetConfiguracaoTurma (v : option JValue) :
  Keeps (apiGetConfiguracaoTurma sv v).
Proof. unfold apiGetConfiguracaoTurma. keeps. Qed.

#[local] Hint Resolve Keeps_apiGetConfiguracaoTurma : keeps.

Lemma Keeps_apiGetItensCustomizados (v : option JValue) :
  Keeps (apiGetItensCustomizados sv v).
Proof. unfold apiGetItensCustomizados. keeps. Qed.

#[local] Hint Resolve Keeps_apiGetItensCustomizados : keeps.

Lemma Keeps_dbGetConfiguracaoTurma (v : option JValue) :
  Keeps (dbGetConfiguracaoTurma sv v).
Proof. unfold dbGetConfiguracaoTurma. keeps. Qed.

#[local] Hint Resolve Keeps_dbGetConfiguracaoTurma : keeps.

Lemma Keeps_dbGetItensCustomizados (c : string) :
  Keeps (dbGetItensCustomizados sv c).
Proof. unfold dbGetItensCustomizados. keeps. Qed.

#[local] Hint Resolve Keeps_dbGetItensCustomizados : keeps.

Lemma Keeps_createAluno (v : option JValue) (rest : string -> AlunoData) :
  Keeps (createAluno sv v rest).
Proof. unfold createAluno. keeps. Qed.

#[local] Hint Resolve Keeps_createAluno : keeps.

Lemma Keeps_elementsOf (v : option JValue) :
  Keeps (elementsOf v).
Proof. unfold elementsOf. keeps. Qed.

#[local] Hint Resolve Keeps_elementsOf : keeps.

Lemma Keeps_append (v : option JValue) (x : JValue) :
  Keeps (append v x).
Proof. unfold append. keeps. Qed.

#[local] Hint Resolve Keeps_append : keeps.

Lemma Keeps_itemNames (v : option JValue) :
  Keeps (itemNames v).
Proof.
  unfold itemNames. destruct (truthy v); [|keeps].
  destruct v as [[| | | | |l|]|]; try keeps.
  induction l as [|item l IH]; cbn [fold_right]; [keeps|].
  destruct item; keeps.
Qed.

#[local] Hint Resolve Keeps_itemNames : keeps.

Lemma Keeps_extrasSummary (cfg : option ConfiguracaoTurma) (l : list JValue)
    (acc : string * float) :
  Keeps (extrasSummary sv cfg l acc).
Proof.
  revert acc. induction l as [|element l IH]; intros acc; cbn [extrasSummary]; [keeps|].
  destruct element; keeps.
Qed.

#[local] Hint Resolve Keeps_extrasSummary : keeps.

Lemma Keeps_getContractConfirmedStep (ph : string) :
  Keeps (getContractConfirmedStep sv ph).
Proof. unfold getContractConfirmedStep. keeps. Qed.

#[local] Hint Resolve Keeps_getContractConfirmedStep : keeps.

Lemma Keeps_showCarneParcelasOptions (ph : string) (cfg : ConfiguracaoTurma) :
  Keeps (showCarneParcelasOptions ph cfg).
Proof. unfold showCarneParcelasOptions. keeps. Qed.

#[local] Hint Resolve Keeps_showCarneParcelasOptions : keeps.

Lemma Keeps_processPaymentBoletoPix (ph : string) (cfg : ConfiguracaoTurma) :
  Keeps (processPaymentBoletoPix sv ph cfg).
Proof. unfold processPaymentBoletoPix. keeps. Qed.

#[local] Hint Resolve Keeps_processPaymentBoletoPix : keeps.

Lemma Keeps_processPaymentCarne (ph : string) (n : Js.Number) :
  Keeps (processPaymentCarne sv ph n).
Proof. unfold processPaymentCarne. keeps. Qed.

#[local] Hint Resolve Keeps_processPaymentCarne : keeps.

Lemma Keeps_handleContractCpf (message ph : string) :
  Keeps (handleContractCpf sv message ph).
Proof. unfold handleContractCpf. keeps. Qed.

#[local] Hint Resolve Keeps_handleContractCpf : keeps.

Lemma Keeps_handleClassCode (message ph : string) :
  Keeps (handleClassCode sv message ph).
Proof. unfold handleClassCode. keeps. Qed.

#[local] Hint Resolve Keeps_handleClassCode : keeps.

Lemma Keeps_handleName (message ph : string) :
  Keeps (handleName message ph).
Proof. unfold handleName. keeps. Qed.

#[local] Hint Resolve Keeps_handleName : keeps.

Lemma Keeps_handleEmail (message ph : string) :
  Keeps (handleEmail message ph).
Proof. unfold handleEmail. keeps. Qed.

#[local] Hint Resolve Keeps_handleEmail : keeps.

Lemma Keeps_handleCep (message ph : string) :
  Keeps (handleCep message ph).
Proof. unfold handleCep. keeps. Qed.

#[local] Hint Resolve Keeps_handleCep : keeps.

Lemma Keeps_handleAddress (message ph : string) :
  Keeps (handleAddress message ph).
Proof. unfold handleAddress. keeps. Qed.

#[local] Hint Resolve Keeps_handleAddress : keeps.

Lemma Keeps_handleNeighborhood (message ph : string) :
  Keeps (handleNeighborhood message ph).
Proof. unfold handleNeighborhood. keeps. Qed.

#[local] Hint Resolve Keeps_handleNeighborhood : keeps.

Lemma Keeps_handleCity (message ph : string) :
  Keeps (handleCity message ph).
Proof. unfold handleCity. keeps. Qed.

#[local] Hint Resolve Keeps_handleCity : keeps.

Lemma Keeps_handleState (message ph : string) :
  Keeps (handleState sv message ph).
Proof. unfold handleState. keeps. Qed.

#[local] Hint Resolve Keeps_handleState : keeps.

Lemma Keeps_handlePackageSelection (message ph : string) :
  Keeps (handlePackageSelection sv message ph).
Proof. unfold handlePackageSelection. keeps. Qed.

#[local] Hint Resolve Keeps_handlePackageSelection : keeps.

Lemma Keeps_handlePaymentMethod (message ph : string) :
  Keeps (handlePaymentMethod sv message ph).
Proof. unfold handlePaymentMethod. keeps. Qed.

#[local] Hint Resolve Keeps_handlePaymentMethod : keeps.

Lemma Keeps_handlePackageConfirmation (message ph : string) :
  Keeps (handlePackageConfirmation sv message ph).
Proof. unfold handlePackageConfirmation. keeps. Qed.

#[local] Hint Resolve Keeps_handlePackageConfirmation : keeps.

Lemma Keeps_handlePackageAlbumSize (message ph : string) :
  Keeps (handlePackageAlbumSize sv message ph).
Proof. unfold handlePackageAlbumSize. keeps. Qed.

#[local] Hint Resolve Keeps_handlePackageAlbumSize : keeps.

Lemma Keeps_handlePackagePhotoQuantity (message ph : string) :
  Keeps (handlePackagePhotoQuantity sv message ph).
Proof. unfold handlePackagePhotoQuantity. keeps. Qed.

#[local] Hint Resolve Keeps_handlePackagePhotoQuantity : keeps.

Lemma Keeps_handlePackageExtras (message ph : string) :
  Keeps (handlePackageExtras sv message ph).
Proof. unfold handlePackageExtras. keeps. Qed.

#[local] Hint Resolve Keeps_handlePackageExtras : keeps.

Lemma Keeps_handlePackageCustomItems (message ph : string) :
  Keeps (handlePackageCustomItems sv message ph).
Proof. unfold handlePackageCustomItems. keeps. Qed.

#[local] Hint Resolve Keeps_handlePackageCustomItems : keeps.

Lemma Keeps_handlePaymentMethodSelection (message ph : string) :
  Keeps (handlePaymentMethodSelection sv message ph).
Proof. unfold handlePaymentMethodSelection. keeps. Qed.

#[local] Hint Resolve Keeps_handlePaymentMethodSelection : keeps.

Lemma Keeps_handleCarneParcelas (message ph : string) :
  Keeps (handleCarneParcelas sv message ph).
Proof. unfold handleCarneParcelas. keeps. Qed.

#[local] Hint Resolve Keeps_handleCarneParcelas : keeps.


Lemma Keeps_handleBillingCpf (message ph : string) : Keeps (handleBillingCpf sv message ph).
Proof. unfold handleBillingCpf. keeps. Qed.

#[local] Hint Resolve Keeps_handleBillingCpf : keeps.

Lemma Keeps_determineResponse (session : SessionContext) (message : string) :
  Keeps (determineResponse sv session message).
Proof. unfold determineResponse. keeps. Qed.

Lemma Keeps_sendResponse (ph : string) (r : ConversationStep) : Keeps (sendResponse sv ph r).
Proof. pose proof (Keeps_logMessage sv). unfold sendResponse, sendMessage. keeps. Qed.

#[local] Hint Resolve Keeps_determineResponse Keeps_sendResponse : keeps.

Lemma Keeps_processIncomingMessage (payload : ZApiWebhookPayload) :
  Keeps (processIncomingMessage sv payload).
Proof. pose proof (Keeps_logMessage sv). unfold processIncomingMessage. keeps. Qed.

End Kept.

(** A turn of the engine never sets or deletes a guard key of the
    webhook: the engine touches Redis only for the session of the
    phone, and the idempotency, debounce and lock keys are after the turn
    what they were before it, whatever the message, the session and the
    services. *)
Theorem turn_keeps_guard (sv : Services) (payload : ZApiWebhookPayload) (w : World) :
  keys (exec (processIncomingMessage sv payload) w) = keys w.
Proof.
  pose proof (Keeps_processIncomingMessage sv payload w) as H.
  unfold guard in H. now injection H as ->.
Qed.

(** ** Properties of a turn *)

Lemma now_logged (l : MessageLog) (w : World) :
  now (logged l w) = now w /\ localTZA (logged l w) = localTZA w.
Proof. unfold logged. destruct (durable w); split; reflexivity. Qed.

Lemma message_logs_logged (l : MessageLog) (w : World) :
  message_logs (logged l w) = message_logs w ++ (if durable w then [l] else []).
Proof. unfold logged. destruct (durable w); cbn; [reflexivity | now rewrite app_nil_r]. Qed.

(** The rows a turn adds to the message log after the transition: the
    outgoing one, when there is a reply, its send succeeded and the
    database answers. *)
Lemma message_logs_sent (sv : Services) (ph : string) (r : ConversationStep) (w : World) :
  message_logs (sent sv ph r w)
  = message_logs w
    ++ (if zapi_sendMessage sv (requestOf ph r) && durable w then [outgoingLog ph r] else []).
Proof.
  unfold sent. destruct (zapi_sendMessage sv _); cbn [andb].
  - rewrite message_logs_logged. now rewrite durable_record.
  - cbn. now rewrite app_nil_r.
Qed.

(** The events of a turn: entering the engine, the inbound log, what
    the transition does, and the closing update, send and log. The rows
    of the message log: the inbound one and the outgoing one, as far as
    the database answers. *)
Lemma turn_trace (sv : Services) (payload : ZApiWebhookPayload) (w : World) :
  let ph := p_phone payload in
  let w' := exec (processIncomingMessage sv payload) w in
  exists evs,
    Forall (handlerEvent (localTZA w) (now w)) evs
    /\ (transition sv payload w = Ok None -> evs = [])
    /\ trace w' = trace w ++ [EvEngine ph; EvLogMessage (incomingLog payload)] ++ evs
                    ++ closing sv ph (transition sv payload w)
    /\ message_logs w'
       = message_logs w
         ++ (if durable w then [incomingLog payload] else [])
         ++ match transition sv payload w with
            | Ok (Some r) =>
                if zapi_sendMessage sv (requestOf ph r) && durable w
                then [outgoingLog ph r] else []
            | _ => []
            end.
Proof.
  cbv zeta. unfold exec at 1 2. rewrite processIncomingMessage_run. cbn [snd]. cbv zeta.
  unfold transition.
  set (start := turnStart payload w).
  assert (now (snd start) = now w /\ localTZA (snd start) = localTZA w) as [Hn Hz].
  { unfold start. rewrite turnStart_world.
    destruct (now_logged (incomingLog payload)
                (record (EvEngine (p_phone payload)) (snd (lookupSession (p_phone payload) w))))
      as [-> ->].
    cbn [now localTZA record]. destruct (now_lookupSession (p_phone payload) w) as (-> & -> & _).
    split; reflexivity. }
  assert (trace (snd start)
          = trace w ++ [EvEngine (p_phone payload); EvLogMessage (incomingLog payload)]) as Ht.
  { unfold start. rewrite turnStart_world, trace_logged. cbn [trace record].
    now rewrite trace_lookupSession, <- app_assoc. }
  assert (message_logs (snd start)
          = message_logs w ++ (if durable w then [incomingLog payload] else [])) as Hl.
  { unfold start. rewrite turnStart_world, message_logs_logged.
    rewrite durable_record, durable_lookupSession. cbn [message_logs record].
    now destruct (now_lookupSession (p_phone payload) w) as (_ & _ & ->). }
  assert (durable (snd start) = durable w) as Hd.
  { unfold start. rewrite turnStart_world. now autorewrite with switches. }
  destruct (Quiet_determineResponse (localTZA w) (now w) sv (fst start)
              (fst (messageContentOf payload)) (snd start) Hn Hz) as (L & evs & T & F & N).
  exists evs. split; [exact F|]. split; [exact N|].
  pose proof (Keeps_determineResponse sv (fst start) (fst (messageContentOf payload))
                (snd start)) as Hk.
  unfold exec, eval in *.
  destruct (determineResponse sv _ _ _) as [[[r|]|e] w'] eqn:Ew; cbn [fst snd closing] in *.
  - unfold turnEnd. split.
    + rewrite trace_sent, trace_storeSession, trace_lookupSession, T, Ht.
      rewrite <- !app_assoc. reflexivity.
    + rewrite message_logs_sent.
      destruct (now_storeSession (p_phone payload) (step r) (fst (messageContentOf payload))
                  (data (fst (lookupSession (p_phone payload) w')))
                  (snd (lookupSession (p_phone payload) w'))) as (_ & _ & ->).
      destruct (now_lookupSession (p_phone payload) w') as (_ & _ & ->).
      rewrite durable_storeSession, durable_lookupSession.
      assert (durable w' = durable w) as ->.
      { rewrite <- Hd. unfold durable. unfold guard in Hk.
        now injection Hk as _ _ _ -> -> _ _. }
      rewrite L, Hl, <- app_assoc. reflexivity.
  - split; [rewrite T, Ht, app_nil_r, <- !app_assoc; reflexivity|].
    rewrite L, Hl, app_nil_r. reflexivity.
  - split; [rewrite T, Ht, app_nil_r, <- !app_assoc; reflexivity|].
    rewrite L, Hl, app_nil_r. reflexivity.
Qed.

Lemma handlerEvent_sends (tz : Date.Zone) (t : Z) (evs : list Event) :
  Forall (handlerEvent tz t) evs -> sends evs = [].
Proof.
  unfold sends. induction 1 as [|e evs He _ IH]; [reflexivity|].
  destruct e; cbn in *; try contradiction; exact IH.
Qed.

Lemma handlerEvent_logWrites (tz : Date.Zone) (t : Z) (d : Direction) (evs : list Event) :
  Forall (handlerEvent tz t) evs -> logWrites d evs = [].
Proof.
  unfold logWrites. induction 1 as [|e evs He _ IH]; [reflexivity|].
  destruct e; cbn in *; try contradiction; exact IH.
Qed.

Lemma handlerEvent_carneRequests (tz : Date.Zone) (t : Z) (evs : list Event) :
  Forall (handlerEvent tz t) evs ->
  Forall (fun r => vencimentoPrimeiraParcela r = dueDate tz t) (carneRequests evs).
Proof.
  unfold carneRequests. induction 1 as [|e evs He _ IH]; [constructor|].
  destruct e; cbn in *; try exact IH. now constructor.
Qed.

Lemma carneRequests_closing (sv : Services) (ph : string) res :
  carneRequests (closing sv ph res) = [].
Proof.
  destruct res as [[r|]|e]; try reflexivity. cbn.
  destruct (zapi_sendMessage sv _); reflexivity.
Qed.



(** ** Due dates *)

(** Every installment-plan request made during a turn, whatever the
    message and the session, carries as first due date what
    [calcularVencimentoPadrao] gives at the time of the turn: the UTC
    calendar date of the instant seven calendar days later at the same
    local time of day. In a zone that keeps one offset this is the UTC
    date seven days after the turn. *)
Theorem carne_requests_due_in_a_week (sv : Services) (payload : ZApiWebhookPayload)
    (w : World) :
  exists new,
    trace (exec (processIncomingMessage sv payload) w) = trace w ++ new
    /\ Forall (fun r => vencimentoPrimeiraParcela r = dueDate (localTZA w) (now w))
         (carneRequests new)
    /\ (fixedOffset (localTZA w) ->
        Forall (fun r => vencimentoPrimeiraParcela r = Date.isoDate (Date.Day (now w) + 7))
          (carneRequests new)).
Proof.
  destruct (turn_trace sv payload w) as (evs & F & _ & T & _).
  eexists. split; [exact T|].
  assert (Forall (fun r => vencimentoPrimeiraParcela r = dueDate (localTZA w) (now w))
            (carneRequests
               ([EvEngine (p_phone payload); EvLogMessage (incomingLog payload)] ++ evs
                ++ closing sv (p_phone payload) (transition sv payload w)))) as H.
  { unfold carneRequests. rewrite !omap_app. fold (carneRequests evs).
    fold (carneRequests (closing sv (p_phone payload) (transition sv payload w))).
    rewrite carneRequests_closing, app_nil_r. cbn [omap list_omap app].
    apply (handlerEvent_carneRequests _ _ _ F). }
  split; [exact H|].
  intros Hfix. eapply Forall_impl; [exact H|]. intros r ->.
  unfold dueDate. now rewrite week_fixedOffset, Day_week.
Qed.

Lemma carne_requests_due_in_a_week_witness :
  let w := Scenario.worldAt "carne_parcelas" Scenario.registered in
  let w' := exec (processIncomingMessage Scenario.services (Scenario.textPayload "3")) w in
  exists new,
    trace w' = trace w ++ new
    /\ Forall (fun r => vencimentoPrimeiraParcela r = "2026-11-09") (carneRequests new).
Proof.
  cbv zeta.
  destruct (carne_requests_due_in_a_week Scenario.services (Scenario.textPayload "3")
              (Scenario.worldAt "carne_parcelas" Scenario.registered)) as (new & T & _ & H).
  exists new. split; [exact T|].
  exact (H (fun t t' b b' => eq_refl)).
Defined.

(** In a zone that keeps one offset [calcularVencimentoPadrao] answers
    the UTC calendar date of the instant seven days ahead, whatever the
    offset is, and throws when that instant is outside the range of
    dates. *)
Theorem calcularVencimentoPadrao_week (w : World) :
  fixedOffset (localTZA w) ->
  calcularVencimentoPadrao w
  = (if Z.abs (now w + 7 * Date.msPerDay) <=? 8640000000000000
     then Ok (Date.isoDate (Date.Day (now w) + 7))
     else Throw "Invalid time value", w).
Proof.
  intros Hfix. rewrite calcularVencimentoPadrao_run. unfold dueDate.
  rewrite week_fixedOffset by exact Hfix. unfold Date.TimeClip.
  destruct (_ <=? _); [|reflexivity]. now rewrite Day_week.
Qed.

Lemma calcularVencimentoPadrao_week_witness :
  calcularVencimentoPadrao Scenario.emptyWorld = (Ok "2026-11-09", Scenario.emptyWorld).
Proof.
  rewrite (calcularVencimentoPadrao_week Scenario.emptyWorld)
    by (intros t t' b b'; reflexivity).
  reflexivity.
Defined.

(** **C10.** The first due date is not always seven days after the
    current date. The due date is computed from the local date
    ([setDate(getDate() + 7)]) and printed as a UTC date
    ([toISOString]): on the evening of 2026-10-28 in New York, a day
    that is 2026-10-28 in local time and in UTC alike, an installment
    plan is requested with the first due date 2026-11-05, eight days
    later. *)
Theorem due_date_eight_days_ahead :
  let w := Scenario.newYorkEvening "carne_parcelas" Scenario.registered in
  let w' := exec (processIncomingMessage Scenario.services (Scenario.textPayload "3")) w in
  Date.isoDate (Date.Day (now w)) = "2026-10-28"
  /\ Date.isoDate (Date.Day (Date.LocalTime (localTZA w) (now w))) = "2026-10-28"
  /\ Date.isoDate (Date.Day (now w) + 7) = "2026-11-04"
  /\ vencimentoPrimeiraParcela <$> carneRequests (trace w') = ["2026-11-05"].
Proof. vm_compute. repeat split. Qed.

(** ** Deliveries *)

Lemma setIfNotExists_up (key : string) (w : World) :
  redis_up w = true ->
  Redis.setIfNotExists key w = (Ok (fst (acquire key w)), snd (acquire key w)).
Proof.
  intros H. unfold Redis.setIfNotExists, Redis.isAvailable, acquire, bind, ask. rewrite H.
  destruct (bool_decide _); reflexivity.
Qed.

Lemma acquire_redisUp (key : string) (w : World) : redisUp w -> redisUp (snd (acquire key w)).
Proof. unfold acquire, redisUp. destruct (bool_decide _); auto. Qed.

Lemma acquire_key (key : string) (w : World) : key ∈ keys (snd (acquire key w)).
Proof.
  unfold acquire. destruct (bool_decide _) eqn:E; cbn.
  - now apply bool_decide_eq_true in E.
  - set_solver.
Qed.

Lemma acquire_keeps (key K : string) (w : World) :
  K ∈ keys w -> K ∈ keys (snd (acquire key w)).
Proof. unfold acquire. destruct (bool_decide _); cbn; set_solver. Qed.

Lemma acquire_held (key : string) (w : World) :
  key ∈ keys w -> acquire key w = (false, w).
Proof. intros H. unfold acquire. now rewrite bool_decide_eq_true_2. Qed.

Lemma acquire_trace (key : string) (w : World) : trace (snd (acquire key w)) = trace w.
Proof. unfold acquire. destruct (bool_decide _); reflexivity. Qed.

Lemma delete_up (key : string) (w : World) :
  redis_up w = true ->
  Redis.delete key w = (Ok true, setKeys (fun ks => ks ∖ {[key]}) w).
Proof. intros H. unfold Redis.delete, Redis.isAvailable, bind, ask. now rewrite H. Qed.

Lemma processIncomingMessage_ok (sv : Services) (payload : ZApiWebhookPayload) (w : World) :
  processIncomingMessage sv payload w = (Ok tt, exec (processIncomingMessage sv payload) w).
Proof. unfold exec. now rewrite processIncomingMessage_run. Qed.

Lemma lockKey_ne_deliveryKey (sv : Services) (payload : ZApiWebhookPayload) :
  deliveryKey sv payload <> lockKey payload.
Proof.
  unfold deliveryKey, lockKey, msgKey, debounceKey.
  destruct (orString _ _); discriminate.
Qed.

Lemma guard_redis_up (w' w : World) : guard w' = guard w -> redis_up w' = redis_up w.
Proof. unfold guard. intros H. now injection H. Qed.

Lemma guard_keys (w' w : World) : guard w' = guard w -> keys w' = keys w.
Proof. unfold guard. intros H. now injection H. Qed.

Lemma debounceKey_content (sv : Services) (payload : ZApiWebhookPayload) (content : string) :
  debounceContent payload = Some content ->
  "zapi:debounce:"
  +:+ base64 sv (p_phone payload +:+ "|" +:+ p_type payload +:+ "|" +:+ content)
  = debounceKey sv payload.
Proof. intros E. unfold debounceKey. now rewrite E. Qed.

(** The webhook after the debounce key was tried, under working guards. *)
Lemma handleWebhook_locked (sv : Services) (payload : ZApiWebhookPayload) (w2 : World) :
  redisUp w2 ->
  (if isUserMessage payload then
     await locked <- Redis.setIfNotExists ("zapi:lock:" +:+ p_phone payload) ;
     if negb locked then ret Locked
     else
       await outcome <-
         tryCatch (call processIncomingMessage sv payload ; ret None)
                  (fun e => ret (Some e)) ;
       call Redis.delete ("zapi:lock:" +:+ p_phone payload) ;
       match outcome with
       | None => ret Success
       | Some e => throw e
       end
   else ret Success) w2
  = if isUserMessage payload then
      let lock := acquire (lockKey payload) w2 in
      if negb (fst lock) then (Ok Locked, snd lock)
      else
        (Ok Success,
         setKeys (fun ks => ks ∖ {[lockKey payload]})
           (exec (processIncomingMessage sv payload) (snd lock)))
    else (Ok Success, w2).
Proof.
  intros Hup2. destruct (isUserMessage payload); [|reflexivity]. cbv zeta iota.
  change ("zapi:lock:" +:+ p_phone payload) with (lockKey payload).
  rewrite (bind_run _ _ _ _ _ (setIfNotExists_up _ _ (proj2 Hup2))).
  pose proof (acquire_redisUp (lockKey payload) w2 Hup2) as Hup3.
  set (w3 := snd (acquire (lockKey payload) w2)) in *.
  destruct (fst (acquire (lockKey payload) w2)); cbn [negb]; [|reflexivity].
  assert (redis_up (exec (processIncomingMessage sv payload) w3) = true) as Hr.
  { rewrite (guard_redis_up _ _ (Keeps_processIncomingMessage sv payload w3)).
    apply Hup3. }
  rewrite (bind_run _ _ w3 (exec (processIncomingMessage sv payload) w3) None).
  2:{ apply tryCatch_run.
      now rewrite (bind_run _ _ _ _ _ (processIncomingMessage_ok sv payload w3)). }
  now rewrite (bind_run _ _ _ _ _ (delete_up _ _ Hr)).
Qed.

(** The webhook under working guards, in closed form. *)
Lemma handleWebhook_up (sv : Services) (payload : ZApiWebhookPayload) (w : World) :
  accepted payload -> redisUp w ->
  handleWebhook sv payload w
  = let dup :=
      match orString (messageId payload) (p_id payload) with
      | Some id => (negb (fst (acquire (msgKey id) w)), snd (acquire (msgKey id) w))
      | None => (false, w)
      end in
    if fst dup then (Ok Deduped, snd dup)
    else
      match debounceContent payload with
      | None => (Ok (ServerError conversionError), snd dup)
      | Some _ =>
          let deb := acquire (debounceKey sv payload) (snd dup) in
          if negb (fst deb) then (Ok Debounced, snd deb)
          else if isUserMessage payload then
            let lock := acquire (lockKey payload) (snd deb) in
            if negb (fst lock) then (Ok Locked, snd lock)
            else
              (Ok Success,
               setKeys (fun ks => ks ∖ {[lockKey payload]})
                 (exec (processIncomingMessage sv payload) (snd lock)))
          else (Ok Success, snd deb)
      end.
Proof.
  intros (Hph & Hty & Hme) Hup. unfold handleWebhook.
  rewrite (string_eqb_false _ _ Hph), (string_eqb_false _ _ Hty), Hme. cbn [orb].
  unfold tryCatch at 1.
  rewrite (bind_run (ask redisService) _ w w true)
    by (unfold ask; now rewrite (proj1 Hup)).
  cbv zeta.
  assert (forall (x : World) (k : bool -> M WebhookResponse) key,
            redisUp x ->
            bind (Redis.setIfNotExists key) k x = k (fst (acquire key x)) (snd (acquire key x)))
    as Hset.
  { intros x k key Hx. apply bind_run, setIfNotExists_up, Hx. }
  assert (forall x, redisUp x ->
            match
              bind
                match debounceContent payload with
                | Some content =>
                    await ok <- Redis.setIfNotExists
                                  ("zapi:debounce:"
                                   +:+ base64 sv (p_phone payload +:+ "|" +:+ p_type payload
                                                  +:+ "|" +:+ content)) ;
                    ret (negb ok)
                | None => throw conversionError
                end
                (fun repeated : bool =>
                   if repeated then ret Debounced
                   else if isUserMessage payload then
                     let lockKey := "zapi:lock:" +:+ p_phone payload in
                     if true then
                       await locked <- Redis.setIfNotExists lockKey ;
                       if negb locked then ret Locked
                       else
                         await outcome <-
                           tryCatch (call processIncomingMessage sv payload ; ret None)
                                    (fun e => ret (Some e)) ;
                         call Redis.delete lockKey ;
                         match outcome with
                         | None => ret Success
                         | Some e => throw e
                         end
                     else
                       call processIncomingMessage sv payload ;
                       ret Success
                   else ret Success) x
            with
            | (Ok a, w') => (Ok a, w')
            | (Throw e, w') => ret (ServerError e) w'
            end
            = match debounceContent payload with
              | None => (Ok (ServerError conversionError), x)
              | Some _ =>
                  let deb := acquire (debounceKey sv payload) x in
                  if negb (fst deb) then (Ok Debounced, snd deb)
                  else if isUserMessage payload then
                    let lock := acquire (lockKey payload) (snd deb) in
                    if negb (fst lock) then (Ok Locked, snd lock)
                    else
                      (Ok Success,
                       setKeys (fun ks => ks ∖ {[lockKey payload]})
                         (exec (processIncomingMessage sv payload) (snd lock)))
                  else (Ok Success, snd deb)
              end) as Hdeb.
  { intros x Hx. destruct (debounceContent payload) as [content|] eqn:Ec; [|reflexivity].
    rewrite (debounceKey_content sv payload content Ec).
    rewrite bind_bind, (Hset _ _ _ Hx), bind_ret. cbv zeta.
    pose proof (acquire_redisUp (debounceKey sv payload) x Hx) as Hup2.
    destruct (fst (acquire (debounceKey sv payload) x)); cbn [negb]; [|reflexivity].
    rewrite (handleWebhook_locked sv payload _ Hup2). cbv zeta.
    destruct (isUserMessage payload); [|reflexivity].
    destruct (negb (fst (acquire (lockKey payload) _))); reflexivity. }
  destruct (orString (messageId payload) (p_id payload)) as [id|]; cbn [fst snd].
  - change ("zapi:msg:" +:+ id) with (msgKey id).
    rewrite bind_bind, (Hset _ _ _ Hup), bind_ret.
    pose proof (acquire_redisUp (msgKey id) w Hup) as Hup1.
    destruct (fst (acquire (msgKey id) w)); cbn [negb]; [|reflexivity].
    exact (Hdeb _ Hup1).
  - rewrite bind_ret. cbv iota.
    exact (Hdeb _ Hup).
Qed.

(** The same for an event whose message converts to a text. *)
Lemma handleWebhook_printable (sv : Services) (payload : ZApiWebhookPayload) (w : World) :
  accepted payload -> printable payload -> redisUp w ->
  handleWebhook sv payload w
  = let dup :=
      match orString (messageId payload) (p_id payload) with
      | Some id => (negb (fst (acquire (msgKey id) w)), snd (acquire (msgKey id) w))
      | None => (false, w)
      end in
    if fst dup then (Ok Deduped, snd dup)
    else
      let deb := acquire (debounceKey sv payload) (snd dup) in
      if negb (fst deb) then (Ok Debounced, snd deb)
      else if isUserMessage payload then
        let lock := acquire (lockKey payload) (snd deb) in
        if negb (fst lock) then (Ok Locked, snd lock)
        else
          (Ok Success,
           setKeys (fun ks => ks ∖ {[lockKey payload]})
             (exec (processIncomingMessage sv payload) (snd lock)))
      else (Ok Success, snd deb).
Proof.
  intros Hacc [content Ec] Hup. rewrite (handleWebhook_up sv payload w Hacc Hup).
  cbv zeta. now rewrite Ec.
Qed.

Lemma redisUp_setKeys f (w : World) : redisUp (setKeys f w) <-> redisUp w.
Proof. reflexivity. Qed.

Lemma guard_redisUp (w' w : World) : guard w' = guard w -> redisUp w -> redisUp w'.
Proof. unfold guard, redisUp. intros H. injection H as _ E1 E2 _ _ _ _. now rewrite E1, E2. Qed.

(** After a delivery that passed validation, Redis is as it was and
    holds the key that stops the next delivery. *)
Lemma handleWebhook_leaves_key (sv : Services) (payload : ZApiWebhookPayload) (w : World) :
  accepted payload -> printable payload -> redisUp w ->
  let w1 := exec (handleWebhook sv payload) w in
  redisUp w1 /\ deliveryKey sv payload ∈ keys w1.
Proof.
  intros Hacc Hprt Hup. cbv zeta. unfold exec.
  rewrite (handleWebhook_printable sv payload w Hacc Hprt Hup).
  pose proof (lockKey_ne_deliveryKey sv payload) as Hne.
  unfold deliveryKey in *. cbv zeta.
  destruct (orString (messageId payload) (p_id payload)) as [id|]; cbn [fst snd].
  - pose proof (acquire_redisUp (msgKey id) w Hup) as Hup1.
    pose proof (acquire_key (msgKey id) w) as Hk1.
    set (w1 := snd (acquire (msgKey id) w)) in *.
    destruct (fst (acquire (msgKey id) w)); cbn [negb fst snd]; [|auto].
    pose proof (acquire_redisUp (debounceKey sv payload) w1 Hup1) as Hup2.
    pose proof (acquire_keeps (debounceKey sv payload) _ w1 Hk1) as Hk2.
    set (w2 := snd (acquire (debounceKey sv payload) w1)) in *.
    destruct (fst (acquire (debounceKey sv payload) w1)); cbn [negb fst snd]; [|auto].
    destruct (isUserMessage payload); cbn [snd]; [|auto].
    pose proof (acquire_redisUp (lockKey payload) w2 Hup2) as Hup3.
    pose proof (acquire_keeps (lockKey payload) _ w2 Hk2) as Hk3.
    set (w3 := snd (acquire (lockKey payload) w2)) in *.
    destruct (fst (acquire (lockKey payload) w2)); cbn [negb fst snd]; [|auto].
    pose proof (Keeps_processIncomingMessage sv payload w3) as Hg.
    split.
    + apply redisUp_setKeys. exact (guard_redisUp _ _ Hg Hup3).
    + cbn [keys setKeys]. rewrite (guard_keys _ _ Hg).
      apply elem_of_difference. split; [exact Hk3|]. now rewrite elem_of_singleton.
  - pose proof (acquire_redisUp (debounceKey sv payload) w Hup) as Hup2.
    pose proof (acquire_key (debounceKey sv payload) w) as Hk2.
    set (w2 := snd (acquire (debounceKey sv payload) w)) in *.
    destruct (fst (acquire (debounceKey sv payload) w)); cbn [negb fst snd]; [|auto].
    destruct (isUserMessage payload); cbn [snd]; [|auto].
    pose proof (acquire_redisUp (lockKey payload) w2 Hup2) as Hup3.
    pose proof (acquire_keeps (lockKey payload) _ w2 Hk2) as Hk3.
    set (w3 := snd (acquire (lockKey payload) w2)) in *.
    destruct (fst (acquire (lockKey payload) w2)); cbn [negb fst snd]; [|auto].
    pose proof (Keeps_processIncomingMessage sv payload w3) as Hg.
    split.
    + apply redisUp_setKeys. exact (guard_redisUp _ _ Hg Hup3).
    + cbn [keys setKeys]. rewrite (guard_keys _ _ Hg).
      apply elem_of_difference. split; [exact Hk3|]. now rewrite elem_of_singleton.
Qed.

(** A delivery whose key is held is dropped. *)
Lemma handleWebhook_held (sv : Services) (payload : ZApiWebhookPayload) (w : World) :
  accepted payload -> printable payload -> redisUp w -> deliveryKey sv payload ∈ keys w ->
  handleWebhook sv payload w
  = (Ok (match orString (messageId payload) (p_id payload) with
         | Some _ => Deduped
         | None => Debounced
         end), w).
Proof.
  intros Hacc Hprt Hup Hk. rewrite (handleWebhook_printable sv payload w Hacc Hprt Hup).
  unfold deliveryKey in Hk. cbv zeta.
  destruct (orString (messageId payload) (p_id payload)) as [id|]; cbn [fst snd].
  - now rewrite (acquire_held _ _ Hk).
  - now rewrite (acquire_held _ _ Hk).
Qed.

(** While Redis answers and the guard keys live, an event is handled
    at most once: whatever the first delivery of an accepted event led
    to (processed, debounced, locked out, or not a user message), a
    second delivery of the same event is answered as a duplicate (with a
    message id) or as a repeat (without one) and changes nothing. *)
Theorem webhook_redelivery_dropped (sv : Services) (payload : ZApiWebhookPayload)
    (w : World) :
  accepted payload -> printable payload -> redisUp w ->
  let w1 := exec (handleWebhook sv payload) w in
  handleWebhook sv payload w1
  = (Ok (match orString (messageId payload) (p_id payload) with
         | Some _ => Deduped
         | None => Debounced
         end), w1).
Proof.
  intros Hacc Hprt Hup. cbv zeta.
  destruct (handleWebhook_leaves_key sv payload w Hacc Hprt Hup) as [Hup1 Hk].
  now apply handleWebhook_held.
Qed.

Lemma webhook_redelivery_dropped_witness :
  let w1 := exec (handleWebhook Scenario.services (Scenario.textPayload "1"))
              Scenario.emptyWorld in
  handleWebhook Scenario.services (Scenario.textPayload "1") w1 = (Ok Debounced, w1).
Proof.
  apply (webhook_redelivery_dropped Scenario.services (Scenario.textPayload "1")
           Scenario.emptyWorld).
  - repeat split; discriminate.
  - exists "1". reflexivity.
  - split; reflexivity.
Defined.

Lemma acquire_fresh (key : string) (w : World) :
  key ∉ keys w -> acquire key w = (true, setKeys (fun ks => {[key]} ∪ ks) w).
Proof. intros H. unfold acquire. now rewrite bool_decide_eq_false_2. Qed.

Lemma handlerEvent_engineEntries (tz : Date.Zone) (t : Z) (evs : list Event) :
  Forall (handlerEvent tz t) evs -> engineEntries evs = [].
Proof.
  unfold engineEntries. induction 1 as [|e evs He _ IH]; [reflexivity|].
  destruct e; cbn in *; try contradiction; exact IH.
Qed.

Lemma engineEntries_closing (sv : Services) (ph : string) res :
  engineEntries (closing sv ph res) = [].
Proof.
  destruct res as [[r|]|e]; try reflexivity. cbn.
  destruct (zapi_sendMessage sv _); reflexivity.
Qed.

Lemma engineEntries_turn (sv : Services) (payload : ZApiWebhookPayload) (w : World) :
  exists new,
    trace (exec (processIncomingMessage sv payload) w) = trace w ++ new
    /\ engineEntries new = [p_phone payload].
Proof.
  destruct (turn_trace sv payload w) as (evs & F & _ & T & _).
  eexists. split; [exact T|].
  unfold engineEntries. rewrite !omap_app.
  fold (engineEntries evs).
  fold (engineEntries (closing sv (p_phone payload) (transition sv payload w))).
  now rewrite (handlerEvent_engineEntries _ _ _ F), engineEntries_closing.
Qed.

Lemma guard_keys_ne (payload : ZApiWebhookPayload) (sv : Services) (id : string) :
  debounceKey sv payload <> msgKey id
  /\ lockKey payload <> msgKey id
  /\ lockKey payload <> debounceKey sv payload.
Proof. unfold debounceKey, msgKey, lockKey. repeat split; discriminate. Qed.

(** While Redis answers, a user message whose guard keys are free is
    processed: the engine is entered once, the answer is [success], and
    the lock of the phone is released when the engine is done. *)
Theorem webhook_processes_and_releases_lock (sv : Services) (payload : ZApiWebhookPayload)
    (w : World) :
  accepted payload -> printable payload -> redisUp w -> isUserMessage payload = true ->
  deliveryKey sv payload ∉ keys w ->
  debounceKey sv payload ∉ keys w ->
  lockKey payload ∉ keys w ->
  let w' := exec (handleWebhook sv payload) w in
  eval (handleWebhook sv payload) w = Ok Success
  /\ (lockKey payload ∉ keys w')
  /\ deliveryKey sv payload ∈ keys w'
  /\ exists new, trace w' = trace w ++ new /\ engineEntries new = [p_phone payload].
Proof.
  intros Hacc Hprt Hup Huser Hk Hd Hl. cbv zeta.
  destruct (handleWebhook_leaves_key sv payload w Hacc Hprt Hup) as [_ Hkey].
  split; [|split; [|split; [exact Hkey|]]]; clear Hkey;
    unfold eval, exec; rewrite (handleWebhook_printable sv payload w Hacc Hprt Hup);
    unfold deliveryKey in Hk; cbv zeta; rewrite Huser.
  all: destruct (orString (messageId payload) (p_id payload)) as [id|]; cbn [fst snd].
  all: try (destruct (guard_keys_ne payload sv id) as (N1 & N2 & N3);
            rewrite (acquire_fresh _ _ Hk); cbn [negb fst snd];
            rewrite (acquire_fresh (debounceKey sv payload))
              by (cbn [keys setKeys]; rewrite elem_of_union, elem_of_singleton; tauto);
            cbn [negb fst snd];
            rewrite (acquire_fresh (lockKey payload))
              by (cbn [keys setKeys]; rewrite !elem_of_union, !elem_of_singleton; tauto);
            cbn [negb fst snd]).
  all: try (destruct (guard_keys_ne payload sv "") as (_ & _ & N3);
            rewrite (acquire_fresh _ _ Hd); cbn [negb fst snd];
            rewrite (acquire_fresh (lockKey payload))
              by (cbn [keys setKeys]; rewrite !elem_of_union, !elem_of_singleton; tauto);
            cbn [negb fst snd]).
  all: try reflexivity.
  all: try (cbn [keys setKeys]; rewrite elem_of_difference, elem_of_singleton; tauto).
  all: match goal with |- context [exec (processIncomingMessage ?s ?p) ?x] =>
         destruct (engineEntries_turn s p x) as (new & T & E) end;
       exists new; (split; [|exact E]); cbn [trace setKeys]; rewrite T; reflexivity.
Qed.

Lemma webhook_processes_and_releases_lock_witness :
  let w' := exec (handleWebhook Scenario.services (Scenario.textPayload "1"))
              Scenario.emptyWorld in
  eval (handleWebhook Scenario.services (Scenario.textPayload "1")) Scenario.emptyWorld
    = Ok Success
  /\ (lockKey (Scenario.textPayload "1") ∉ keys w').
Proof.
  destruct (webhook_processes_and_releases_lock Scenario.services (Scenario.textPayload "1")
              Scenario.emptyWorld) as (H1 & H2 & _).
  - repeat split; discriminate.
  - exists "1". reflexivity.
  - split; reflexivity.
  - reflexivity.
  - apply not_elem_of_empty.
  - apply not_elem_of_empty.
  - apply not_elem_of_empty.
  - exact (conj H1 H2).
Defined.

(** A user message that arrives while the lock of its phone is held is
    lost for good: it is answered [locked] without entering the engine,
    and because its delivery key was set before the lock was tried, the
    same event delivered again after the lock is gone (and while that
    key lives) is dropped as a duplicate or a repeat. *)
Theorem webhook_locked_message_lost (sv : Services) (payload : ZApiWebhookPayload)
    (w : World) :
  accepted payload -> printable payload -> redisUp w -> isUserMessage payload = true ->
  deliveryKey sv payload ∉ keys w ->
  debounceKey sv payload ∉ keys w ->
  lockKey payload ∈ keys w ->
  let w1 := exec (handleWebhook sv payload) w in
  eval (handleWebhook sv payload) w = Ok Locked
  /\ trace w1 = trace w
  /\ forall w2,
       redisUp w2 -> keys w2 = keys w1 ∖ {[lockKey payload]} ->
       handleWebhook sv payload w2
       = (Ok (match orString (messageId payload) (p_id payload) with
              | Some _ => Deduped
              | None => Debounced
              end), w2).
Proof.
  intros Hacc Hprt Hup Huser Hk Hd Hl. cbv zeta.
  destruct (handleWebhook_leaves_key sv payload w Hacc Hprt Hup) as [_ Hkey].
  split; [|split].
  - unfold eval. rewrite (handleWebhook_printable sv payload w Hacc Hprt Hup).
    unfold deliveryKey in Hk. cbv zeta. rewrite Huser.
    destruct (orString (messageId payload) (p_id payload)) as [id|]; cbn [fst snd].
    + destruct (guard_keys_ne payload sv id) as (N1 & N2 & N3).
      rewrite (acquire_fresh _ _ Hk). cbn [negb fst snd].
      rewrite (acquire_fresh (debounceKey sv payload))
        by (cbn [keys setKeys]; rewrite elem_of_union, elem_of_singleton; tauto).
      cbn [negb fst snd].
      rewrite (acquire_held (lockKey payload))
        by (cbn [keys setKeys]; rewrite !elem_of_union; tauto).
      reflexivity.
    + rewrite (acquire_fresh _ _ Hd). cbn [negb fst snd].
      rewrite (acquire_held (lockKey payload))
        by (cbn [keys setKeys]; rewrite !elem_of_union; tauto).
      reflexivity.
  - unfold exec. rewrite (handleWebhook_printable sv payload w Hacc Hprt Hup).
    unfold deliveryKey in Hk. cbv zeta. rewrite Huser.
    destruct (orString (messageId payload) (p_id payload)) as [id|]; cbn [fst snd].
    + destruct (guard_keys_ne payload sv id) as (N1 & N2 & N3).
      rewrite (acquire_fresh _ _ Hk). cbn [negb fst snd].
      rewrite (acquire_fresh (debounceKey sv payload))
        by (cbn [keys setKeys]; rewrite elem_of_union, elem_of_singleton; tauto).
      cbn [negb fst snd].
      rewrite (acquire_held (lockKey payload))
        by (cbn [keys setKeys]; rewrite !elem_of_union; tauto).
      reflexivity.
    + rewrite (acquire_fresh _ _ Hd). cbn [negb fst snd].
      rewrite (acquire_held (lockKey payload))
        by (cbn [keys setKeys]; rewrite !elem_of_union; tauto).
      reflexivity.
  - intros w2 Hup2 Hkeys. apply (handleWebhook_held sv payload w2 Hacc Hprt Hup2).
    rewrite Hkeys. apply elem_of_difference. split; [exact Hkey|].
    rewrite elem_of_singleton. apply lockKey_ne_deliveryKey.
Qed.

Lemma webhook_locked_message_lost_witness :
  eval (handleWebhook Scenario.services (Scenario.textPayload "1"))
    (setKeys (fun _ => {[ lockKey (Scenario.textPayload "1") ]}) Scenario.emptyWorld)
  = Ok Locked.
Proof.
  refine (proj1 (webhook_locked_message_lost Scenario.services (Scenario.textPayload "1")
    (setKeys (fun _ => {[ lockKey (Scenario.textPayload "1") ]}) Scenario.emptyWorld)
    _ _ _ eq_refl _ _ _)).
  - repeat split; discriminate.
  - exists "1". reflexivity.
  - split; reflexivity.
  - cbn [keys setKeys]. rewrite elem_of_singleton. apply lockKey_ne_deliveryKey.
  - cbn [keys setKeys]. rewrite elem_of_singleton.
    intros E. symmetry in E. revert E. apply (guard_keys_ne _ _ "").
  - cbn [keys setKeys]. now apply elem_of_singleton.
Defined.

(** ** The debounce signature *)

(** The debounce signature prints [payload.message] in a template, and
    an object without a [toString] of its own prints as
    [[object Object]]: two events of the same phone and type whose
    messages are such objects share one debounce key whatever text they
    carry. While that key lives, and when neither event has a message
    id, the second one is dropped as a repeat and changes nothing, even
    if the customer typed something else. *)
Theorem object_messages_debounce_together (sv : Services) (p1 p2 : ZApiWebhookPayload)
    (c1 c2 : option string) (w : World) :
  accepted p1 -> accepted p2 -> redisUp w ->
  p_phone p1 = p_phone p2 -> p_type p1 = p_type p2 ->
  p_message p1 = Some (MsgObject c1 false) -> p_message p2 = Some (MsgObject c2 false) ->
  orString (messageId p1) (p_id p1) = None ->
  orString (messageId p2) (p_id p2) = None ->
  let w1 := exec (handleWebhook sv p1) w in
  debounceContent p1 = Some "[object Object]"
  /\ debounceKey sv p1 = debounceKey sv p2
  /\ handleWebhook sv p2 w1 = (Ok Debounced, w1).
Proof.
  intros Ha1 Ha2 Hup Hph Hty Hm1 Hm2 Hi1 Hi2. cbv zeta.
  assert (debounceContent p1 = Some "[object Object]") as Hc1
    by (unfold debounceContent; now rewrite Hm1).
  assert (debounceContent p2 = Some "[object Object]") as Hc2
    by (unfold debounceContent; now rewrite Hm2).
  assert (debounceKey sv p1 = debounceKey sv p2) as Hk
    by (unfold debounceKey; now rewrite Hph, Hty, Hc1, Hc2).
  split; [exact Hc1|]. split; [exact Hk|].
  assert (printable p1) as Hp1 by (eexists; exact Hc1).
  assert (printable p2) as Hp2 by (eexists; exact Hc2).
  destruct (handleWebhook_leaves_key sv p1 w Ha1 Hp1 Hup) as [Hup1 Hkey].
  unfold deliveryKey in Hkey. rewrite Hi1, Hk in Hkey.
  pose proof (handleWebhook_held sv p2 _ Ha2 Hp2 Hup1) as H.
  unfold deliveryKey in H. rewrite Hi2 in H. exact (H Hkey).
Qed.

Lemma object_messages_debounce_together_witness :
  let w1 := exec (handleWebhook Scenario.services (objectPayload "1")) Scenario.emptyWorld in
  handleWebhook Scenario.services (objectPayload "52998224725") w1 = (Ok Debounced, w1).
Proof.
  cbv zeta.
  refine (proj2 (proj2 (object_messages_debounce_together Scenario.services
                   (objectPayload "1") (objectPayload "52998224725")
                   (Some "1") (Some "52998224725") Scenario.emptyWorld
                   _ _ _ eq_refl eq_refl eq_refl eq_refl eq_refl eq_refl))).
  - repeat split; discriminate.
  - repeat split; discriminate.
  - split; reflexivity.
Defined.

(** ** Answers of the webhook *)

Lemma handleWebhook_down (sv : Services) (payload : ZApiWebhookPayload) (w : World) :
  accepted payload -> redisService w = true -> redis_up w = false ->
  handleWebhook sv payload w
  = (Ok (match orString (messageId payload) (p_id payload) with
         | Some _ => Deduped
         | None =>
             match debounceContent payload with
             | Some _ => Debounced
             | None => ServerError conversionError
             end
         end), w).
Proof.
  intros (Hph & Hty & Hme) Hsvc Hdown. unfold handleWebhook.
  rewrite (string_eqb_false _ _ Hph), (string_eqb_false _ _ Hty), Hme.
  cbn [orb]. unfold tryCatch.
  rewrite (bind_run (ask redisService) _ w w true) by (unfold ask; now rewrite Hsvc).
  destruct (orString (messageId payload) (p_id payload)) as [id|].
  - now rewrite bind_bind, (bind_run _ _ w w false (setIfNotExists_down _ w Hdown)).
  - rewrite bind_ret. cbv iota zeta.
    destruct (debounceContent payload) as [content|]; [|reflexivity].
    now rewrite bind_bind, (bind_run _ _ w w false (setIfNotExists_down _ w Hdown)).
Qed.

Lemma handleWebhook_no_redis (sv : Services) (payload : ZApiWebhookPayload) (w : World) :
  accepted payload -> redisService w = false ->
  handleWebhook sv payload w
  = (Ok Success,
     if isUserMessage payload then exec (processIncomingMessage sv payload) w else w).
Proof.
  intros (Hph & Hty & Hme) Hsvc. unfold handleWebhook.
  rewrite (string_eqb_false _ _ Hph), (string_eqb_false _ _ Hty), Hme.
  cbn [orb]. apply tryCatch_run.
  rewrite (bind_run (ask redisService) _ w w false) by (unfold ask; now rewrite Hsvc).
  assert (bind (match orString (messageId payload) (p_id payload) with
                | Some _ => ret false
                | None => ret false
                end) = bind (ret false)) as ->
    by (destruct (orString _ _); reflexivity).
  rewrite !bind_ret. cbv iota.
  destruct (isUserMessage payload); [|reflexivity].
  now rewrite (bind_run _ _ _ _ _ (processIncomingMessage_ok sv payload w)).
Qed.

Lemma handleWebhook_rejected (sv : Services) (payload : ZApiWebhookPayload) (w : World) :
  ~ accepted payload ->
  exists r, handleWebhook sv payload w = (Ok r, w) /\ (r = BadRequest \/ r = IgnoredFromMe).
Proof.
  intros Hn. unfold handleWebhook.
  destruct (String.eqb_spec (p_phone payload) "") as [E1|E1]; cbn [orb];
    [eexists; split; [reflexivity | auto]|].
  destruct (String.eqb_spec (p_type payload) "") as [E2|E2];
    [eexists; split; [reflexivity | auto]|].
  destruct (fromMe payload) eqn:E3; [eexists; split; [reflexivity | auto]|].
  exfalso. apply Hn. repeat split; assumption.
Qed.

Lemma accepted_dec (payload : ZApiWebhookPayload) : accepted payload \/ ~ accepted payload.
Proof.
  unfold accepted.
  destruct (String.eqb_spec (p_phone payload) ""); [right; tauto|].
  destruct (String.eqb_spec (p_type payload) ""); [right; tauto|].
  destruct (fromMe payload); [right; intros (_ & _ & H); discriminate H|].
  left. auto.
Qed.



(** ** E-mail addresses *)

(** [split] and [join] undo each other, and no part holds the
    separator. *)
Lemma split_join (sep : ascii) (s : string) :
  Js.split sep s <> []
  /\ Js.join (String sep "") (Js.split sep s) = s
  /\ Forall (fun p => noChar sep p = true) (Js.split sep s).
Proof.
  induction s as [|c r IH].
  - repeat split; [discriminate | repeat constructor].
  - destruct IH as (Hne & Hj & Hf). cbn [Js.split]. destruct (Ascii.eqb_spec c sep) as [->|Hc].
    + split; [discriminate|]. split.
      * destruct (Js.split sep r) as [|h t] eqn:E; [congruence|].
        change (Js.join (String sep "") ("" :: h :: t))
          with (String sep (Js.join (String sep "") (h :: t))).
        now rewrite Hj.
      * constructor; [reflexivity | exact Hf].
    + destruct (Js.split sep r) as [|h t] eqn:E; [congruence|].
      split; [discriminate|]. pose proof (Forall_inv Hf) as Hh. pose proof (Forall_inv_tail Hf) as Ht. split.
      * destruct t as [|h' t'].
        -- cbn [Js.join] in *. now rewrite Hj.
        -- change (Js.join (String sep "") (String c h :: h' :: t'))
             with (String c (Js.join (String sep "") (h :: h' :: t'))).
           now rewrite Hj.
      * constructor; [|exact Ht]. cbn [noChar].
        destruct (Ascii.eqb_spec c sep); [contradiction|]. exact Hh.
Qed.

(** An e-mail address that [handleEmail] accepts, trimmed and in lower
    case, has the form [local@domain] with one [@], a non-empty local
    part, and a dot inside the domain that is neither its first nor its
    last character; anything else is answered with a new prompt and
    nothing is written. *)
Theorem email_accepted_form (message ph : string) (w : World) (r : ConversationStep) :
  let email := Js.toLowerCase (Js.trim message) in
  eval (handleEmail message ph) w = Ok (Some r) ->
  (step r = "contract_cep" ->
   exists localPart domain,
     email = localPart +:+ "@" +:+ domain
     /\ Js.replaceSpaces email = email
     /\ localPart <> ""
     /\ noChar "@" localPart = true /\ noChar "@" domain = true
     /\ Js.includes "." (String.substring 1 (String.length domain - 2) domain) = true)
  /\ (step r = "contract_email" -> handleEmail message ph w = (Ok (Some r), w)).
Proof.
  cbv zeta. unfold eval, handleEmail. cbv zeta.
  set (email := Js.toLowerCase (Js.trim message)).
  destruct (String.eqb email "" || negb (emailRegexTest email)) eqn:E.
  - cbn [ret fst]. intros [= <-]. split; [discriminate | reflexivity].
  - destruct (updateClienteData_total ph "email" (JStr email) w) as (w' & Hw & _).
    rewrite (bind_run _ _ w w' tt Hw). cbn [ret fst]. intros [= <-].
    split; [|discriminate]. intros _.
    apply orb_false_elim in E as [_ E]. apply negb_false_iff in E.
    unfold emailRegexTest in E. apply andb_prop in E as [Esp E].
    apply String.eqb_eq in Esp.
    destruct (split_join "@" email) as (_ & Hj & Hf).
    destruct (Js.split "@" email) as [|l [|d [|x t]]]; try discriminate E.
    apply andb_prop in E as [El Ed].
    pose proof (Forall_inv Hf) as Hl. pose proof (Forall_inv (Forall_inv_tail Hf)) as Hd.
    exists l, d. split; [symmetry; exact Hj|]. split; [exact Esp|].
    split; [intros ->; discriminate El|]. auto.
Qed.

Lemma email_accepted_form_witness :
  exists localPart domain,
    "ana@metta.com.br" = localPart +:+ "@" +:+ domain
    /\ Js.replaceSpaces "ana@metta.com.br" = "ana@metta.com.br"
    /\ localPart <> ""
    /\ noChar "@" localPart = true /\ noChar "@" domain = true
    /\ Js.includes "." (String.substring 1 (String.length domain - 2) domain) = true.
Proof.
  exact (proj1 (email_accepted_form " Ana@Metta.com.br " Scenario.phone Scenario.emptyWorld
                  _ eq_refl) eq_refl).
Defined.



(** ** Leaving the extras *)

Section Reading.

Context (sv : Services) (ph : string).

Lemma Reads_ret {A} (a : A) : Reads ph (ret a).
Proof. intros w. auto. Qed.

Lemma Reads_throw {A} (e : string) : Reads ph (@throw A e).
Proof. intros w. auto. Qed.

Lemma Reads_bind {A B} (c : M A) (k : A -> M B) :
  Reads ph c -> (forall a, Reads ph (k a)) -> Reads ph (bind c k).
Proof.
  intros Hc Hk w. destruct (Hc w) as (H1 & H2 & H3). unfold exec, bind in *.
  destruct (c w) as [[a|e] w1]; cbn [snd] in *; [|auto].
  destruct (Hk a w1) as (K1 & K2 & K3). unfold exec in *.
  rewrite K1, K2, K3. auto.
Qed.

Lemma Reads_emit (e : Event) : Reads ph (emit e).
Proof.
  intros w. unfold exec, emit, modify. cbn [snd]. rewrite lookupSession_record. auto.
Qed.

Lemma Reads_getOrCreateSession : Reads ph (getOrCreateSession ph).
Proof.
  intros w. unfold exec. rewrite getOrCreateSession_run. cbn [snd].
  rewrite lookupSession_idempotent. cbn [fst]. now autorewrite with switches.
Qed.

Lemma Reads_extrasSummary (cfg : option ConfiguracaoTurma) (l : list JValue)
    (acc : string * float) :
  Reads ph (extrasSummary sv cfg l acc).
Proof.
  revert acc. induction l as [|element l IH]; intros acc; cbn [extrasSummary].
  - apply Reads_ret.
  - destruct element; try apply Reads_throw. apply IH.
Qed.

End Reading.

Ltac reads :=
  cbv zeta beta;
  lazymatch goal with
  | |- Reads _ (ret _) => apply Reads_ret
  | |- Reads _ (throw _) => apply Reads_throw
  | |- Reads _ (bind _ _) => apply Reads_bind; [reads | intros ?; reads]
  | |- Reads _ (emit _) => apply Reads_emit
  | |- Reads _ (getOrCreateSession _) => apply Reads_getOrCreateSession
  | |- Reads _ (extrasSummary _ _ _ _) => apply Reads_extrasSummary
  | |- Reads _ (dbGetConfiguracaoTurma _ _) => unfold dbGetConfiguracaoTurma; reads
  | |- Reads _ (dbGetItensCustomizados _ _) => unfold dbGetItensCustomizados; reads
  | |- Reads _ (elementsOf _) => unfold elementsOf; reads
  | |- Reads _ (match ?x with _ => _ end) => destruct x; reads
  end.

(** The summary that [handlePackageConfirmation] shows for an empty
    message only reads. *)
Lemma Reads_package_summary (sv : Services) (ph : string) :
  Reads ph (handlePackageConfirmation sv "" ph).
Proof. unfold handlePackageConfirmation. cbn [Js.toLowerCase Js.mapChars String.eqb orb]. reads. Qed.

Ltac reads_summary :=
  cbv zeta beta;
  lazymatch goal with
  | |- Reads _ (handlePackageConfirmation _ "" _) => apply Reads_package_summary
  | |- Reads _ (bind _ _) => apply Reads_bind; [reads_summary | intros ?; reads_summary]
  | |- Reads _ (match ?x with _ => _ end) => destruct x; reads_summary
  | |- _ => reads
  end.

Lemma bind_inv {A B} (c : M A) (k : A -> M B) (w : World) (b : B) :
  eval (bind c k) w = Ok b ->
  exists a w', c w = (Ok a, w') /\ eval (k a) w' = Ok b.
Proof.
  unfold eval, bind. destruct (c w) as [[a|e] w']; [eauto | discriminate].
Qed.

Lemma listIncludes_spec (l : list string) (s : string) :
  listIncludes l s = true <-> s ∈ l.
Proof.
  unfold listIncludes. rewrite existsb_exists. split.
  - intros (x & Hx & E). apply String.eqb_eq in E. subst. now apply list_elem_of_In.
  - intros H. exists s. split; [now apply list_elem_of_In | apply String.eqb_refl].
Qed.

(** The way out of [package_extras]. After an extra is added the reply
    offers [continuar], but the handler does not know it: [continuar] is
    answered as an invalid option and nothing happens. The only message
    that leaves the step is [nenhum], and it stores an empty list of
    extras, dropping the ones chosen before. *)
Theorem package_extras_way_out (sv : Services) (ph : string) (w : World) :
  (forall message r,
     eval (handlePackageExtras sv message ph) w = Ok (Some r) ->
     (step r <> "package_extras" -> Js.toLowerCase message = "nenhum")
     /\ (Js.toLowerCase message ∈ validExtras ->
         step r = "package_extras" /\ "continuar" ∈ optionIds r))
  /\ (exists r,
        handlePackageExtras sv "continuar" ph w = (Ok (Some r), w)
        /\ step r = "package_extras" /\ "continuar" ∉ optionIds r)
  /\ (forall s,
        eval (getOrCreateSession ph) w = Ok s ->
        cached w || durable w = true ->
        extensible (dataProp s "pacoteData") ->
        exists s',
          eval (getOrCreateSession ph) (exec (handlePackageExtras sv "nenhum" ph) w) = Ok s'
          /\ pacoteProp s' "extras" = Some (JArr [])).
Proof.
  split; [|split].
  - intros message r. unfold handlePackageExtras. cbv zeta.
    set (extra := Js.toLowerCase message).
    destruct (String.eqb_spec extra "nenhum") as [->|Hne].
    { intros _. split; [reflexivity|]. unfold validExtras.
      rewrite !elem_of_cons, elem_of_nil. intros H.
      repeat (destruct H as [H|H]; [discriminate H|]). destruct H. }
    change ["capa_acrilico"; "madeira"; "couro"; "marcadores"; "box"] with validExtras.
    destruct (listIncludes validExtras extra) eqn:Ein; cbn [negb].
    + intros H.
      apply bind_inv in H as (s & w1 & _ & H).
      apply bind_inv in H as (l & w2 & _ & H).
      apply bind_inv in H as (u & w3 & _ & H).
      unfold eval, ret in H. cbn [fst] in H. injection H as <-.
      split; [intros Hs; exfalso; apply Hs; reflexivity|]. intros _.
      split; [reflexivity|]. unfold optionIds. cbn.
      rewrite !elem_of_cons. tauto.
    + unfold eval, ret. cbn [fst]. intros [= <-].
      split; [intros Hs; exfalso; apply Hs; reflexivity|].
      intros Hin. apply listIncludes_spec in Hin. congruence.
  - eexists. split; [reflexivity|]. split; [reflexivity|].
    unfold optionIds. cbn. rewrite !not_elem_of_cons.
    repeat (split; [discriminate|]). apply not_elem_of_nil.
  - intros s Hs Hup Hx. apply eval_getOrCreateSession in Hs.
    unfold handlePackageExtras. cbv zeta.
    change (Js.toLowerCase "nenhum") with "nenhum". cbn [String.eqb Ascii.eqb Bool.eqb].
    change (updatePackageData ph "extras" (JArr []))
      with (performWrite ph (WPacote "extras" (JArr []))).
    destruct (performWrite_read ph (WPacote "extras" (JArr [])) w Hup)
      as (E & _ & _ & _ & Hdata & _).
    { now rewrite <- Hs. }
    unfold exec at 1. rewrite (bind_run _ _ _ _ tt (eval_exec_run _ _ _ E)).
    match goal with |- context [snd (?c ?x)] =>
      assert (Reads ph c) as Hr by reads_summary;
      destruct (Hr x) as (Hread & _ & _) end.
    unfold exec in Hread at 1.
    eexists. split; [apply eval_getOrCreateSession; reflexivity|].
    rewrite Hread. unfold pacoteProp, dataProp. rewrite Hdata.
    cbn [jsonWrite Json.roundTrip map].
    rewrite applyWrite_pacote. now rewrite decide_True.
Qed.

Lemma package_extras_way_out_witness :
  exists s',
    eval (getOrCreateSession Scenario.phone)
      (exec (handlePackageExtras Scenario.services "nenhum" Scenario.phone)
         (Scenario.worldAt "package_extras"
            (Some {[ "pacoteData" := JObj {[ "extras" := JArr [JStr "box"] ]} ]}))) = Ok s'
    /\ pacoteProp s' "extras" = Some (JArr []).
Proof.
  exact (proj2 (proj2 (package_extras_way_out Scenario.services Scenario.phone
    (Scenario.worldAt "package_extras"
       (Some {[ "pacoteData" := JObj {[ "extras" := JArr [JStr "box"] ]} ]}))))
    (ctxOf Scenario.phone "package_extras" ""
       (Some {[ "pacoteData" := JObj {[ "extras" := JArr [JStr "box"] ]} ]}))
    eq_refl eq_refl I).
Defined.
